(** * GetFame backend: payment-to-fulfillment pipeline

    A shallow embedding of the webhook, order-store, catalog-cache and
    signature-verification code of the GetFame backend variants, and the
    properties of that code.

    The repository holds several successive variants of the same server.
    Each one is embedded in a module of its own: [V2], [V3], [V3Complete]
    and [V5] after the directory they live in, [ServerV3] and [ServerJap]
    for the two servers whose file name is not recorded.  What lies outside
    the repository (the HMAC, Stripe's SDK, the upstream panel, the clock,
    floating-point arithmetic) enters as a parameter or as an input of the
    handler that meets it. *)

From stdpp Require Import gmap strings list fin_maps sorting pretty.
From Stdlib Require Import ZArith NArith QArith Ascii String.

Local Open Scope string_scope.
Local Open Scope list_scope.

(** ** JavaScript values as the handlers see them *)

Module JS.

(** A value produced by [JSON.parse] (the body parser of the server).
    Strings are sequences of code units; a number is carried as the text
    [Number::toString] yields for it.  An object is its list of own
    properties, in own-property order. *)
#[local] Unset Elimination Schemes.
Inductive value : Type :=
  | JNull
  | JBool (b : bool)
  | JNum (repr : string)
  | JStr (s : string)
  | JArr (elems : list value)
  | JObj (props : list (string * value)).
#[local] Set Elimination Schemes.

Abbreviation object := (list (string * value)).

(** Induction over values that reaches inside arrays and objects. *)
Section value_induction.
Variable P : value -> Prop.
Hypothesis Hnull : P JNull.
Hypothesis Hbool : forall b, P (JBool b).
Hypothesis Hnum : forall r, P (JNum r).
Hypothesis Hstr : forall s, P (JStr s).
Hypothesis Harr : forall xs, Forall P xs -> P (JArr xs).
Hypothesis Hobj : forall ps, Forall (fun kv => P (snd kv)) ps -> P (JObj ps).

Fixpoint value_nested_ind (v : value) : P v :=
  match v with
  | JNull => Hnull
  | JBool b => Hbool b
  | JNum r => Hnum r
  | JStr s => Hstr s
  | JArr xs =>
      Harr xs
        ((fix all (l : list value) : Forall P l :=
            match l with
            | [] => @List.Forall_nil _ P
            | x :: l' => @List.Forall_cons _ P x l' (value_nested_ind x) (all l')
            end) xs)
  | JObj ps =>
      Hobj ps
        ((fix all (l : list (string * value)) : Forall (fun kv => P (snd kv)) l :=
            match l with
            | [] => @List.Forall_nil _ _
            | kv :: l' =>
                @List.Forall_cons _ (fun kv => P (snd kv)) kv l'
                  (value_nested_ind (snd kv)) (all l')
            end) ps)
  end.
End value_induction.

(** Truthiness of an optional string (a header or an environment variable):
    [undefined] and the empty string are falsy. *)
Definition truthy (o : option string) : bool :=
  match o with
  | Some (String _ _) => true
  | _ => false
  end.

(** *** Characters used by the serializer *)

Definition dquote : string := String (ascii_of_N 34) EmptyString.
Definition backslash : string := String (ascii_of_N 92) EmptyString.

Definition hex_digit (n : N) : ascii :=
  if (n <? 10)%N then ascii_of_N (48 + n) else ascii_of_N (87 + n).

(** QuoteJSONString, one code unit at a time. *)
Definition quote_unit (c : ascii) : string :=
  let n := N_of_ascii c in
  if (n =? 8)%N then backslash +:+ "b"
  else if (n =? 9)%N then backslash +:+ "t"
  else if (n =? 10)%N then backslash +:+ "n"
  else if (n =? 12)%N then backslash +:+ "f"
  else if (n =? 13)%N then backslash +:+ "r"
  else if (n =? 34)%N then backslash +:+ dquote
  else if (n =? 92)%N then backslash +:+ backslash
  else if (n <? 32)%N then
    backslash +:+ "u00" +:+
      String (hex_digit (n / 16)) (String (hex_digit (n mod 16)) EmptyString)
  else String c EmptyString.

Fixpoint quote_units (s : string) : string :=
  match s with
  | EmptyString => EmptyString
  | String c s' => quote_unit c +:+ quote_units s'
  end.

Definition QuoteJSONString (s : string) : string :=
  dquote +:+ quote_units s +:+ dquote.

(** *** Own properties *)

(** [Object.keys(o)]. *)
Definition Object_keys (o : object) : list string := map fst o.

(** [o[k]] for an own property. *)
Fixpoint own (o : object) (k : string) : option value :=
  match o with
  | [] => None
  | (k', v) :: o' => if String.eqb k' k then Some v else own o' k
  end.

(** [o[k]] when it is a string: what [o[k] === 'text'] and a lookup in a
    map with string keys can match. *)
Definition string_member (o : object) (k : string) : option string :=
  match own o k with
  | Some (JStr s) => Some s
  | _ => None
  end.

(** An array index: the canonical decimal text of an integer below
    [2^32 - 1].  Own properties with such keys come first, in ascending
    numeric order, whatever the order they were created in. *)
Fixpoint digits_value (s : string) (acc : N) : option N :=
  match s with
  | EmptyString => Some acc
  | String c s' =>
      let n := N_of_ascii c in
      if ((48 <=? n) && (n <=? 57))%N
      then digits_value s' (acc * 10 + (n - 48))%N
      else None
  end.

Definition array_index (k : string) : option N :=
  match k with
  | EmptyString => None
  | String c rest =>
      if (N_of_ascii c =? 48)%N && negb (String.eqb rest EmptyString) then None
      else match digits_value k 0 with
           | Some n => if (n <? 4294967295)%N then Some n else None
           | None => None
           end
  end.

Fixpoint replace_own (o : object) (k : string) (v : value) : object :=
  match o with
  | [] => []
  | (k', x) :: o' =>
      if String.eqb k' k then (k', v) :: o' else (k', x) :: replace_own o' k v
  end.

Fixpoint insert_index (o : object) (n : N) (k : string) (v : value) : object :=
  match o with
  | [] => [(k, v)]
  | (k', x) :: o' =>
      match array_index k' with
      | Some m => if (m <? n)%N then (k', x) :: insert_index o' n k v
                  else (k, v) :: o
      | None => (k, v) :: o
      end
  end.

Definition proto_key : string := "__proto__".

(** [o[k] = v] on an ordinary object: an own property is overwritten in
    place; [__proto__] that is not an own property goes to the inherited
    setter and creates nothing; a new array index is placed among the
    indices, any other new key last. *)
Definition obj_set (o : object) (k : string) (v : value) : object :=
  match own o k with
  | Some _ => replace_own o k v
  | None =>
      if String.eqb k proto_key then o
      else match array_index k with
           | Some n => insert_index o n k v
           | None => o ++ [(k, v)]
           end
  end.

(** [Array.prototype.sort()] without a comparator, on an array of strings:
    ascending order of code units. *)
Definition sort (keys : list string) : list string := merge_sort String.le keys.

(** The property list JSON.stringify builds from an array replacer: the
    items in order, each kept at its first occurrence only. *)
Fixpoint property_list (seen items : list string) : list string :=
  match items with
  | [] => []
  | x :: rest =>
      if decide (x ∈ seen) then property_list seen rest
      else x :: property_list (x :: seen) rest
  end.

(** What SerializeJSONObject yields for [Object.prototype] under a property
    list that holds the key [__proto__]: that accessor, inherited by every
    parsed object, is the one inherited property that is not a function. *)
Definition proto_text : string :=
  "{" +:+ QuoteJSONString proto_key +:+ ":null}".

(** SerializeJSONProperty with an empty gap.  [K] is the property list
    ([None] when JSON.stringify is called without a replacer: the own keys of
    each object are used). *)
Fixpoint serialize (K : option (list string)) (v : value) {struct v} : string :=
  match v with
  | JNull => "null"
  | JBool true => "true"
  | JBool false => "false"
  | JNum r => r
  | JStr s => QuoteJSONString s
  | JArr xs =>
      "[" +:+
      String.concat ","
        ((fix elems (l : list value) : list string :=
            match l with
            | [] => []
            | x :: l' => serialize K x :: elems l'
            end) xs)
      +:+ "]"
  | JObj ps =>
      let get : string -> option string :=
        (fix get (l : list (string * value)) (p : string) : option string :=
           match l with
           | [] => if String.eqb p proto_key then Some proto_text else None
           | (k, x) :: l' =>
               if String.eqb k p then Some (serialize K x) else get l' p
           end) ps in
      let keys := match K with Some ks => ks | None => map fst ps end in
      "{" +:+
      String.concat ","
        (omap (fun p => (fun s => QuoteJSONString p +:+ ":" +:+ s) <$> get p) keys)
      +:+ "}"
  end.

(** [JSON.stringify(v)]. *)
Definition JSON_stringify (v : value) : string := serialize None v.

(** [JSON.stringify(v, replacer)] with an array of strings as replacer. *)
Definition JSON_stringify_with (v : value) (replacer : list string) : string :=
  serialize (Some (property_list [] replacer)) v.

End JS.

Import JS.

(** ** Collaborators outside the repository *)

(** Node's [crypto.createHmac('sha512', key).update(msg).digest('hex')]. *)
Class Crypto := { hmac_sha512_hex : string -> string -> string }.

(** ** getfame-backend-v3/lib/nowpayments.js *)

Module V3.
Section nowpayments.
Context {crypto : Crypto}.

(** The text the signature is computed over. *)
Definition signed_text (payload : object) : string :=
  JSON_stringify_with (JObj payload) (JS.sort (Object_keys payload)).

(** [verifyIPNSignature(payload, signature)]; [env_secret] is
    [process.env.NOWPAYMENTS_IPN_SECRET]. *)
Definition verifyIPNSignature (env_secret : option string)
    (payload : object) (signature : option string) : bool :=
  let key := if truthy env_secret then default EmptyString env_secret
             else EmptyString in
  let calculatedSignature := hmac_sha512_hex key (signed_text payload) in
  match signature with
  | Some s => String.eqb calculatedSignature s
  | None => false
  end.
End nowpayments.

(** *** lib/curated-services.js, lib/jap-api.js and the two copies of
        lib/services.js *)

Record info := mkInfo {
  info_name : string;
  info_platform : string;
  info_type : string;
  info_description : string
}.

(** The table, in the order [Object.entries] lists its keys. *)
Definition CURATED_SERVICES : list (Z * info) :=
  [(1761, mkInfo "Likes - Elite" "instagram" "likes" "Top quality");
   (5951, mkInfo "Followers - Elite" "instagram" "followers" "Premium USA followers");
   (6073, mkInfo "Likes - Premium" "instagram" "likes" "USA/EU exclusive");
   (6074, mkInfo "Followers - Premium" "instagram" "followers" "USA/EU exclusive");
   (7444, mkInfo "Views - Premium" "instagram" "views" "Fast views");
   (7445, mkInfo "Likes - Standard" "instagram" "likes" "Fast delivery");
   (7446, mkInfo "Followers - Standard" "instagram" "followers" "Fast delivery")]%Z.

Fixpoint getCuratedInfo_in (table : list (Z * info)) (serviceId : Z) : option info :=
  match table with
  | [] => None
  | (k, i) :: table' =>
      if (k =? serviceId)%Z then Some i else getCuratedInfo_in table' serviceId
  end.

Definition getCuratedInfo (serviceId : Z) : option info :=
  getCuratedInfo_in CURATED_SERVICES serviceId.

Definition isCurated (serviceId : Z) : bool :=
  match getCuratedInfo serviceId with Some _ => true | None => false end.

(** An element of the array the upstream returns. *)
Record RawService := mkRaw {
  raw_service : Z;
  raw_rate : string;
  raw_min : value;
  raw_max : value;
  raw_refill : bool
}.

(** A service as the catalog serves it; [refill] is absent ([None]) in
    the copy that does not set it. *)
Record Service := mkService {
  id : Z;
  name : string;
  platform : string;
  type : string;
  description : string;
  rate : string;
  min : value;
  max : value;
  refill : option bool
}.

(** What the request of [fetchJAPServices] ends in: a failure, or the
    parsed body, an array or not.  A [null] element of the array is
    [None]. *)
Inductive fetch_outcome :=
  | FetchFailed (message : string)
  | Fetched (data : option (list (option RawService))).

(** [fetchJAPServices()]. *)
Definition fetchJAPServices (o : fetch_outcome) : list (option RawService) :=
  match o with
  | Fetched (Some data) => data
  | Fetched None => []
  | FetchFailed _ => []
  end.

Definition CACHE_DURATION : Z := 5 * 60 * 1000.

Record cache := mkCache {
  servicesCache : option (list Service);
  cacheTimestamp : Z
}.

Definition empty_cache : cache := mkCache None 0.

(** [clearCache()]. *)
Definition clearCache (c : cache) : cache := empty_cache.

(** [getCuratedFallback()], with the rate text of the copy at hand. *)
Definition getCuratedFallback (rate : string) (with_refill : bool)
    : list Service :=
  map
    (fun '(k, i) =>
       mkService k (info_name i) (info_platform i) (info_type i)
         (info_description i) rate (JNum "100") (JNum "10000")
         (if with_refill then Some false else None))
    CURATED_SERVICES.

Section services.
(** [(parseFloat(service.rate) * PROFIT_MARGIN).toFixed(2)]:
    floating-point arithmetic on the rate text. *)
Variable markup : string -> string.

(** [japServices.filter(...).map(...)]; [None] when a callback throws,
    which it does on a [null] element. *)
Fixpoint curate (with_refill : bool) (japServices : list (option RawService))
    : option (list Service) :=
  match japServices with
  | [] => Some []
  | None :: _ => None
  | Some service :: rest =>
      match curate with_refill rest with
      | None => None
      | Some services =>
          match getCuratedInfo (raw_service service) with
          | Some i =>
              Some
                (mkService (raw_service service) (info_name i)
                   (info_platform i) (info_type i) (info_description i)
                   (markup (raw_rate service)) (raw_min service)
                   (raw_max service)
                   (if with_refill then Some (raw_refill service) else None)
                 :: services)
          | None => Some services
          end
      end
  end.

Definition fresh (now : Z) (c : cache) : option (list Service) :=
  match servicesCache c with
  | Some cached =>
      if (now - cacheTimestamp c <? CACHE_DURATION)%Z then Some cached else None
  | None => None
  end.

(** [getServices()] of lib/services.js. *)
Definition getServices (now : Z) (o : fetch_outcome) (later : Z) (c : cache)
    : list Service * cache :=
  match fresh now c with
  | Some cached => (cached, c)
  | None =>
      match curate true (fetchJAPServices o) with
      | Some curatedServices =>
          (curatedServices, mkCache (Some curatedServices) later)
      | None => (getCuratedFallback "0.00" true, c)
      end
  end.

(** [getServices()] of the copy under "Type: lib/lib/lib". *)
Definition getServices_typelib (now : Z) (o : fetch_outcome) (later : Z)
    (c : cache) : list Service * cache :=
  match fresh now c with
  | Some cached => (cached, c)
  | None =>
      match fetchJAPServices o with
      | [] => (getCuratedFallback "12.99" false, c)
      | japServices =>
          match curate false japServices with
          | Some [] => (getCuratedFallback "12.99" false, c)
          | Some curatedServices =>
              (curatedServices, mkCache (Some curatedServices) later)
          | None => (getCuratedFallback "12.99" false, c)
          end
      end
  end.

(** [getServiceById(serviceId)], over either copy. *)
Definition getServiceById (services : list Service) (serviceId : Z)
    : option Service :=
  List.find (fun s => (id s =? serviceId)%Z) services.
End services.
End V3.

(** The upstream provisioning API (JustAnotherPanel), [action: 'add']. *)
Module Jap.
(** A number the handlers pass on, as [parseInt] or the store yields it:
    [NaN], a double that is an integer (by its exact value), the negative
    zero, or an infinity. *)
Inductive number :=
  | NaN
  | Num (z : Z)
  | NegZero
  | Infinity (negative : bool).

(** A number read off a stored record.  The handlers test it before they
    dispatch, so a missing one reaches no call; [JSON.stringify] would write
    it [null], as it writes [NaN]. *)
Definition stored (o : option Z) : number :=
  match o with
  | Some z => Num z
  | None => NaN
  end.

(** [a < b]: false when either is [NaN]. *)
Definition lt (a b : number) : bool :=
  match a, b with
  | NaN, _ | _, NaN => false
  | Infinity true, Infinity true => false
  | Infinity true, _ => true
  | _, Infinity true => false
  | Infinity false, _ => false
  | _, Infinity false => true
  | Num x, Num y => (x <? y)%Z
  | Num x, NegZero => (x <? 0)%Z
  | NegZero, Num y => (0 <? y)%Z
  | NegZero, NegZero => false
  end.

(** The integer a number is strictly equal to, if there is one. *)
Definition integer (n : number) : option Z :=
  match n with
  | Num z => Some z
  | NegZero => Some 0%Z
  | NaN | Infinity _ => None
  end.

Record request := Request {
  service : number;
  link : option string;
  quantity : number
}.

(** What one call comes back with: [fetch] or [response.json()] rejects
    (connection failure, timeout, a 5xx page that is not JSON), or a JSON
    body with its [order] and [error] members. *)
Inductive reply :=
  | NetworkError (message : string)
  | Response (order : option Z) (error : option string).

(** The upstream as the server meets it: the reply to the k-th call. *)
Definition upstream := nat -> reply.

(** Truthiness of [data.order]. *)
Definition order_truthy (o : option Z) : bool :=
  match o with
  | Some n => negb (n =? 0)%Z
  | None => false
  end.
End Jap.

(** Stripe's SDK and the events it delivers. *)
Module Stripe.
Record session := Session {
  id : string;
  customer_email : option string;
  amount_total : Z;
  payment_intent : option string;
  metadata : list (string * string)
}.

(** A parsed event: [event.type] and [event.data.object]. *)
Record event := Event {
  type : string;
  object : session
}.

(** [session.metadata.key]. *)
Fixpoint meta (m : list (string * string)) (key : string) : option string :=
  match m with
  | [] => None
  | (k, v) :: m' => if String.eqb k key then Some v else meta m' key
  end.

(** [stripe.webhooks.constructEvent(payload, header, secret)] and
    [JSON.parse(payload)] read as an event; [inl] is the message of the
    error they throw. *)
Class Sdk := {
  constructEvent : string -> option string -> string -> string + event;
  JSON_parse : string -> string + event
}.
End Stripe.

(** [parseInt(s)], without radix argument, on a text of code units below
    256: leading blanks, an optional sign, an optional [0x] or [0X], then the
    longest run of digits of the radix; [NaN] when there is none, otherwise
    the double nearest to the integer the digits write. *)
Module ParseInt.
(** [StrWhiteSpaceChar]. *)
Definition is_blank (c : ascii) : bool :=
  let n := N_of_ascii c in
  ((n =? 32) || ((9 <=? n) && (n <=? 13)) || (n =? 160))%N.

(** The value of a code unit as a digit of the radix, 10 or 16. *)
Definition digit (radix : Z) (c : ascii) : option Z :=
  let n := Z.of_N (N_of_ascii c) in
  let v :=
    if ((48 <=? n) && (n <=? 57))%Z then Some (n - 48)%Z
    else if ((97 <=? n) && (n <=? 102))%Z then Some (n - 87)%Z
    else if ((65 <=? n) && (n <=? 70))%Z then Some (n - 55)%Z
    else None in
  match v with
  | Some d => if (d <? radix)%Z then Some d else None
  | None => None
  end.

Fixpoint skip_blanks (s : string) : string :=
  match s with
  | String c s' => if is_blank c then skip_blanks s' else s
  | EmptyString => s
  end.

(** The integer the longest run of digits at the head of [s] writes, after
    the digits already read; [None] while no digit has been read. *)
Fixpoint digits (radix : Z) (s : string) (acc : option Z) : option Z :=
  match s with
  | EmptyString => acc
  | String c s' =>
      match digit radix c with
      | Some d => digits radix s' (Some (default 0 acc * radix + d)%Z)
      | None => acc
      end
  end.

(** The sign at the head of a text, [true] for [-], and the rest. *)
Definition sign (s : string) : bool * string :=
  match s with
  | String c s' =>
      if Ascii.eqb c "-" then (true, s')
      else if Ascii.eqb c "+" then (false, s')
      else (false, s)
  | EmptyString => (false, s)
  end.

(** The radix a text is read in, and the text after the prefix. *)
Definition radix_prefix (s : string) : Z * string :=
  match s with
  | String c (String x s') =>
      if Ascii.eqb c "0" && (Ascii.eqb x "x" || Ascii.eqb x "X")
      then (16%Z, s') else (10%Z, s)
  | _ => (10%Z, s)
  end.

(** The double nearest to a positive integer, ties to the even mantissa;
    an infinity from 2^1024 on. *)
Definition nearest_double (a : Z) : option Z :=
  if (a <? 2 ^ 53)%Z then Some a
  else
    let shift := (Z.log2 a - 52)%Z in
    let m := Z.shiftr a shift in
    let r := (a - Z.shiftl m shift)%Z in
    let half := (2 ^ (shift - 1))%Z in
    let m' :=
      if (r <? half)%Z then m
      else if (half <? r)%Z then (m + 1)%Z
      else if Z.even m then m else (m + 1)%Z in
    let v := Z.shiftl m' shift in
    if (v <? 2 ^ 1024)%Z then Some v else None.

(** The number for a sign and the integer the digits write. *)
Definition to_number (negative : bool) (mathInt : Z) : Jap.number :=
  if (mathInt =? 0)%Z then (if negative then Jap.NegZero else Jap.Num 0)
  else
    match nearest_double mathInt with
    | Some v => Jap.Num (if negative then - v else v)
    | None => Jap.Infinity negative
    end.

Definition parseInt (s : string) : Jap.number :=
  let '(negative, s1) := sign (skip_blanks s) in
  let '(radix, s2) := radix_prefix s1 in
  match digits radix s2 None with
  | Some mathInt => to_number negative mathInt
  | None => Jap.NaN
  end.

(** [parseInt(v)] for a value that may be [undefined]. *)
Definition parseInt_of (v : option string) : Jap.number :=
  match v with
  | Some s => parseInt s
  | None => Jap.NaN
  end.
End ParseInt.

(** What a handler answers: [res.status(code).json(body)] or
    [res.status(code).send(text)]. *)
Module Http.
Inductive response :=
  | Json (status : Z) (body : JS.value)
  | Text (status : Z) (body : string).

Definition received : response :=
  Json 200 (JObj [("received", JBool true)]).
Definition success : response :=
  Json 200 (JObj [("success", JBool true)]).
Definition error (status : Z) (message : string) : response :=
  Json status (JObj [("error", JStr message)]).
End Http.

(** ** getfame-backend-v3-complete: lib/orders.js, lib/nowpayments.js,
       lib/payments.js, lib/jap-api.js and the handlers of server.js *)

Module V3Complete.

(** An order of the in-memory [orders] map. *)
Record Order := mkOrder {
  id : string;
  serviceId : Z;
  serviceName : string;
  link : string;
  quantity : Z;
  email : string;
  pricePerK : string;
  total : string;
  paymentMethod : string;
  status : string;
  japOrderId : option Z;
  createdAt : Z
}.

Definition with_status (s : string) (o : Order) : Order :=
  mkOrder (id o) (serviceId o) (serviceName o) (link o) (quantity o) (email o)
    (pricePerK o) (total o) (paymentMethod o) s (japOrderId o) (createdAt o).

Definition with_japOrderId (j : option Z) (o : Order) : Order :=
  mkOrder (id o) (serviceId o) (serviceName o) (link o) (quantity o) (email o)
    (pricePerK o) (total o) (paymentMethod o) (status o) j (createdAt o).

(** The [extra] argument of [updateOrderStatus]: [{}] or
    [{ japOrderId: j }], the two shapes the callers pass. *)
Inductive extra :=
  | NoExtra
  | JapOrderId (j : option Z).

(** [Object.assign(order, extra)]. *)
Definition assign (e : extra) (o : Order) : Order :=
  match e with
  | NoExtra => o
  | JapOrderId j => with_japOrderId j o
  end.

(** A service of the catalog, as [getServiceById] returns it. *)
Record Service := mkService {
  service_id : Z;
  name : string;
  platform : string;
  rate : string;
  min : Z;
  max : Z
}.

(** The server's memory and the record of what it asked of its
    collaborators: upstream provisioning calls, Stripe checkout sessions
    (order id, amount) and NOWPayments invoices (order id, amount). *)
Record state := mkState {
  orders : gmap string Order;
  japCalls : list Jap.request;
  checkouts : list (string * string);
  invoices : list (string * string)
}.

Definition with_orders (m : gmap string Order) (st : state) : state :=
  mkState m (japCalls st) (checkouts st) (invoices st).

Definition initial : state := mkState ∅ [] [] [].

Section orders.
(** [parseFloat(((parseFloat(pricePerK) / 1000) * quantity).toFixed(2))],
    floating-point arithmetic, carried as the text of the result. *)
Variable order_total : string -> Z -> string.

(** [createOrder]; [orderId] is the value [uuidv4()] yields and [now]
    the clock. *)
Definition createOrder (orderId : string) (now : Z)
    (serviceId : Z) (serviceName link : string) (quantity : Z)
    (email pricePerK paymentMethod : string) (st : state) : Order * state :=
  let order :=
    mkOrder orderId serviceId serviceName link quantity email pricePerK
      (order_total pricePerK quantity) paymentMethod "pending" None now in
  (order, with_orders (<[orderId := order]> (orders st)) st).
End orders.

Definition getOrder (orderId : string) (st : state) : option Order :=
  orders st !! orderId.

(** [updateOrderStatus(orderId, status, extra = {})]. *)
Definition updateOrderStatus (orderId status : string) (e : extra)
    (st : state) : option Order * state :=
  match orders st !! orderId with
  | Some order =>
      let order' := assign e (with_status status order) in
      (Some order', with_orders (<[orderId := order']> (orders st)) st)
  | None => (None, st)
  end.

(** [createJAPOrder] of lib/jap-api.js, given the reply to its request:
    it throws on a failed request and on [data.error], and returns
    [data.order] otherwise. *)
Definition createJAPOrder (r : Jap.reply) : string + option Z :=
  match r with
  | Jap.NetworkError m => inl m
  | Jap.Response order error =>
      if truthy error then inl (default EmptyString error) else inr order
  end.

(** [processOrder(orderId)]: [inl] is the thrown error. *)
Definition processOrder (up : Jap.upstream) (orderId : string) (st : state)
    : (string + option Z) * state :=
  match orders st !! orderId with
  | None => (inl "Order not found", st)
  | Some order =>
      if negb (String.eqb (status order) "paid") then (inl "Order not paid", st)
      else
        let request :=
          Jap.Request (Jap.Num (serviceId order)) (Some (link order))
            (Jap.Num (quantity order)) in
        let st1 :=
          mkState (orders st) (japCalls st ++ [request]) (checkouts st) (invoices st) in
        match createJAPOrder (up (List.length (japCalls st))) with
        | inl e => (inl e, st1)
        | inr j =>
            (inr j, snd (updateOrderStatus orderId "processing" (JapOrderId j) st1))
        end
  end.

Section nowpayments.
Context {crypto : Crypto}.

(** [verifyIPNSignature(payload, signature)] of lib/nowpayments.js. *)
Definition verifyIPNSignature (env_secret : option string)
    (payload : object) (signature : option string) : bool :=
  if negb (truthy env_secret) then true
  else
    let digest :=
      hmac_sha512_hex (default EmptyString env_secret)
        (JSON_stringify_with (JObj payload) (JS.sort (Object_keys payload))) in
    match signature with
    | Some s => String.eqb digest s
    | None => false
    end.
End nowpayments.

Section server.
Context {sdk : Stripe.Sdk}.
Variable order_total : string -> Z -> string.

(** [verifyStripeWebhook(payload, signature)] of lib/payments.js;
    [inl] when it throws. *)
Definition verifyStripeWebhook (env_secret : option string)
    (payload : string) (signature : option string) : string + Stripe.event :=
  if negb (truthy env_secret) then Stripe.JSON_parse payload
  else Stripe.constructEvent payload signature (default EmptyString env_secret).

(** The body shared by the two webhook handlers once the order id is
    known: mark paid, then try to process. *)
Definition mark_and_process (up : Jap.upstream) (orderId : string)
    (st : state) : state :=
  let st1 := snd (updateOrderStatus orderId "paid" NoExtra st) in
  snd (processOrder up orderId st1).

(** [app.post('/api/webhooks/stripe')]. *)
Definition stripe_webhook (env_secret : option string) (up : Jap.upstream)
    (payload : string) (signature : option string) (st : state)
    : Http.response * state :=
  match verifyStripeWebhook env_secret payload signature with
  | inl message => (Http.error 400 message, st)
  | inr event =>
      if String.eqb (Stripe.type event) "checkout.session.completed" then
        let orderId := Stripe.meta (Stripe.metadata (Stripe.object event)) "orderId" in
        if truthy orderId
        then (Http.received, mark_and_process up (default EmptyString orderId) st)
        else (Http.received, st)
      else (Http.received, st)
  end.

(** [app.post('/api/webhooks/nowpayments')]: the body is read as it
    comes, no header is looked at.  A key of the [orders] map is a
    string, so an [order_id] of another type finds no order. *)
Definition nowpayments_webhook (up : Jap.upstream) (body : object)
    (st : state) : Http.response * state :=
  match own body "payment_status" with
  | Some (JStr s) =>
      if String.eqb s "finished" || String.eqb s "confirmed" then
        match own body "order_id" with
        | Some (JStr order_id) => (Http.received, mark_and_process up order_id st)
        | _ => (Http.received, st)
        end
      else (Http.received, st)
  | _ => (Http.received, st)
  end.

(** The body of a checkout request; a member that is missing or falsy
    is [None]. *)
Record OrderBody := mkBody {
  body_serviceId : option Z;
  body_link : option string;
  body_quantity : option Z;
  body_email : option string
}.

(** [app.post('/api/order')]: [catalog] is what [getServiceById]
    resolves to, [checkout] the URL Stripe returns ([inl]: the message of
    the error the call throws). *)
Definition post_order (catalog : Z -> option Service)
    (orderId : string) (now : Z) (checkout : string + string)
    (body : OrderBody) (st : state) : Http.response * state :=
  match body_serviceId body, body_link body, body_quantity body, body_email body with
  | Some serviceId, Some link, Some quantity, Some email =>
      if (serviceId =? 0)%Z || String.eqb link EmptyString
         || (quantity =? 0)%Z || String.eqb email EmptyString
      then (Http.error 400 "Missing required fields", st)
      else
        match catalog serviceId with
        | None => (Http.error 404 "Service not found", st)
        | Some service =>
            let '(order, st1) :=
              createOrder order_total orderId now serviceId (name service)
                link quantity email (rate service) "stripe" st in
            let st2 :=
              mkState (orders st1) (japCalls st1)
                (checkouts st1 ++ [(id order, total order)]) (invoices st1) in
            match checkout with
            | inr url =>
                (Http.Json 200
                   (JObj [("orderId", JStr (id order)); ("checkoutUrl", JStr url)]),
                 st2)
            | inl message =>
                (Http.error 500
                   (if truthy (Some message) then message
                    else "Failed to create order"), st2)
            end
        end
  | _, _, _, _ => (Http.error 400 "Missing required fields", st)
  end.
End server.

(** [app.get('/api/order/:orderId')]. *)
Definition get_order (orderId : string) (st : state) : Http.response :=
  match getOrder orderId st with
  | None => Http.error 404 "Order not found"
  | Some order =>
      Http.Json 200
        (JObj [("id", JStr (id order)); ("status", JStr (status order));
               ("service", JStr (serviceName order));
               ("quantity", JNum (pretty (quantity order)));
               ("total", JNum (total order))])
  end.
End V3Complete.

(** ** The v3 server (header "GetFame Backend Server", v3.0.1; its file
       name is not recorded): the NOWPayments handler, which calls
       verifyIPNSignature of getfame-backend-v3/lib/nowpayments.js over the
       order store of lib/orders.js *)

Module ServerV3.
Section handlers.
Context {crypto : Crypto}.

(** [updateOrderStatus(order_id, status)] with the [order_id] of the body:
    a key of the [orders] map is a string, so an [order_id] of another type
    finds no order. *)
Definition update_reported (body : object) (status : string)
    (st : V3Complete.state) : V3Complete.state :=
  match string_member body "order_id" with
  | Some order_id =>
      (V3Complete.updateOrderStatus order_id status V3Complete.NoExtra st).2
  | None => st
  end.

(** [app.post('/api/webhooks/nowpayments')]; [signature] is the
    [x-nowpayments-sig] header. *)
Definition nowpayments_webhook (env_secret : option string) (up : Jap.upstream)
    (signature : option string) (body : object) (st : V3Complete.state)
    : Http.response * V3Complete.state :=
  if truthy env_secret && truthy signature
     && negb (V3.verifyIPNSignature env_secret body signature)
  then (Http.error 400 "Invalid signature", st)
  else
    match string_member body "payment_status" with
    | Some s =>
        if String.eqb s "finished" || String.eqb s "confirmed" then
          match string_member body "order_id" with
          | Some order_id =>
              (Http.received, V3Complete.mark_and_process up order_id st)
          | None => (Http.received, st)
          end
        else if String.eqb s "partially_paid"
        then (Http.received, update_reported body "partial" st)
        else if String.eqb s "failed" || String.eqb s "expired"
        then (Http.received, update_reported body "failed" st)
        else (Http.received, st)
    | None => (Http.received, st)
    end.
End handlers.
End ServerV3.

(** ** The signature check of the NOWPayments handlers

    The same lines stand in getfame-backend-v5/server.js and in the v5
    server with JAP integration. *)

Module Ipn.
Section ipn.
Context {crypto : Crypto}.

(** [Object.keys(req.body).sort().reduce((acc, key) => { acc[key] =
    req.body[key]; return acc; }, {})]. *)
Definition sortedParams (body : object) : object :=
  fold_left
    (fun acc key =>
       match own body key with
       | Some v => obj_set acc key v
       | None => acc
       end)
    (JS.sort (Object_keys body)) [].

Definition expectedSig (secret : string) (body : object) : string :=
  hmac_sha512_hex secret (JSON_stringify (JObj (sortedParams body))).

(** The guard at the head of the handler: [true] when the handler goes
    on to process the body, [false] when it answers 400. *)
Definition signature_guard (env_secret receivedSig : option string)
    (body : object) : bool :=
  if truthy env_secret then
    if truthy receivedSig then
      String.eqb (default EmptyString receivedSig)
        (expectedSig (default EmptyString env_secret) body)
    else true
  else true.
End ipn.

(** [pay_currency?.toUpperCase()]: [undefined] for a missing or null
    member, the upper-cased text for a string, and a TypeError ([None]) for
    any other value. *)
Definition upper_unit (c : ascii) : ascii :=
  let n := N_of_ascii c in
  if ((97 <=? n) && (n <=? 122))%N then ascii_of_N (n - 32) else c.

Fixpoint toUpperCase (s : string) : string :=
  match s with
  | EmptyString => EmptyString
  | String c s' => String (upper_unit c) (toUpperCase s')
  end.

Definition upper_currency (v : option value) : option (option string) :=
  match v with
  | None | Some JNull => Some None
  | Some (JStr s) => Some (Some (toUpperCase s))
  | Some _ => None
  end.

(** [payment_status === 'finished' || payment_status === 'confirmed']. *)
Definition payment_complete (body : object) : bool :=
  match own body "payment_status" with
  | Some (JStr s) => String.eqb s "finished" || String.eqb s "confirmed"
  | _ => false
  end.
End Ipn.

(** ** The v5 server with JAP integration (header "GETFAME BACKEND v5 -
       With JAP Integration"; its file name is not recorded) *)

Module ServerJap.

(** The environment variables the handlers read. *)
Record env := mkEnv {
  STRIPE_WEBHOOK_SECRET : option string;
  NOWPAYMENTS_IPN_SECRET : option string;
  JAP_API_KEY : option string
}.

(** A record of orders.json. *)
Record Order := mkOrder {
  id : Z;
  orderId : string;
  stripeSessionId : option string;
  email : string;
  link : string;
  quantity : Z;
  japServiceId : option Z;
  status : string;
  paymentMethod : string;
  japOrderId : option Z;
  updatedAt : option Z
}.

(** What [placeJapOrder] returns. *)
Record JapResult := mkResult {
  success : bool;
  result_orderId : option Z;
  result_error : option string
}.

(** A call of [sendTelegramNotification], by the message it formats. *)
Inductive notification :=
  | OrderNotification (method : string) (link : option string)
      (quantity : Jap.number) (result : JapResult)
  | CryptoNotification (order_id price_amount : option value)
      (currency : option string).

(** orders.json and the record of the calls made. *)
Record state := mkState {
  orders : list Order;
  japCalls : list Jap.request;
  notifications : list notification
}.

Definition with_orders (l : list Order) (st : state) : state :=
  mkState l (japCalls st) (notifications st).

Definition notify (n : notification) (st : state) : state :=
  mkState (orders st) (japCalls st) (notifications st ++ [n]).

(** [placeJapOrder(serviceId, link, quantity)]. *)
Definition placeJapOrder (e : env) (up : Jap.upstream)
    (serviceId : Jap.number) (link : option string) (quantity : Jap.number)
    (st : state) : JapResult * state :=
  if negb (truthy (JAP_API_KEY e))
  then (mkResult false None (Some "JAP not configured"), st)
  else
    let st1 :=
      mkState (orders st) (japCalls st ++ [Jap.Request serviceId link quantity])
        (notifications st) in
    match up (List.length (japCalls st)) with
    | Jap.Response order error =>
        if Jap.order_truthy order then (mkResult true order None, st1)
        else
          (mkResult false None
             (Some (if truthy error then default EmptyString error
                    else "Unknown JAP error")), st1)
    | Jap.NetworkError message => (mkResult false None (Some message), st1)
    end.

(** [orders[index].status = status; if (japOrderId) ...; updatedAt]. *)
Definition touch (status : string) (japOrderId : option Z) (now : Z)
    (o : Order) : Order :=
  mkOrder (id o) (orderId o) (stripeSessionId o) (email o) (link o)
    (quantity o) (japServiceId o) status (paymentMethod o)
    (if Jap.order_truthy japOrderId then japOrderId else ServerJap.japOrderId o)
    (Some now).

(** [updateOrderStatus(orderId, status, japOrderId = null)], called with
    the numeric [id] of an order: the first record with that [id]. *)
Fixpoint update_first (key : Z) (f : Order -> Order) (l : list Order)
    : option (list Order) :=
  match l with
  | [] => None
  | o :: l' =>
      if (id o =? key)%Z then Some (f o :: l')
      else cons o <$> update_first key f l'
  end.

Definition updateOrderStatus (key : Z) (status : string)
    (japOrderId : option Z) (now : Z) (st : state) : state :=
  match update_first key (touch status japOrderId now) (orders st) with
  | Some l => with_orders l st
  | None => st
  end.

(** [getOrderByStripeSession(sessionId)]. *)
Definition getOrderByStripeSession (sessionId : string) (st : state)
    : option Order :=
  List.find
    (fun o => match stripeSessionId o with
              | Some s => String.eqb s sessionId
              | None => false
              end)
    (orders st).

Section handlers.
Context {crypto : Crypto} {sdk : Stripe.Sdk}.
Variable e : env.
Variable up : Jap.upstream.

(** What the handler does with an event it has accepted. *)
Definition fulfil (event : Stripe.event) (now : Z) (st : state) : state :=
  if String.eqb (Stripe.type event) "checkout.session.completed" then
    let session := Stripe.object event in
    let m := Stripe.metadata session in
    let link := Stripe.meta m "link" in
    let quantity := ParseInt.parseInt_of (Stripe.meta m "quantity") in
    let service := ParseInt.parseInt_of (Stripe.meta m "japServiceId") in
    let '(japResult, st1) := placeJapOrder e up service link quantity st in
    let st2 :=
      match getOrderByStripeSession (Stripe.id session) st1 with
      | Some order =>
          updateOrderStatus (id order)
            (if success japResult then "processing" else "pending")
            (result_orderId japResult) now st1
      | None => st1
      end in
    notify (OrderNotification "Stripe (Card)" link quantity japResult) st2
  else st.

(** [app.post('/api/webhooks/stripe')]. *)
Definition stripe_webhook (payload : string) (sig : option string)
    (now : Z) (st : state) : Http.response * state :=
  let parsed :=
    if truthy (STRIPE_WEBHOOK_SECRET e)
    then Stripe.constructEvent payload sig
           (default EmptyString (STRIPE_WEBHOOK_SECRET e))
    else Stripe.JSON_parse payload in
  match parsed with
  | inl message => (Http.Text 400 ("Webhook Error: " +:+ message), st)
  | inr event => (Http.received, fulfil event now st)
  end.

(** The handler of the NOWPayments webhook past its signature guard. *)
Definition settle (body : object) (now : Z) (st : state)
    : Http.response * state :=
  if Ipn.payment_complete body then
    let found :=
      match own body "order_id" with
      | Some (JStr order_id) =>
          List.find (fun o => String.eqb (orderId o) order_id) (orders st)
      | _ => None
      end in
    let dispatch :=
      match found with
      | Some order => if Jap.order_truthy (japServiceId order)
                      then Some order else None
      | None => None
      end in
    match dispatch with
    | Some order =>
        let '(japResult, st1) :=
          placeJapOrder e up (Jap.stored (japServiceId order)) (Some (link order))
            (Jap.Num (quantity order)) st in
        let st2 :=
          updateOrderStatus (id order)
            (if success japResult then "processing" else "pending")
            (result_orderId japResult) now st1 in
        match Ipn.upper_currency (own body "pay_currency") with
        | Some currency =>
            (Http.success,
             notify
               (OrderNotification
                  (match currency with
                   | Some c => "Crypto (" +:+ c +:+ ")"
                   | None => "Crypto (undefined)"
                   end)
                  (Some (link order)) (Jap.Num (quantity order)) japResult) st2)
        | None => (Http.error 500 "Webhook processing failed", st2)
        end
    | None =>
        match Ipn.upper_currency (own body "pay_currency") with
        | Some currency =>
            (Http.success,
             notify
               (CryptoNotification (own body "order_id")
                  (own body "price_amount") currency) st)
        | None => (Http.error 500 "Webhook processing failed", st)
        end
    end
  else (Http.success, st).

(** [app.post('/api/webhooks/nowpayments')]; [receivedSig] is the
    [x-nowpayments-sig] header. *)
Definition nowpayments_webhook (receivedSig : option string)
    (body : object) (now : Z) (st : state) : Http.response * state :=
  if Ipn.signature_guard (NOWPAYMENTS_IPN_SECRET e) receivedSig body
  then settle body now st
  else (Http.error 400 "Invalid signature", st).

(** [app.post('/api/admin/fulfill/:id')], past [adminAuth]; [key] is
    [parseInt(req.params.id)]. *)
Definition admin_fulfill (key : Jap.number) (now : Z) (st : state)
    : Http.response * state :=
  match Jap.integer key
        ≫= (fun n => List.find (fun o => (id o =? n)%Z) (orders st)) with
  | None => (Http.error 404 "Order not found", st)
  | Some order =>
      if negb (Jap.order_truthy (japServiceId order))
         || negb (truthy (Some (link order)))
         || (quantity order =? 0)%Z
      then (Http.error 400 "Missing order details for fulfillment", st)
      else
        let '(japResult, st1) :=
          placeJapOrder e up (Jap.stored (japServiceId order)) (Some (link order))
            (Jap.Num (quantity order)) st in
        if success japResult
        then (Http.Json 200
                (JObj [("success", JBool true);
                       ("japOrderId",
                        match result_orderId japResult with
                        | Some j => JNum (pretty j)
                        | None => JNull
                        end)]),
              updateOrderStatus (id order) "processing"
                (result_orderId japResult) now st1)
        else (Http.error 500 (default EmptyString (result_error japResult)), st1)
  end.
End handlers.
End ServerJap.

(** ** Request bodies

    The body of a checkout request is whatever JSON the client sends.  Its
    members are tested, compared and converted by the handlers, so they are
    carried with their numbers by value.  Two conversions of the engine
    that work on doubles enter as parameters: the reading of a text as a
    number and the writing of a double that is no plain integer. *)

Module Body.

(** A number: [NaN], a finite double by its exact value, or an infinity
    (JSON.parse yields one for a literal beyond the range). *)
Inductive number :=
  | NaN
  | Finite (q : Q)
  | Infinite (negative : bool).

#[local] Unset Elimination Schemes.
Inductive value : Type :=
  | Null
  | Bool (b : bool)
  | Number (n : number)
  | Text (s : string)
  | Array (elems : list value)
  | Object (props : list (string * value)).
#[local] Set Elimination Schemes.

(** An object is its list of own properties. *)
Abbreviation object := (list (string * value)).

(** [o[k]] for a name [k] that [Object.prototype] does not have: the own
    property, [None] for [undefined]. *)
Fixpoint own (o : object) (k : string) : option value :=
  match o with
  | [] => None
  | (k', v) :: o' => if String.eqb k' k then Some v else own o' k
  end.

(** [a < b]: false when either is [NaN]. *)
Definition lt (a b : number) : bool :=
  match a, b with
  | NaN, _ | _, NaN => false
  | Infinite true, Infinite true => false
  | Infinite true, _ => true
  | _, Infinite true => false
  | Infinite false, _ => false
  | _, Infinite false => true
  | Finite x, Finite y => negb (Qle_bool y x)
  end.

(** Truthiness of a member that may be missing. *)
Definition truthy (v : option value) : bool :=
  match v with
  | None | Some Null => false
  | Some (Bool b) => b
  | Some (Number NaN) => false
  | Some (Number (Finite q)) => negb (Qeq_bool q 0)
  | Some (Number (Infinite _)) => true
  | Some (Text s) => negb (String.eqb s EmptyString)
  | Some (Array _) | Some (Object _) => true
  end.

(** The integer a rational is, if it is one. *)
Definition integral (q : Q) : option Z :=
  let r := Qred q in
  if (Qden r =? 1)%positive then Some (Qnum r) else None.

Section engine.
(** [StringToNumber]: the number a text reads as, [NaN] when it is no
    numeric literal. *)
Variable StringToNumber : string -> number.
(** [Number::toString] of a finite double that is no integer up to 2^53:
    the shortest digits that read back as the double, with an exponent
    where it needs one. *)
Variable Number_digits : Q -> string.

(** [Number::toString]. *)
Definition Number_toString (n : number) : string :=
  match n with
  | NaN => "NaN"
  | Infinite negative => if negative then "-Infinity" else "Infinity"
  | Finite q =>
      match integral q with
      | Some z => if (Z.abs z <=? 2 ^ 53)%Z then pretty z else Number_digits q
      | None => Number_digits q
      end
  end.

(** [ToString(v)]; [None] when it throws a TypeError.  An array is joined
    by commas, [null] elements written as nothing; an object is
    [[object Object]], unless it has an own [toString], which, coming from
    JSON, cannot be called. *)
Fixpoint ToString (v : value) : option string :=
  match v with
  | Null => Some "null"
  | Bool b => Some (if b then "true" else "false")
  | Number n => Some (Number_toString n)
  | Text s => Some s
  | Array elems =>
      (fix join (l : list value) : option string :=
         match l with
         | [] => Some EmptyString
         | x :: l' =>
             match match x with
                   | Null => Some EmptyString
                   | _ => ToString x
                   end, join l' with
             | Some a, Some b =>
                 Some (match l' with
                       | [] => a
                       | _ :: _ => a +:+ "," +:+ b
                       end)
             | _, _ => None
             end
         end) elems
  | Object props =>
      match own props "toString" with
      | Some _ => None
      | None => Some "[object Object]"
      end
  end.

(** [ToNumber(v)]; [None] when it throws. *)
Definition ToNumber (v : value) : option number :=
  match v with
  | Null => Some (Finite 0)
  | Bool b => Some (Finite (if b then 1 else 0))
  | Number n => Some n
  | Text s => Some (StringToNumber s)
  | Array _ | Object _ => StringToNumber <$> ToString v
  end.

(** [ToNumber] of a member that may be missing. *)
Definition ToNumber_of (v : option value) : option number :=
  match v with
  | Some v' => ToNumber v'
  | None => Some NaN
  end.

(** Whether [v.toLocaleString()] returns; it throws where a method it
    needs is an own property that cannot be called. *)
Fixpoint toLocaleString_returns (v : value) : bool :=
  match v with
  | Null => false
  | Bool _ | Number _ | Text _ => true
  | Array elems =>
      (fix all (l : list value) : bool :=
         match l with
         | [] => true
         | x :: l' =>
             match x with
             | Null => true
             | _ => toLocaleString_returns x
             end && all l'
         end) elems
  | Object props =>
      match own props "toLocaleString", own props "toString" with
      | None, None => true
      | _, _ => false
      end
  end.

(** [v.toString()] for a member that may be missing: [None] when it
    throws. *)
Definition toString_of (v : option value) : option string :=
  match v with
  | None | Some Null => None
  | Some v' => ToString v'
  end.
End engine.
End Body.

(** ** getfame-backend-v5/server.js *)

Module V5.

Record env := mkEnv {
  STRIPE_SECRET_KEY : option string;
  STRIPE_WEBHOOK_SECRET : option string;
  NOWPAYMENTS_API_KEY : option string;
  NOWPAYMENTS_IPN_SECRET : option string;
  JAP_API_KEY : option string
}.

(** A record of orders.json: what the Stripe handler saves.  [amount] is
    kept in cents ([session.amount_total]). *)
Record Order := mkOrder {
  id : Z;
  link : option string;
  email : option string;
  quantity : Jap.number;
  serviceId : Jap.number;
  amount : Z;
  payment : string;
  status : string;
  stripeSessionId : string;
  japOrderId : option Z
}.

Inductive notification :=
  | OrderNotification (order : Order)
  | JapOrderCreated (order : Z)
  | JapOrderFailed (link : option string)
  | CryptoNotification (order_id price_amount : option value)
      (currency : option string)
  | EmailReceipt (order : Order).

(** A session asked of Stripe, by what the request decides of it. *)
Record SessionRequest := mkRequest {
  session_email : option Body.value;
  session_price : Body.number;
  session_metadata : list (string * Body.value)
}.

Record state := mkState {
  orders : list Order;
  japCalls : list Jap.request;
  notifications : list notification;
  sessions : list SessionRequest
}.

Definition notify (n : notification) (st : state) : state :=
  mkState (orders st) (japCalls st) (notifications st ++ [n]) (sessions st).

(** [addOrder(orderData)]: the new record gets [Date.now()] as id and goes
    first. *)
Definition addOrder (orderData : Order) (now : Z) (st : state) : Order * state :=
  let newOrder :=
    mkOrder now (link orderData) (email orderData) (quantity orderData)
      (serviceId orderData) (amount orderData) (payment orderData)
      (status orderData) (stripeSessionId orderData) (japOrderId orderData) in
  (newOrder,
   mkState (newOrder :: orders st) (japCalls st) (notifications st) (sessions st)).

Definition touch (status : string) (japOrderId : option Z) (o : Order) : Order :=
  mkOrder (id o) (link o) (email o) (quantity o) (serviceId o) (amount o)
    (payment o) status (stripeSessionId o)
    (if Jap.order_truthy japOrderId then japOrderId else V5.japOrderId o).

Fixpoint update_first (key : Z) (f : Order -> Order) (l : list Order)
    : option (list Order) :=
  match l with
  | [] => None
  | o :: l' =>
      if (id o =? key)%Z then Some (f o :: l')
      else cons o <$> update_first key f l'
  end.

(** [updateOrderStatus(orderId, status, japOrderId = null)]. *)
Definition updateOrderStatus (orderId : Z) (status : string)
    (japOrderId : option Z) (st : state) : state :=
  match update_first orderId (touch status japOrderId) (orders st) with
  | Some l => mkState l (japCalls st) (notifications st) (sessions st)
  | None => st
  end.

(** *** Input validation *)

Definition Qlt_bool (a b : Q) : bool := negb (Qle_bool b a).

Definition is_space (c : ascii) : bool :=
  let n := N_of_ascii c in
  ((n =? 32) || ((9 <=? n) && (n <=? 13)) || (n =? 160))%N.

(** A run of [[^\s@]]. *)
Fixpoint plain (s : string) : bool :=
  match s with
  | EmptyString => true
  | String c s' => negb (is_space c) && negb (Ascii.eqb c "@") && plain s'
  end.

(** [[^\s@]+\.[^\s@]+$]: a dot with a plain, non-empty text on each side. *)
Fixpoint domain_ok (before : bool) (s : string) : bool :=
  match s with
  | EmptyString => false
  | String c s' =>
      if is_space c || Ascii.eqb c "@" then false
      else (Ascii.eqb c "." && before && plain s'
            && negb (String.eqb s' EmptyString))
           || domain_ok true s'
  end.

(** [/^[^\s@]+@[^\s@]+\.[^\s@]+$/.test(email)] on a text. *)
Fixpoint email_ok (before : bool) (s : string) : bool :=
  match s with
  | EmptyString => false
  | String c s' =>
      if Ascii.eqb c "@" then before && domain_ok false s'
      else if is_space c then false
      else email_ok true s'
  end.

(** [str.trim()], on a text of code units below 256. *)
Fixpoint trimStart (s : string) : string :=
  match s with
  | String c s' => if is_space c then trimStart s' else s
  | EmptyString => s
  end.

Fixpoint trimEnd (s : string) : string :=
  match s with
  | EmptyString => EmptyString
  | String c s' =>
      match trimEnd s' with
      | EmptyString => if is_space c then EmptyString else String c EmptyString
      | r => String c r
      end
  end.

Definition trim (s : string) : string := trimEnd (trimStart s).

(** [sanitizeInput(str)] on a string. *)
Definition sanitizeInput (str : string) : string := substring 0 500 (trim str).

(** [sanitizeInput(v)] on any value: what is no string is returned as it
    is. *)
Definition sanitize (v : Body.value) : Body.value :=
  match v with
  | Body.Text s => Body.Text (sanitizeInput s)
  | _ => v
  end.

(** [v || fallback]. *)
Definition or_else (v : option Body.value) (fallback : string) : Body.value :=
  if Body.truthy v then default Body.Null v else Body.Text fallback.

Section engine.
Variable StringToNumber : string -> Body.number.
Variable Number_digits : Q -> string.

(** [!v || v < lo || v > hi]: the error it raises, [None] when the
    comparison throws.  There is no test of the type: the member is
    compared as the number it converts to. *)
Definition range_errors (lo hi : Q) (message : string) (v : option Body.value)
    : option (list string) :=
  if negb (Body.truthy v) then Some [message]
  else
    n ← Body.ToNumber_of StringToNumber Number_digits v;
    Some (if Body.lt n (Body.Finite lo) || Body.lt (Body.Finite hi) n
          then [message] else []).

(** [!body.email || !pattern.test(body.email)]: the pattern is tested on
    the text the member converts to. *)
Definition email_errors (v : option Body.value) : option (list string) :=
  if negb (Body.truthy v) then Some ["Invalid email"]
  else
    text ← Body.toString_of Number_digits v;
    Some (if email_ok false text then [] else ["Invalid email"]).

(** [validateOrderInput(body)]: the errors, [None] when it throws. *)
Definition validateOrderInput (body : Body.object) : option (list string) :=
  let link :=
    match Body.own body "link" with
    | Some (Body.Text l) =>
        if (String.length l <? 5)%nat then ["Invalid link"] else []
    | _ => ["Invalid link"]
    end in
  email ← email_errors (Body.own body "email");
  quantity ← range_errors 1 1000000 "Invalid quantity" (Body.own body "quantity");
  let serviceId :=
    match Body.own body "serviceId" with
    | Some (Body.Number n) =>
        if Body.truthy (Some (Body.Number n)) then [] else ["Invalid service ID"]
    | _ => ["Invalid service ID"]
    end in
  amount ← range_errors (1 # 2) 50000 "Invalid amount" (Body.own body "amount");
  Some (link ++ email ++ quantity ++ serviceId ++ amount).

(** The session [app.post('/api/order')] asks Stripe to create, by its
    [customer_email], the amount whose hundredfold, rounded, is the
    [unit_amount], and its [metadata] (a member that is [undefined] is left
    out); [None] when evaluating the arguments throws. *)
Definition session_request (body : Body.object) : option SessionRequest :=
  _ ← Body.ToString Number_digits (or_else (Body.own body "platform") "Instagram");
  _ ← Body.ToString Number_digits (or_else (Body.own body "service") "Followers");
  _ ← Body.ToString Number_digits (or_else (Body.own body "quality") "Standard");
  quantity ← Body.own body "quantity";
  if negb (Body.toLocaleString_returns quantity) then None
  else
    price ← Body.ToNumber_of StringToNumber Number_digits (Body.own body "amount");
    quantity_text ← Body.toString_of Number_digits (Body.own body "quantity");
    serviceId_text ← Body.toString_of Number_digits (Body.own body "serviceId");
    Some
      (mkRequest (sanitize <$> Body.own body "email") price
         (from_option (fun l => [("link", sanitize l)]) [] (Body.own body "link")
          ++ [("quantity", Body.Text quantity_text);
              ("serviceId", Body.Text serviceId_text);
              ("platform", or_else (Body.own body "platform") "instagram");
              ("service", or_else (Body.own body "service") "followers");
              ("quality", or_else (Body.own body "quality") "standard")])).

(** [app.post('/api/order')]: [created] is the URL and the id of the
    session Stripe creates, [None] when the call throws.  A session asked
    of Stripe is recorded. *)
Definition post_order (e : env) (created : option (string * string))
    (body : Body.object) (st : state) : Http.response * state :=
  match validateOrderInput body with
  | None => (Http.error 500 "Payment initialization failed", st)
  | Some errors =>
      if (0 <? List.length errors)%nat
      then (Http.error 400 (String.concat ", " errors), st)
      else if negb (truthy (STRIPE_SECRET_KEY e))
      then (Http.error 500 "Payment system not configured", st)
      else
        match session_request body with
        | None => (Http.error 500 "Payment initialization failed", st)
        | Some request =>
            let st1 :=
              mkState (orders st) (japCalls st) (notifications st)
                (sessions st ++ [request]) in
            match created with
            | Some (url, sessionId) =>
                (Http.Json 200
                   (JObj [("url", JStr url); ("sessionId", JStr sessionId)]),
                 st1)
            | None => (Http.error 500 "Payment initialization failed", st1)
            end
        end
  end.
End engine.

(** A request whose members have the types the order form sends: [link]
    and [email] texts, the other three numbers (the exact value of the
    double), each [None] when the member is missing. *)
Record OrderInput := mkInput {
  in_link : option string;
  in_email : option string;
  in_quantity : option Q;
  in_serviceId : option Q;
  in_amount : option Q
}.

Definition member {A : Type} (f : A -> Body.value) (k : string) (o : option A)
    : Body.object :=
  match o with
  | Some a => [(k, f a)]
  | None => []
  end.

(** The body such a request is. *)
Definition body_of (i : OrderInput) : Body.object :=
  member Body.Text "link" (in_link i)
  ++ member Body.Text "email" (in_email i)
  ++ member (fun q => Body.Number (Body.Finite q)) "quantity" (in_quantity i)
  ++ member (fun q => Body.Number (Body.Finite q)) "serviceId" (in_serviceId i)
  ++ member (fun q => Body.Number (Body.Finite q)) "amount" (in_amount i).

(** *** Dispatch *)

(** [createJAPOrder(serviceId, link, quantity)]: the parsed reply, or
    [null]. *)
Definition createJAPOrder (e : env) (up : Jap.upstream)
    (serviceId : Jap.number) (link : option string) (quantity : Jap.number)
    (st : state) : option (option Z * option string) * state :=
  if negb (truthy (JAP_API_KEY e)) then (None, st)
  else
    let st1 :=
      mkState (orders st) (japCalls st ++ [Jap.Request serviceId link quantity])
        (notifications st) (sessions st) in
    match up (List.length (japCalls st)) with
    | Jap.Response order error => (Some (order, error), st1)
    | Jap.NetworkError _ => (None, st1)
    end.

Section handlers.
Context {crypto : Crypto} {sdk : Stripe.Sdk}.
Variable e : env.
Variable up : Jap.upstream.

(** The Stripe handler past signature verification. *)
Definition fulfil (event : Stripe.event) (now : Z) (st : state) : state :=
  if String.eqb (Stripe.type event) "checkout.session.completed" then
    let session := Stripe.object event in
    let m := Stripe.metadata session in
    let orderData :=
      mkOrder 0 (Stripe.meta m "link") (Stripe.customer_email session)
        (ParseInt.parseInt_of (Stripe.meta m "quantity"))
        (ParseInt.parseInt_of (Stripe.meta m "serviceId"))
        (Stripe.amount_total session) "Card" "processing"
        (Stripe.id session) None in
    let '(savedOrder, st1) := addOrder orderData now st in
    let st2 := notify (OrderNotification orderData) st1 in
    let st3 := notify (EmailReceipt savedOrder) st2 in
    let '(japOrder, st4) :=
      createJAPOrder e up (serviceId orderData) (link orderData)
        (quantity orderData) st3 in
    match japOrder with
    | Some (order, _) =>
        if Jap.order_truthy order
        then notify (JapOrderCreated (default 0%Z order))
               (updateOrderStatus (id savedOrder) "completed" order st4)
        else notify (JapOrderFailed (link orderData))
               (updateOrderStatus (id savedOrder) "pending" None st4)
    | None =>
        notify (JapOrderFailed (link orderData))
          (updateOrderStatus (id savedOrder) "pending" None st4)
    end
  else st.

(** [app.post('/api/webhooks/stripe')]. *)
Definition stripe_webhook (payload : string) (sig : option string)
    (now : Z) (st : state) : Http.response * state :=
  if negb (truthy (STRIPE_WEBHOOK_SECRET e))
  then (Http.Text 500 "Webhook not configured", st)
  else
    match Stripe.constructEvent payload sig
            (default EmptyString (STRIPE_WEBHOOK_SECRET e)) with
    | inl message => (Http.Text 400 ("Webhook Error: " +:+ message), st)
    | inr event => (Http.received, fulfil event now st)
    end.

(** The NOWPayments handler past its signature guard. *)
Definition settle (body : object) (st : state) : Http.response * state :=
  if Ipn.payment_complete body then
    match Ipn.upper_currency (own body "pay_currency") with
    | Some currency =>
        (Http.success,
         notify
           (CryptoNotification (own body "order_id")
              (own body "price_amount") currency) st)
    | None => (Http.error 500 "Webhook processing failed", st)
    end
  else (Http.success, st).

(** [app.post('/api/webhooks/nowpayments')]. *)
Definition nowpayments_webhook (receivedSig : option string)
    (body : object) (st : state) : Http.response * state :=
  if Ipn.signature_guard (NOWPAYMENTS_IPN_SECRET e) receivedSig body
  then settle body st
  else (Http.error 400 "Invalid signature", st).
End handlers.

(** *** The admin API, past [adminAuth] *)

Definition admin_statuses : list string :=
  ["pending"; "processing"; "completed"; "failed"].

(** [app.patch('/api/admin/orders/:id')]: [id] is [parseInt(req.params.id)]
    and [status] the member of the body when it is a string. *)
Definition admin_patch (id : Jap.number) (status : option string) (st : state)
    : Http.response * state :=
  match status with
  | Some s =>
      if bool_decide (s ∈ admin_statuses)
      then (Http.success,
            match Jap.integer id with
            | Some n => updateOrderStatus n s None st
            | None => st
            end)
      else (Http.error 400 "Invalid status", st)
  | None => (Http.error 400 "Invalid status", st)
  end.
(** *** The email shown in a notification *)

(** What [.] does not match. *)
Definition line_terminator (c : ascii) : bool :=
  let n := N_of_ascii c in ((n =? 10) || (n =? 13))%N.

(** The line at the head of a text, and the rest from the first line
    terminator on. *)
Fixpoint line_of (s : string) : string * string :=
  match s with
  | EmptyString => (EmptyString, EmptyString)
  | String c s' =>
      if line_terminator c then (EmptyString, s)
      else let '(l, r) := line_of s' in (String c l, r)
  end.

(** A line from its last [@] on, if it has one: where the greedy second
    group leaves off for the third. *)
Fixpoint from_last_at (s : string) : option string :=
  match s with
  | EmptyString => None
  | String c s' =>
      match from_last_at s' with
      | Some r => Some r
      | None => if Ascii.eqb c "@" then Some s else None
      end
  end.

(** The match at the head of a text of the pattern of [maskEmail] (two
    characters, any run of characters, an at-sign and the rest of the
    line), replaced by the first group, three stars and the third group. *)
Definition mask_at (s : string) : option string :=
  match s with
  | String a (String b rest) =>
      if line_terminator a || line_terminator b then None
      else
        let '(line, tail) := line_of rest in
        match from_last_at line with
        | Some suffix => Some (String a (String b ("***" +:+ suffix +:+ tail)))
        | None => None
        end
  | _ => None
  end.

(** The [email.replace(pattern, replacement)] of [formatOrderNotification]:
    the first match from the left is replaced. *)
Fixpoint maskEmail (email : string) : string :=
  match mask_at email with
  | Some masked => masked
  | None =>
      match email with
      | String c rest => String c (maskEmail rest)
      | EmptyString => EmptyString
      end
  end.
End V5.

(** ** getfame-backend-v2: lib/services.js, lib/orders.js, lib/payments.js *)

Module V2.

(** A curated service with the markup applied.  [rate] is the exact value
    of the double; [min] and [max] come out of [parseInt]. *)
Record Service := mkService {
  id : Z;
  name : string;
  platform : string;
  type : string;
  rate : Q;
  min : Jap.number;
  max : Jap.number
}.

Definition CACHE_DURATION : Z := 5 * 60 * 1000.

(** The module-level variables [servicesCache] and [cacheTimestamp]. *)
Record cache := mkCache {
  servicesCache : option (list Service);
  cacheTimestamp : Z
}.

Definition empty_cache : cache := mkCache None 0.

(** [Object.keys(CURATED_SERVICES).map(id => parseInt(id))] of
    lib/curated-services.js. *)
Definition ALLOWED_SERVICE_IDS : list Z :=
  [1761; 5882; 5883; 5951; 6073; 6074; 6075; 6384; 7444; 7445; 7446; 8753;
   9132; 10066]%Z.

Definition isServiceAllowed (serviceId : Z) : bool :=
  bool_decide (serviceId ∈ ALLOWED_SERVICE_IDS).

(** [a < b] on numbers that may be [NaN]. *)
Definition lt_number (a b : Jap.number) : bool := Jap.lt a b.

(** A number in a template string; an integer is written in full, as
    JavaScript writes those up to 2^53. *)
Definition show_number (a : Jap.number) : string :=
  match a with
  | Jap.Num x => pretty x
  | Jap.NegZero => "0"
  | Jap.NaN => "NaN"
  | Jap.Infinity negative => if negative then "-Infinity" else "Infinity"
  end.

(** *** validateLink *)

Definition lower_unit (c : ascii) : ascii :=
  let n := N_of_ascii c in
  if ((65 <=? n) && (n <=? 90))%N then ascii_of_N (n + 32) else c.

Fixpoint lower (s : string) : string :=
  match s with
  | EmptyString => EmptyString
  | String c s' => String (lower_unit c) (lower s')
  end.

Fixpoint strip_prefix (p s : string) : option string :=
  match p, s with
  | EmptyString, _ => Some s
  | String a p', String b s' =>
      if Ascii.eqb a b then strip_prefix p' s' else None
  | String _ _, EmptyString => None
  end.

(** What [.] does not match. *)
Definition line_terminator (c : ascii) : bool :=
  let n := N_of_ascii c in ((n =? 10) || (n =? 13))%N.

(** [host\/.+] at the head of [s], for one of [hosts]. *)
Definition host_then_path (hosts : list string) (s : string) : bool :=
  existsb
    (fun h =>
       match strip_prefix (h +:+ "/") s with
       | Some (String c _) => negb (line_terminator c)
       | _ => false
       end)
    hosts.

(** [/^https?:\/\/(optional)?(hosts)\/.+/i.test(link)]. *)
Definition url_matches (optional : string) (hosts : list string)
    (link : string) : bool :=
  let l := lower link in
  let after_scheme :=
    match strip_prefix "https://" l with
    | Some r => Some r
    | None => strip_prefix "http://" l
    end in
  match after_scheme with
  | Some r =>
      host_then_path hosts r
      || match strip_prefix optional r with
         | Some r' => host_then_path hosts r'
         | None => false
         end
  | None => false
  end.

(** [/.+/.test(link)]. *)
Fixpoint any_char (s : string) : bool :=
  match s with
  | EmptyString => false
  | String c s' => negb (line_terminator c) || any_char s'
  end.

(** [validateLink(link, platform)]. *)
Definition validateLink (link platform : string) : bool :=
  if String.eqb platform "instagram" then url_matches "www." ["instagram.com"] link
  else if String.eqb platform "tiktok"
  then url_matches "www." ["tiktok.com"; "vm.tiktok.com"] link
  else if String.eqb platform "youtube"
  then url_matches "www." ["youtube.com"; "youtu.be"] link
  else if String.eqb platform "twitter"
  then url_matches "www." ["twitter.com"; "x.com"] link
  else if String.eqb platform "facebook" then url_matches "www." ["facebook.com"] link
  else if String.eqb platform "telegram"
  then url_matches "www." ["t.me"; "telegram.me"] link
  else if String.eqb platform "spotify" then url_matches "open." ["spotify.com"] link
  else if String.eqb platform "twitch" then url_matches "www." ["twitch.tv"] link
  else any_char link.

(** *** Orders *)

(** A record of the [orders] map; it is stored under two keys, the JAP
    order id and the internal id. *)
Record Order := mkOrder {
  order_id : Z;
  internalId : string;
  order_serviceId : Z;
  serviceName : string;
  order_platform : string;
  link : string;
  quantity : Jap.number;
  total : Q;
  cost : Q;
  profit : Q;
  email : option string;
  paymentId : option string;
  status : string;
  createdAt : Z
}.

(** The argument of [createOrder]. *)
Record OrderData := mkData {
  data_serviceId : Z;
  data_link : string;
  data_quantity : Jap.number;
  data_email : option string;
  data_paymentId : option string
}.

(** The servers's memory, and the record of what was asked of the
    upstream and of Stripe (a session, by service id and amount). *)
Record state := mkState {
  services : cache;
  orders : gmap string Order;
  japCalls : list Jap.request;
  sessions : list (Z * Q)
}.

Definition with_cache (c : cache) (st : state) : state :=
  mkState c (orders st) (japCalls st) (sessions st).

Definition initial : state := mkState empty_cache ∅ [] [].

(** What [validateOrder] resolves to. *)
Inductive validation :=
  | Valid (service : Service)
  | Invalid (error : string).

Section manager.
(** What the [services] action of the upstream resolves to. *)
Variable Raw : Type.
(** [filterAndRenameServices(japServices)] followed by the markup map
    ([parseFloat], [localeCompare] and floating-point arithmetic);
    [inl] when it throws. *)
Variable curate : Raw -> string + list Service.
(** [calculateTotal], [getJapCost] and the rounding of the profit:
    floating-point arithmetic. *)
Variable calculateTotal : Q -> Jap.number -> Q.
Variable getJapCost : Q -> Jap.number -> Q.
Variable round_profit : Q -> Q -> Q.

(** The body of the [try] block up to the cache update. *)
Definition refresh (fetched : string + Raw) : string + list Service :=
  match fetched with
  | inl error => inl error
  | inr japServices => curate japServices
  end.

(** The cache check at the head of [getServices]: the cached list when
    it is served, [None] when the read goes to the upstream. *)
Definition fresh (forceRefresh : bool) (now : Z) (c : cache)
    : option (list Service) :=
  match servicesCache c with
  | Some cached =>
      if negb forceRefresh && (now - cacheTimestamp c <? CACHE_DURATION)%Z
      then Some cached else None
  | None => None
  end.

(** [getServices(forceRefresh = false)]: [now] is the clock on entry,
    [fetched] what [japApi.getServices()] settles to ([inl]: it
    rejects) and [later] the clock when it has. *)
Definition getServices (forceRefresh : bool) (now : Z)
    (fetched : string + Raw) (later : Z) (c : cache)
    : (string + list Service) * cache :=
  match fresh forceRefresh now c with
  | Some cached => (inr cached, c)
  | None =>
      match refresh fetched with
      | inr services => (inr services, mkCache (Some services) later)
      | inl error =>
          match servicesCache c with
          | Some cached => (inr cached, c)
          | None => (inl error, c)
          end
      end
  end.

(** [getServiceById(serviceId)]. *)
Definition getServiceById (serviceId : Z) (now : Z)
    (fetched : string + Raw) (later : Z) (c : cache)
    : (string + option Service) * cache :=
  if negb (isServiceAllowed serviceId) then (inr None, c)
  else
    match getServices false now fetched later c with
    | (inr services, c') =>
        (inr (List.find (fun s => (id s =? serviceId)%Z) services), c')
    | (inl error, c') => (inl error, c')
    end.

(** [japApi.createOrder(service, link, quantity)]: the request throws
    on a failed call and on [data.error]. *)
Definition jap_createOrder (r : Jap.reply) : string + option Z :=
  match r with
  | Jap.NetworkError m => inl m
  | Jap.Response order error =>
      if truthy error then inl (default EmptyString error) else inr order
  end.

Definition out_of_bounds (quantity : Jap.number) (service : Service) : bool :=
  lt_number quantity (min service) || lt_number (max service) quantity.

Definition bounds_message (service : Service) : string :=
  "Quantity must be between " +:+ show_number (min service) +:+ " and "
    +:+ show_number (max service).

(** [OrdersManager.createOrder(orderData)]; [internalId] is what
    [generateInternalId()] yields.  [inl] is the thrown error, [inr] the
    confirmation (order id, internal id, total). *)
Definition createOrder (up : Jap.upstream) (now : Z)
    (fetched : string + Raw) (later : Z) (internalId : string)
    (orderData : OrderData) (st : state)
    : (string + (Z * string * Q)) * state :=
  let '(found, c) :=
    getServiceById (data_serviceId orderData) now fetched later (services st) in
  let st0 := with_cache c st in
  match found with
  | inl error => (inl error, st0)
  | inr None => (inl "Service not found", st0)
  | inr (Some service) =>
      if out_of_bounds (data_quantity orderData) service
      then (inl (bounds_message service), st0)
      else if negb (validateLink (data_link orderData) (platform service))
      then (inl "Invalid link format for this platform", st0)
      else
        let total := calculateTotal (rate service) (data_quantity orderData) in
        let cost := getJapCost (rate service) (data_quantity orderData) in
        let request :=
          Jap.Request (Jap.Num (data_serviceId orderData))
            (Some (data_link orderData)) (data_quantity orderData) in
        let st1 :=
          mkState (services st0) (orders st0) (japCalls st0 ++ [request])
            (sessions st0) in
        match jap_createOrder (up (List.length (japCalls st0))) with
        | inl error => (inl error, st1)
        | inr None => (inl "Cannot read properties of undefined", st1)
        | inr (Some japId) =>
            let order :=
              mkOrder japId internalId (data_serviceId orderData)
                (name service) (platform service) (data_link orderData)
                (data_quantity orderData) total cost
                (round_profit total cost) (data_email orderData)
                (data_paymentId orderData) "pending" later in
            (inr (japId, internalId, total),
             mkState (services st1)
               (<[internalId := order]> (<[pretty japId := order]> (orders st1)))
               (japCalls st1) (sessions st1))
        end
  end.

(** [PaymentHandler.createCheckoutSession(orderData)]: [created] is the
    id and URL of the session Stripe creates, [inl] when the call
    throws. *)
Definition createCheckoutSession (now : Z) (fetched : string + Raw)
    (later : Z) (created : string + (string * string))
    (serviceId : Z) (quantity : Jap.number) (st : state)
    : (string + (string * string)) * state :=
  let '(found, c) := getServiceById serviceId now fetched later (services st) in
  let st0 := with_cache c st in
  match found with
  | inl error => (inl error, st0)
  | inr None => (inl "Service not found", st0)
  | inr (Some service) =>
      if out_of_bounds quantity service
      then (inl (bounds_message service), st0)
      else
        let total := calculateTotal (rate service) quantity in
        (created,
         mkState (services st0) (orders st0) (japCalls st0)
           (sessions st0 ++ [(serviceId, total)]))
  end.

(** [validateOrder(serviceId, quantity)] of lib/services.js. *)
Definition validateOrder (serviceId : Z) (quantity : Jap.number) (now : Z)
    (fetched : string + Raw) (later : Z) (c : cache)
    : (string + validation) * cache :=
  match getServiceById serviceId now fetched later c with
  | (inl error, c') => (inl error, c')
  | (inr None, c') => (inr (Invalid "Service not available"), c')
  | (inr (Some service), c') =>
      if lt_number quantity (min service)
      then (inr (Invalid ("Minimum order is " +:+ show_number (min service))), c')
      else if lt_number (max service) quantity
      then (inr (Invalid ("Maximum order is " +:+ show_number (max service))), c')
      else (inr (Valid service), c')
  end.
End manager.
End V2.

(** * Notions used in the statements *)

(** The text of one member of an object, as SerializeJSONObject asks for
    it. *)
Definition member_text (K : option (list string)) (ps : object) (p : string)
    : option string :=
  match own ps p with
  | Some x => Some (serialize K x)
  | None => if String.eqb p proto_key then Some proto_text else None
  end.

Definition members (K : option (list string)) (ps : object) : list string :=
  omap (fun p => (fun s => QuoteJSONString p +:+ ":" +:+ s) <$> member_text K ps p)
    (match K with Some ks => ks | None => map fst ps end).

(** Two values that differ at most in what objects hold under keys outside
    [K]: the same shape, the same keys in the same order, and the same
    content everywhere else. *)
Fixpoint agree_on_listed (K : list string) (v1 v2 : value) {struct v1} : bool :=
  match v1, v2 with
  | JNull, JNull => true
  | JBool a, JBool b => Bool.eqb a b
  | JNum a, JNum b => String.eqb a b
  | JStr a, JStr b => String.eqb a b
  | JArr xs, JArr ys =>
      (fix go (xs ys : list value) : bool :=
         match xs, ys with
         | [], [] => true
         | x :: xs', y :: ys' => agree_on_listed K x y && go xs' ys'
         | _, _ => false
         end) xs ys
  | JObj ps, JObj qs =>
      (fix go (ps qs : list (string * value)) : bool :=
         match ps, qs with
         | [], [] => true
         | (k, x) :: ps', (k', y) :: qs' =>
             String.eqb k k'
             && (if bool_decide (k ∈ K) then agree_on_listed K x y else true)
             && go ps' qs'
         | _, _ => false
         end) ps qs
  | _, _ => false
  end.

(** Two payloads that differ only in the values of nested-only fields:
    fields of nested objects whose key is no top-level key. *)
Definition nested_only_difference (p1 p2 : object) : bool :=
  agree_on_listed (Object_keys p1) (JObj p1) (JObj p2).

(** A stand-in for the HMAC in the worked examples: it keeps key and
    message apart and readable. *)
Definition demo_crypto : Crypto :=
  {| hmac_sha512_hex := fun key msg => key +:+ "|" +:+ msg |}.

(** Two IPN bodies that differ in one nested-only member. *)
Definition ipn_btc : object :=
  [("order_id", JStr "A1"); ("payment_status", JStr "finished");
   ("fee", JObj [("currency", JStr "btc"); ("order_id", JStr "in")])].

Definition ipn_eth : object :=
  [("order_id", JStr "A1"); ("payment_status", JStr "finished");
   ("fee", JObj [("currency", JStr "eth"); ("order_id", JStr "in")])].

(** The event of the worked examples: the checkout of order [O1] is
    completed. *)
Definition checkout_completed : Stripe.event :=
  Stripe.Event "checkout.session.completed"
    (Stripe.Session "cs_1" (Some "ann@example.com") 1250 None
       [("orderId", "O1"); ("link", "https://instagram.com/ann");
        ("quantity", "5000"); ("japServiceId", "7446"); ("serviceId", "7446")]).

(** A stand-in for Stripe's SDK in the worked examples: one payload parses,
    to that event; a header verifies when it is the secret behind the word
    [signed]. *)
Definition demo_parse (payload : string) : string + Stripe.event :=
  if String.eqb payload "checkout O1" then inr checkout_completed
  else inl "Unexpected token".

Definition demo_sdk : Stripe.Sdk :=
  {| Stripe.constructEvent := fun payload sig secret =>
       match sig with
       | Some s => if String.eqb s ("signed " +:+ secret) then demo_parse payload
                   else inl "No signatures found matching the expected signature"
       | None => inl "No stripe-signature header value was provided"
       end;
     Stripe.JSON_parse := demo_parse |}.

(** An upstream that accepts every order, numbering them from 501. *)
Definition accepting : Jap.upstream :=
  fun k => Jap.Response (Some (501 + Z.of_nat k)%Z) None.

(** An upstream that times out once and would accept from then on. *)
Definition flaky : Jap.upstream :=
  fun k => match k with
           | O => Jap.NetworkError "fetch failed"
           | S _ => Jap.Response (Some (501 + Z.of_nat k)%Z) None
           end.

(** An upstream that accepts the first order and fails from then on. *)
Definition one_shot : Jap.upstream :=
  fun k => match k with
           | O => Jap.Response (Some 501%Z) None
           | S _ => Jap.NetworkError "fetch failed"
           end.

(** The v5 server with JAP integration, every secret set, and one pending
    crypto order in orders.json. *)
Definition jap_env : ServerJap.env :=
  ServerJap.mkEnv (Some "whsec") (Some "ipnsec") (Some "japkey").

Definition jap_pending : ServerJap.Order :=
  ServerJap.mkOrder 1700000000000 "gf_1" None "ann@example.com"
    "https://instagram.com/ann" 5000 (Some 7446%Z) "pending" "crypto" None None.

Definition jap_store : ServerJap.state := ServerJap.mkState [jap_pending] [] [].

(** A forged IPN: it names the pending order and says the payment is done. *)
Definition forged_ipn : object :=
  [("payment_status", JStr "finished"); ("order_id", JStr "gf_1");
   ("price_amount", JNum "12.5"); ("pay_currency", JStr "btc")].

(** The v3-complete server holding one pending order, [O1]. *)
Definition order_O1 : V3Complete.Order :=
  V3Complete.mkOrder "O1" 7446 "Followers - Standard" "https://instagram.com/ann"
    5000 "ann@example.com" "2.50" "12.5" "stripe" "pending" None 1700000000000.

Definition store_O1 : V3Complete.state :=
  V3Complete.mkState {[ "O1" := order_O1 ]} [] [] [].

(** One delivery of the signed checkout-completed webhook for [O1]. *)
Definition deliver_O1 (up : Jap.upstream) (st : V3Complete.state)
    : V3Complete.state :=
  (V3Complete.stripe_webhook (sdk := demo_sdk) (Some "whsec") up "checkout O1"
     (Some "signed whsec") st).2.

(** One delivery of the IPN that reports the payment of [O1] finished. *)
Definition ipn_O1 : object :=
  [("payment_status", JStr "finished"); ("order_id", JStr "O1")].

(** The status and the upstream order id the store holds for [O1]. *)
Definition status_O1 (st : V3Complete.state) : option string :=
  V3Complete.status <$> V3Complete.getOrder "O1" st.

Definition japOrderId_O1 (st : V3Complete.state) : option (option Z) :=
  V3Complete.japOrderId <$> V3Complete.getOrder "O1" st.

(** The v5 server with JAP integration without a Stripe webhook secret,
    holding the pending card order of session [cs_1]. *)
Definition open_env : ServerJap.env :=
  ServerJap.mkEnv None (Some "ipnsec") (Some "japkey").

Definition card_pending : ServerJap.Order :=
  ServerJap.mkOrder 1700000000000 "GF-1" (Some "cs_1") "ann@example.com"
    "https://instagram.com/ann" 5000 (Some 7446%Z) "pending" "stripe" None None.

(** The request [processOrder] sends for an order. *)
Definition request_of (order : V3Complete.Order) : Jap.request :=
  Jap.Request (Jap.Num (V3Complete.serviceId order))
    (Some (V3Complete.link order)) (Jap.Num (V3Complete.quantity order)).

(** A reply that brings no order: the request failed (connection, timeout,
    a reply that is not JSON), or the upstream answered without an order
    id, as it does when it rejects the request with an [error]. *)
Definition no_order (r : Jap.reply) : bool :=
  match r with
  | Jap.NetworkError _ => true
  | Jap.Response order _ => negb (Jap.order_truthy order)
  end.

(** The request the Stripe handler of v5 sends for an event. *)
Definition v5_request (event : Stripe.event) : Jap.request :=
  let m := Stripe.metadata (Stripe.object event) in
  Jap.Request (ParseInt.parseInt_of (Stripe.meta m "serviceId"))
    (Stripe.meta m "link") (ParseInt.parseInt_of (Stripe.meta m "quantity")).

(** getfame-backend-v5 with every key set, and nothing stored. *)
Definition v5_env : V5.env :=
  V5.mkEnv (Some "sk") (Some "whsec") (Some "npkey") (Some "ipnsec") (Some "japkey").

Definition v5_empty : V5.state := V5.mkState [] [] [] [].

(** A catalog of v3-complete with one service, bounds 100 to 10000, and a
    checkout request for 5 units of it. *)
Definition one_service_catalog (serviceId : Z) : option V3Complete.Service :=
  if (serviceId =? 7446)%Z
  then Some (V3Complete.mkService 7446 "Followers - Standard" "instagram" "2.50"
               100 10000)
  else None.

Definition five_units : V3Complete.OrderBody :=
  V3Complete.mkBody (Some 7446%Z) (Some "https://instagram.com/ann") (Some 5%Z)
    (Some "ann@example.com").

(** A stand-in for the floating-point total in the worked examples. *)
Definition demo_total (pricePerK : string) (quantity : Z) : string := "0.01".

(** A cached list of v3 that holds one service, stamped at time 0. *)
Definition cached_service : V3.Service :=
  V3.mkService 7446 "Followers - Standard" "instagram" "followers"
    "Fast delivery" "3.75" (JStr "50") (JStr "50000") None.

Definition warm_cache : V3.cache := V3.mkCache (Some [cached_service]) 0.

(** The v2 catalog in the worked examples: the upstream list curates to one
    service, bounds 100 to 10000; the arithmetic is a stand-in. *)
Definition v2_service : V2.Service :=
  V2.mkService 7446 "Followers - Standard" "instagram" "followers" (15 # 4)
    (Jap.Num 100%Z) (Jap.Num 10000%Z).

Definition v2_curate (raw : unit) : string + list V2.Service := inr [v2_service].

Definition v2_amount (rate : Q) (quantity : Jap.number) : Q := rate.

Definition v2_five_units : V2.OrderData :=
  V2.mkData 7446 "https://instagram.com/ann" (Jap.Num 5%Z) None None.

(** The request the Stripe handler of the v5 server with JAP integration
    sends for an event. *)
Definition jap_request (event : Stripe.event) : Jap.request :=
  let m := Stripe.metadata (Stripe.object event) in
  Jap.Request (ParseInt.parseInt_of (Stripe.meta m "japServiceId"))
    (Stripe.meta m "link") (ParseInt.parseInt_of (Stripe.meta m "quantity")).

(** The event a delivery to the Stripe handler of that server yields. *)
Definition parsed_event {sdk : Stripe.Sdk} (e : ServerJap.env)
    (payload : string) (signature : option string) : string + Stripe.event :=
  if truthy (ServerJap.STRIPE_WEBHOOK_SECRET e)
  then Stripe.constructEvent payload signature
         (default EmptyString (ServerJap.STRIPE_WEBHOOK_SECRET e))
  else Stripe.JSON_parse payload.

(** An order of v3-complete with its status and upstream id blanked: what
    is left is what was fixed when the order was created. *)
Definition frozen (o : V3Complete.Order) : V3Complete.Order :=
  V3Complete.with_japOrderId None (V3Complete.with_status EmptyString o).

(** The order [createOrder] of v3-complete stores for a Stripe checkout. *)
Definition pending_order (order_total : string -> Z -> string)
    (orderId : string) (now serviceId : Z) (service : V3Complete.Service)
    (link : string) (quantity : Z) (email : string) : V3Complete.Order :=
  V3Complete.mkOrder orderId serviceId (V3Complete.name service) link quantity
    email (V3Complete.rate service)
    (order_total (V3Complete.rate service) quantity) "stripe" "pending" None now.

(** A checkout request of v3-complete that passes the presence check. *)
Definition present (body : V3Complete.OrderBody) (serviceId : Z) (link : string)
    (quantity : Z) (email : string) : Prop :=
  body = V3Complete.mkBody (Some serviceId) (Some link) (Some quantity) (Some email)
  /\ serviceId <> 0%Z /\ link <> EmptyString /\ quantity <> 0%Z
  /\ email <> EmptyString.

(** A checkout request for 5000 units of the one service of the catalog. *)
Definition five_thousand : V3Complete.OrderBody :=
  V3Complete.mkBody (Some 7446%Z) (Some "https://instagram.com/ann")
    (Some 5000%Z) (Some "ann@example.com").

(** An IPN that reports the payment of [O1] failed. *)
Definition ipn_failed_O1 : object :=
  [("payment_status", JStr "failed"); ("order_id", JStr "O1")].

(** The members of a body listed by ascending key: what the handlers'
    rebuilt object is when no key is an array index or [__proto__]. *)
Definition members_by_key (body : object) : object :=
  omap (fun k => pair k <$> own body k) (JS.sort (Object_keys body)).

(** No key of the body is an array index or [__proto__]. *)
Definition plain_keys (body : object) : Prop :=
  Forall (fun k => array_index k = None /\ String.eqb k proto_key = false)
    (Object_keys body).

(** The same two members, in two orders. *)
Definition ipn_ab : object := [("a", JNum "1"); ("b", JObj [("y", JNull); ("x", JNull)])].
Definition ipn_ba : object := [("b", JObj [("y", JNull); ("x", JNull)]); ("a", JNum "1")].

(** A served service is an entry of the curated table: its id is a key of
    the table and its name, platform, type and description are the table's. *)
Definition curated_entry (s : V3.Service) : Prop :=
  V3.getCuratedInfo (V3.id s)
  = Some (V3.mkInfo (V3.name s) (V3.platform s) (V3.type s) (V3.description s)).

Definition curated_cache (c : V3.cache) : Prop :=
  match V3.servicesCache c with
  | Some cached => Forall curated_entry cached
  | None => True
  end.

(** The cache holds no empty list. *)
Definition stocked_cache (c : V3.cache) : Prop :=
  V3.servicesCache c <> Some [].

(** An upstream list with one curated service, one that is not, and the
    markup of the examples. *)
Definition upstream_two : V3.fetch_outcome :=
  V3.Fetched
    (Some [Some (V3.mkRaw 7446 "1.00" (JNum "10") (JNum "5000") true);
           Some (V3.mkRaw 42 "0.10" (JNum "1") (JNum "9") false)]).

Definition demo_markup (rate : string) : string := rate +:+ " x 2.5".

(** The fields of a v5 record that no status update writes. *)
Definition v5_frozen (o : V5.Order)
    : Z * option string * option string * Jap.number * Jap.number * Z * string
      * string :=
  (V5.id o, V5.link o, V5.email o, V5.quantity o, V5.serviceId o, V5.amount o,
   V5.payment o, V5.stripeSessionId o).

(** A text of blanks only. *)
Fixpoint all_space (s : string) : bool :=
  match s with
  | EmptyString => true
  | String c s' => V5.is_space c && all_space s'
  end.

(** The first code unit of a text, if any, is not a blank. *)
Definition starts_clean (s : string) : bool :=
  match s with
  | EmptyString => true
  | String c _ => negb (V5.is_space c)
  end.

(** A completed checkout whose session carries the metadata of a request. *)
Definition paid_session (m : list (string * string)) : Stripe.event :=
  Stripe.Event "checkout.session.completed"
    (Stripe.Session "cs_1" (Some "ann@example.com") 1299 None m).

Definition v5_keyed : V5.env :=
  V5.mkEnv (Some "sk") (Some "whsec") None None (Some "japkey").

Definition five_blanks : string := "     ".

(** How often a code unit occurs in a text, and texts without blanks. *)
Fixpoint count_unit (c : ascii) (s : string) : nat :=
  match s with
  | EmptyString => 0%nat
  | String c' s' => ((if Ascii.eqb c' c then 1 else 0) + count_unit c s')%nat
  end.

Fixpoint no_space (s : string) : bool :=
  match s with
  | EmptyString => true
  | String c s' => negb (V5.is_space c) && no_space s'
  end.

(** A checkout request of v5 that passes validation. *)
Definition valid_input : V5.OrderInput :=
  V5.mkInput (Some "https://instagram.com/ann") (Some "ann@example.com")
    (Some (5000 # 1)) (Some (7446 # 1)) (Some (1299 # 100)).

Definition blank_input : V5.OrderInput :=
  V5.mkInput (Some five_blanks) (Some "ann@example.com")
    (Some (5000 # 1)) (Some (7446 # 1)) (Some (1299 # 100)).

(** The [patterns] table of [validateLink]: for each platform it knows, the
    optional host prefix and the hosts. *)
Definition link_patterns : list (string * (string * list string)) :=
  [("instagram", ("www.", ["instagram.com"]));
   ("tiktok", ("www.", ["tiktok.com"; "vm.tiktok.com"]));
   ("youtube", ("www.", ["youtube.com"; "youtu.be"]));
   ("twitter", ("www.", ["twitter.com"; "x.com"]));
   ("facebook", ("www.", ["facebook.com"]));
   ("telegram", ("www.", ["t.me"; "telegram.me"]));
   ("spotify", ("open.", ["spotify.com"]));
   ("twitch", ("www.", ["twitch.tv"]))].

(** A link, letter case apart, is a scheme, the optional prefix or nothing,
    one of the hosts, a slash and at least one code unit that is no line
    terminator. *)
Definition platform_url (optional : string) (hosts : list string)
    (link : string) : Prop :=
  exists scheme pre h c rest,
    (scheme = "https://" \/ scheme = "http://")
    /\ (pre = EmptyString \/ pre = optional)
    /\ h ∈ hosts
    /\ V2.line_terminator c = false
    /\ V2.lower link = scheme +:+ pre +:+ h +:+ "/" +:+ String c rest.

(** The v2 store with the catalog of the examples cached. *)
Definition v2_warm : V2.state :=
  V2.mkState (V2.mkCache (Some [v2_service]) 0) ∅ [] [].

Definition v2_five_hundred : V2.OrderData :=
  V2.mkData 7446 "https://instagram.com/ann" (Jap.Num 500%Z) (Some "ann@example.com")
    None.

(** The fields of a record of the v5 server with JAP integration that no
    handler writes after the record is made. *)
Definition jap_frozen (o : ServerJap.Order)
    : Z * string * option string * string * string * Z * option Z * string :=
  (ServerJap.id o, ServerJap.orderId o, ServerJap.stripeSessionId o,
   ServerJap.email o, ServerJap.link o, ServerJap.quantity o,
   ServerJap.japServiceId o, ServerJap.paymentMethod o).

(** A record after a handler ran, against the record before: the same
    order, and an upstream id it had is not lost. *)
Definition jap_kept (o o' : ServerJap.Order) : Prop :=
  jap_frozen o' = jap_frozen o
  /\ (Jap.order_truthy (ServerJap.japOrderId o) = true ->
      Jap.order_truthy (ServerJap.japOrderId o') = true).

(** A processing order of that server, already dispatched as upstream
    order 501. *)
Definition jap_processing : ServerJap.Order :=
  ServerJap.mkOrder 1700000000000 "GF-1" (Some "cs_1") "ann@example.com"
    "https://instagram.com/ann" 5000 (Some 7446%Z) "processing" "stripe"
    (Some 501%Z) (Some 1700000000500%Z).

(** A text without line terminator. *)
Fixpoint one_line (s : string) : bool :=
  match s with
  | EmptyString => true
  | String c s' => negb (V5.line_terminator c) && one_line s'
  end.

(** A code unit that is a decimal digit, and a text of decimal digits. *)
Definition decimal_unit (c : ascii) : bool :=
  let n := N_of_ascii c in ((48 <=? n) && (n <=? 57))%N.

Fixpoint decimal (s : string) : bool :=
  match s with
  | EmptyString => true
  | String c s' => decimal_unit c && decimal s'
  end.

(** The errors [validateOrderInput] raises for a request of the types the
    order form sends. *)
Definition typed_errors (body : V5.OrderInput) : list string :=
  (match V5.in_link body with
   | Some l => if (String.length l <? 5)%nat then ["Invalid link"] else []
   | None => ["Invalid link"]
   end)
  ++ (match V5.in_email body with
      | Some m => if V5.email_ok false m then [] else ["Invalid email"]
      | None => ["Invalid email"]
      end)
  ++ (match V5.in_quantity body with
      | Some q =>
          if Qeq_bool q 0 || V5.Qlt_bool q 1 || V5.Qlt_bool 1000000 q
          then ["Invalid quantity"] else []
      | None => ["Invalid quantity"]
      end)
  ++ (match V5.in_serviceId body with
      | Some i => if Qeq_bool i 0 then ["Invalid service ID"] else []
      | None => ["Invalid service ID"]
      end)
  ++ (match V5.in_amount body with
      | Some a =>
          if Qeq_bool a 0 || V5.Qlt_bool a (1 # 2) || V5.Qlt_bool 50000 a
          then ["Invalid amount"] else []
      | None => ["Invalid amount"]
      end).

(** A text of hexadecimal digits. *)
Fixpoint hexadecimal (s : string) : bool :=
  match s with
  | EmptyString => true
  | String c s' =>
      match ParseInt.digit 16 c with
      | Some _ => hexadecimal s'
      | None => false
      end
  end.

(** Stand-ins for the two conversions of the engine in the worked
    examples: the empty text reads as 0, a text of decimal digits as the
    integer it writes, [0x] before hexadecimal digits as the integer they
    write and any other text as [NaN]; every double that is no plain integer
    is written [1000.5]. *)
Definition demo_StringToNumber (s : string) : Body.number :=
  if String.eqb s EmptyString then Body.Finite 0
  else if decimal s
  then from_option (fun z => Body.Finite (inject_Z z)) Body.NaN
         (ParseInt.digits 10 s None)
  else
    let '(radix, rest) := ParseInt.radix_prefix s in
    if (radix =? 16)%Z && hexadecimal rest
    then from_option (fun z => Body.Finite (inject_Z z)) Body.NaN
           (ParseInt.digits 16 rest None)
    else Body.NaN.

Definition demo_digits (q : Q) : string := "1000.5".

(** Whether the event of a completed checkout brings back the metadata its
    session was asked with: every member that is a text, under its key. *)
Definition carried (asked : list (string * Body.value)) (event : Stripe.event)
    : bool :=
  forallb
    (fun kv =>
       match kv.2 with
       | Body.Text s =>
           bool_decide
             (Stripe.meta (Stripe.metadata (Stripe.object event)) kv.1 = Some s)
       | _ => true
       end) asked.

(** The texts among the metadata of a session. *)
Definition texts (m : list (string * Body.value)) : list (string * string) :=
  omap (fun kv =>
          match kv.2 with
          | Body.Text s => Some (kv.1, s)
          | _ => None
          end) m.

(** A checkout of v5 and the webhook of its completion, in the worked
    examples: the requests the upstream receives when the texts of the
    session's metadata come back as the metadata of the event. *)
Definition checkout_then_webhook (body : Body.object) : list Jap.request :=
  match V5.sessions
          (V5.post_order demo_StringToNumber demo_digits v5_env
             (Some ("https://checkout.stripe.com/c/pay/cs_1", "cs_1")) body
             v5_empty).2 with
  | [request] =>
      V5.japCalls
        (V5.fulfil v5_env accepting
           (paid_session (texts (V5.session_metadata request)))
           1700000005000 v5_empty)
  | _ => []
  end.

(** A checkout request of v5 with the given quantity. *)
Definition order_for (quantity : Body.value) : Body.object :=
  [("link", Body.Text "  https://instagram.com/ann ");
   ("email", Body.Text "ann@example.com"); ("quantity", quantity);
   ("serviceId", Body.Number (Body.Finite 7446));
   ("amount", Body.Number (Body.Finite (1299 # 100)))].

(** The session the order endpoint asks of Stripe for 5000 units. *)
Definition asked_session : V5.SessionRequest :=
  V5.mkRequest (Some (Body.Text "ann@example.com")) (Body.Finite (1299 # 100))
    [("link", Body.Text "https://instagram.com/ann");
     ("quantity", Body.Text "5000"); ("serviceId", Body.Text "7446");
     ("platform", Body.Text "instagram"); ("service", Body.Text "followers");
     ("quality", Body.Text "standard")].

(** * Properties *)

(** ** The serializer *)

Example stringify_flat :
  JSON_stringify (JObj [("b", JNum "1"); ("a", JStr "x")])
  = "{" +:+ dquote +:+ "b" +:+ dquote +:+ ":1," +:+ dquote +:+ "a" +:+ dquote
    +:+ ":" +:+ dquote +:+ "x" +:+ dquote +:+ "}".
Proof. reflexivity. Qed.

Example obj_set_order :
  obj_set (obj_set (obj_set [] "b" JNull) "10" JNull) "9" JNull
  = [("9", JNull); ("10", JNull); ("b", JNull)].
Proof. reflexivity. Qed.

Example sort_example : JS.sort ["b"; "a"; "c"; "B"] = ["B"; "a"; "b"; "c"].
Proof. vm_compute. reflexivity. Qed.

(** An array replacer keeps its order and drops keys it does not list. *)
Example stringify_with_replacer :
  JSON_stringify_with (JObj [("b", JNum "1"); ("a", JNum "2"); ("c", JNum "3")])
    ["a"; "b"; "a"]
  = "{" +:+ dquote +:+ "a" +:+ dquote +:+ ":2," +:+ dquote +:+ "b" +:+ dquote
    +:+ ":1}".
Proof. vm_compute. reflexivity. Qed.

Example sortedParams_example :
  Ipn.sortedParams [("b", JNum "1"); ("a", JObj [("z", JNull); ("y", JNull)])]
  = [("a", JObj [("z", JNull); ("y", JNull)]); ("b", JNum "1")].
Proof. vm_compute. reflexivity. Qed.

Example parseInt_examples :
  ParseInt.parseInt "5000" = Jap.Num 5000%Z
  /\ ParseInt.parseInt " -12px" = Jap.Num (-12)%Z
  /\ ParseInt.parseInt "abc" = Jap.NaN
  /\ ParseInt.parseInt "0x10" = Jap.Num 16%Z
  /\ ParseInt.parseInt "-0X1f" = Jap.Num (-31)%Z
  /\ ParseInt.parseInt "0x" = Jap.NaN
  /\ ParseInt.parseInt "1000.5" = Jap.Num 1000%Z
  /\ ParseInt.parseInt "1e+21" = Jap.Num 1%Z
  /\ ParseInt.parseInt "-0" = Jap.NegZero
  /\ ParseInt.parseInt (String (ascii_of_N 160) "7") = Jap.Num 7%Z
  /\ ParseInt.parseInt "9007199254740993" = Jap.Num 9007199254740992%Z
  /\ ParseInt.parseInt "9007199254740995" = Jap.Num 9007199254740996%Z.
Proof. vm_compute. done. Qed.

Example email_examples :
  V5.email_ok false "ann@example.com" = true
  /\ V5.email_ok false "ann@example" = false
  /\ V5.email_ok false "a b@example.com" = false
  /\ V5.email_ok false "@example.com" = false
  /\ V5.email_ok false "ann@a.b.c" = true.
Proof. vm_compute. done. Qed.

Example validateLink_examples :
  V2.validateLink "https://www.instagram.com/ann" "instagram" = true
  /\ V2.validateLink "HTTP://Instagram.com/ann" "instagram" = true
  /\ V2.validateLink "https://instagram.com/" "instagram" = false
  /\ V2.validateLink "https://evil.com/instagram.com/ann" "instagram" = false
  /\ V2.validateLink "https://open.spotify.com/track/1" "spotify" = true
  /\ V2.validateLink "anything" "linkedin" = true.
Proof. vm_compute. done. Qed.

Example cache_duration : V2.CACHE_DURATION = 300000%Z /\ V3.CACHE_DURATION = 300000%Z.
Proof. done. Qed.

Example validateOrderInput_example :
  V5.validateOrderInput demo_StringToNumber demo_digits
    (V5.body_of
       (V5.mkInput (Some "https://instagram.com/ann") (Some "ann@example.com")
          (Some 5) (Some 7446) (Some (25 # 2))))
  = Some []
  /\ V5.validateOrderInput demo_StringToNumber demo_digits
       (V5.body_of
          (V5.mkInput (Some "abc") None (Some 2000000) (Some 0) (Some (1 # 4))))
     = Some ["Invalid link"; "Invalid email"; "Invalid quantity";
             "Invalid service ID"; "Invalid amount"].
Proof. vm_compute. done. Qed.

(** Members of other types: a quantity that is a text or [true] and an
    amount that is a text of no number raise no error, an email that is an
    array is tested as its joined text, and an email with an own
    [toString] makes the validation throw. *)
Example validateOrderInput_untyped :
  V5.validateOrderInput demo_StringToNumber demo_digits
    [("link", Body.Text "https://instagram.com/ann");
     ("email", Body.Array [Body.Text "ann@example.com"]);
     ("quantity", Body.Text "abc"); ("serviceId", Body.Number (Body.Finite 7446));
     ("amount", Body.Text "a lot")]
  = Some []
  /\ V5.validateOrderInput demo_StringToNumber demo_digits
       [("link", Body.Text "https://instagram.com/ann");
        ("email", Body.Text "ann@example.com");
        ("quantity", Body.Bool true); ("serviceId", Body.Number (Body.Finite 7446));
        ("amount", Body.Number (Body.Finite (25 # 2)))]
     = Some []
  /\ V5.validateOrderInput demo_StringToNumber demo_digits
       [("link", Body.Text "https://instagram.com/ann");
        ("email", Body.Object [("toString", Body.Null)]);
        ("quantity", Body.Number (Body.Finite 5));
        ("serviceId", Body.Number (Body.Finite 7446));
        ("amount", Body.Number (Body.Finite (25 # 2)))]
     = None.
Proof. vm_compute. done. Qed.

Lemma serialize_JArr K xs :
  serialize K (JArr xs)
  = "[" +:+ String.concat "," (map (serialize K) xs) +:+ "]".
Proof.
  reflexivity.
Qed.

Lemma serialize_JObj K ps :
  serialize K (JObj ps) = "{" +:+ String.concat "," (members K ps) +:+ "}".
Proof.
  cbn [serialize]. do 3 f_equal. unfold members.
  apply list_omap_ext, Forall2_same_length_lookup_2; [done|].
  intros i p q Hp Hq. assert (p = q) as <- by congruence. f_equal.
  unfold member_text. clear. induction ps as [|[k x] ps IH]; [reflexivity|].
  cbn [own]. destruct (String.eqb k p); [reflexivity|apply IH].
Qed.

Lemma property_list_elem seen items x :
  x ∈ property_list seen items -> x ∈ items.
Proof.
  revert seen. induction items as [|y items IH]; intros seen; cbn [property_list].
  - by intros ?%elem_of_nil.
  - destruct (decide (y ∈ seen)).
    + intros H. right. by eapply IH.
    + intros [->|H]%elem_of_cons; [left|right; by eapply IH].
Qed.

Lemma sorted_keys_elem (o : object) k :
  k ∈ property_list [] (JS.sort (Object_keys o)) -> k ∈ Object_keys o.
Proof.
  intros H%property_list_elem. unfold JS.sort in H.
  by rewrite merge_sort_Permutation in H.
Qed.

Lemma agree_on_listed_keys K ps qs :
  agree_on_listed K (JObj ps) (JObj qs) = true -> map fst ps = map fst qs.
Proof.
  cbn [agree_on_listed]. revert qs.
  induction ps as [|[k x] ps IH]; intros [|[k' y] qs] H; try done.
  apply andb_true_iff in H as [[Hk _]%andb_true_iff Hrest].
  apply String.eqb_eq in Hk as ->. cbn [map fst]. f_equal. by apply IH.
Qed.

(** Under a property list drawn from [K], values that agree on the keys of
    [K] serialize to the same text. *)
Lemma serialize_agree K K' v1 :
  (forall k, k ∈ K' -> k ∈ K) ->
  forall v2, agree_on_listed K v1 v2 = true ->
  serialize (Some K') v1 = serialize (Some K') v2.
Proof.
  intros Hsub. induction v1 as [| b | r | s | xs IH | ps IH] using value_nested_ind;
    intros [| b' | r' | s' | ys | qs] H; try discriminate H; try reflexivity.
  - cbn in H. apply Bool.eqb_prop in H. by subst.
  - cbn in H. apply String.eqb_eq in H. by subst.
  - cbn in H. apply String.eqb_eq in H. by subst.
  - rewrite !serialize_JArr. do 3 f_equal. cbn [agree_on_listed] in H.
    revert ys H. induction IH as [|x xs Hx _ IHxs]; intros [|y ys] H; try done.
    apply andb_true_iff in H as [Hxy Hrest]. cbn [map]. f_equal; auto.
  - rewrite !serialize_JObj. do 3 f_equal. unfold members.
    apply list_omap_ext, Forall2_same_length_lookup_2; [done|].
    intros i p q Hp Hq. assert (p = q) as <- by congruence. f_equal.
    assert (p ∈ K) as HpK by (eapply Hsub, list_elem_of_lookup_2, Hp).
    clear Hp Hq i. unfold member_text. cbn [agree_on_listed] in H.
    revert qs H. induction IH as [|[k x] ps Hx _ IHps]; intros [|[k' y] qs] H;
      try done.
    apply andb_true_iff in H as [[Hk Hv]%andb_true_iff Hrest].
    apply String.eqb_eq in Hk as <-. cbn [own].
    destruct (String.eqb k p) eqn:Hkp.
    + apply String.eqb_eq in Hkp as ->.
      rewrite bool_decide_eq_true_2 in Hv by done. f_equal. by apply Hx.
    + by apply IHps.
Qed.

(** ** verifyIPNSignature and the replacer array (C10) *)

Lemma signed_text_agree (p1 p2 : object) :
  nested_only_difference p1 p2 = true -> V3.signed_text p1 = V3.signed_text p2.
Proof.
  intros H. unfold V3.signed_text, JSON_stringify_with.
  rewrite <- (agree_on_listed_keys _ _ _ H : Object_keys p1 = Object_keys p2).
  apply serialize_agree with (K := Object_keys p1); [|exact H].
  apply sorted_keys_elem.
Qed.

(** The nested member [currency] is no top-level key: the signed text does
    not hold it. *)
Example signed_text_drops_nested_only :
  V3.signed_text
    [("order_id", JStr "A1");
     ("fee", JObj [("currency", JStr "btc"); ("order_id", JStr "in")])]
  = "{" +:+ dquote +:+ "fee" +:+ dquote +:+ ":{" +:+ dquote +:+ "order_id"
    +:+ dquote +:+ ":" +:+ dquote +:+ "in" +:+ dquote +:+ "}," +:+ dquote
    +:+ "order_id" +:+ dquote +:+ ":" +:+ dquote +:+ "A1" +:+ dquote +:+ "}".
Proof. vm_compute. reflexivity. Qed.

Lemma agree_on_listed_JStr K v1 v2 :
  agree_on_listed K v1 v2 = true ->
  (forall s, v1 = JStr s <-> v2 = JStr s).
Proof.
  intros H s. destruct v1, v2; try discriminate H; try (split; discriminate).
  cbn in H. apply String.eqb_eq in H as ->. done.
Qed.

(** Top-level members of two payloads that differ in nested-only members:
    present in both or in neither, and the same text when one is a string. *)
Lemma string_member_agree K ps qs k :
  (forall k', k' ∈ map fst ps -> k' ∈ K) ->
  agree_on_listed K (JObj ps) (JObj qs) = true ->
  string_member ps k = string_member qs k.
Proof.
  unfold string_member. cbn [agree_on_listed]. revert qs.
  induction ps as [|[k1 x] ps IH]; intros [|[k2 y] qs] Hsub H; try done.
  apply andb_true_iff in H as [[Hk Hv]%andb_true_iff Hrest].
  apply String.eqb_eq in Hk as <-. cbn [own].
  destruct (String.eqb k1 k).
  - rewrite bool_decide_eq_true_2 in Hv by (apply Hsub; left).
    pose proof (agree_on_listed_JStr K x y Hv) as Hstr.
    destruct x; destruct y; try done;
      try (by (edestruct Hstr as [HH _]; specialize (HH eq_refl)));
      try (by (edestruct Hstr as [_ HH]; specialize (HH eq_refl))).
    destruct (Hstr s) as [HH _]. specialize (HH eq_refl). by inversion HH.
  - apply IH; [|done]. intros k' Hk'. apply Hsub. by right.
Qed.

Lemma payload_string_member (p1 p2 : object) k :
  nested_only_difference p1 p2 = true ->
  string_member p1 k = string_member p2 k.
Proof. intros H. by apply (string_member_agree (Object_keys p1)). Qed.

(** C10: verifyIPNSignature serializes the payload under the sorted array of
    its top-level keys as replacer, so a member of a nested object whose key
    is no top-level key is left out of the signed text; two payloads that
    differ only in the values of such nested-only members have the same
    HMAC, and verification answers the same for both, in lib/nowpayments.js
    of v3 and of v3-complete alike; the NOWPayments handler of the v3 server
    ends in the same response and state for both. *)
Theorem verifyIPNSignature_blind_to_nested_only
    {crypto : Crypto} (secret signature : option string) (p1 p2 : object) :
  nested_only_difference p1 p2 = true ->
  (forall key, hmac_sha512_hex key (V3.signed_text p1)
               = hmac_sha512_hex key (V3.signed_text p2))
  /\ V3.verifyIPNSignature secret p1 signature
     = V3.verifyIPNSignature secret p2 signature
  /\ V3Complete.verifyIPNSignature secret p1 signature
     = V3Complete.verifyIPNSignature secret p2 signature
  /\ (forall up st,
        ServerV3.nowpayments_webhook secret up signature p1 st
        = ServerV3.nowpayments_webhook secret up signature p2 st).
Proof.
  intros H. pose proof (signed_text_agree p1 p2 H) as Heq.
  assert (V3.verifyIPNSignature secret p1 signature
          = V3.verifyIPNSignature secret p2 signature) as Hverify.
  { unfold V3.verifyIPNSignature. by rewrite Heq. }
  split; [intros key; by rewrite Heq|]. split; [exact Hverify|]. split.
  - unfold V3Complete.verifyIPNSignature.
    fold (V3.signed_text p1) (V3.signed_text p2). by rewrite Heq.
  - intros up st. unfold ServerV3.nowpayments_webhook, ServerV3.update_reported.
    by rewrite Hverify, !(payload_string_member p1 p2 _ H).
Qed.

Lemma verifyIPNSignature_blind_witness :
  ipn_btc <> ipn_eth
  /\ nested_only_difference ipn_btc ipn_eth = true
  /\ V3.verifyIPNSignature (crypto := demo_crypto) (Some "k") ipn_btc (Some "s")
     = V3.verifyIPNSignature (crypto := demo_crypto) (Some "k") ipn_eth (Some "s").
Proof.
  split; [discriminate|]. split; [vm_compute; reflexivity|].
  apply (verifyIPNSignature_blind_to_nested_only (crypto := demo_crypto)
           (Some "k") (Some "s") ipn_btc ipn_eth).
  vm_compute. reflexivity.
Defined.

(** ** The signature guard of the NOWPayments handlers (C4, C8) *)

Lemma guard_without_header {crypto : Crypto} secret body :
  Ipn.signature_guard secret None body = true.
Proof. unfold Ipn.signature_guard. by destruct (truthy secret). Qed.

Lemma guard_with_expected {crypto : Crypto} secret body :
  Ipn.signature_guard secret
    (Some (Ipn.expectedSig (default EmptyString secret) body)) body = true.
Proof.
  unfold Ipn.signature_guard. destruct (truthy secret); [|done].
  destruct (truthy _); [|done]. cbn [default]. apply String.eqb_refl.
Qed.

Lemma guard_with_header {crypto : Crypto} secret sig body :
  truthy (Some secret) = true -> truthy (Some sig) = true ->
  Ipn.signature_guard (Some secret) (Some sig) body
  = String.eqb sig (Ipn.expectedSig secret body).
Proof. unfold Ipn.signature_guard. by intros -> ->. Qed.

(** C8: a request to the NOWPayments webhook that carries no
    x-nowpayments-sig header is not verified, whether an IPN secret is
    configured or not: both servers go on to process it, and end in the
    response and the state they end in for the same body with the right
    signature. *)
Theorem unsigned_ipn_processed_as_authentic
    {crypto : Crypto}
    (e5 : V5.env) (ej : ServerJap.env) (up : Jap.upstream) (body : object)
    (now : Z) (s5 : V5.state) (sj : ServerJap.state) :
  V5.nowpayments_webhook e5 None body s5 = V5.settle body s5
  /\ V5.nowpayments_webhook e5 None body s5
     = V5.nowpayments_webhook e5
         (Some (Ipn.expectedSig
                  (default EmptyString (V5.NOWPAYMENTS_IPN_SECRET e5)) body))
         body s5
  /\ ServerJap.nowpayments_webhook ej up None body now sj
     = ServerJap.settle ej up body now sj
  /\ ServerJap.nowpayments_webhook ej up None body now sj
     = ServerJap.nowpayments_webhook ej up
         (Some (Ipn.expectedSig
                  (default EmptyString (ServerJap.NOWPAYMENTS_IPN_SECRET ej)) body))
         body now sj.
Proof.
  unfold V5.nowpayments_webhook, ServerJap.nowpayments_webhook.
  rewrite !guard_without_header, !guard_with_expected. done.
Qed.

(** With the IPN secret set, the forged body without a header places an
    upstream order and moves the stored order to processing. *)
Example forged_ipn_dispatches :
  ServerJap.nowpayments_webhook (crypto := demo_crypto) jap_env accepting
    None forged_ipn 1700000005000 jap_store
  = (Http.success,
     ServerJap.mkState
       [ServerJap.mkOrder 1700000000000 "gf_1" None "ann@example.com"
          "https://instagram.com/ann" 5000 (Some 7446%Z) "processing" "crypto"
          (Some 501%Z) (Some 1700000005000%Z)]
       [Jap.Request (Jap.Num 7446%Z) (Some "https://instagram.com/ann") (Jap.Num 5000%Z)]
       [ServerJap.OrderNotification "Crypto (BTC)"
          (Some "https://instagram.com/ann") (Jap.Num 5000%Z)
          (ServerJap.mkResult true (Some 501%Z) None)]).
Proof. vm_compute. reflexivity. Qed.

(** Where no key of the body is an array index or [__proto__], the object
    the handlers rebuild lists the keys of the body in sorted order. *)
Lemma sortedParams_keys_from (body : object) (keys : list string) (acc : object) :
  NoDup (Object_keys acc ++ keys) ->
  Forall (fun k => is_Some (own body k) /\ array_index k = None
                   /\ String.eqb k proto_key = false) keys ->
  Object_keys
    (fold_left
       (fun acc key =>
          match own body key with
          | Some v => obj_set acc key v
          | None => acc
          end) keys acc)
  = Object_keys acc ++ keys.
Proof.
  revert acc. induction keys as [|k keys IH]; intros acc Hnd Hall; cbn [fold_left].
  - by rewrite app_nil_r.
  - apply Forall_cons in Hall as [([v Hv] & Hidx & Hproto) Hall]. rewrite Hv.
    assert (own acc k = None) as Hfresh.
    { apply NoDup_app in Hnd as (_ & Hdisj & _).
      assert (k ∉ Object_keys acc) as Hk by (intros ?; eapply Hdisj; [done|left]).
      clear -Hk. induction acc as [|[k' x] acc IHacc]; [done|]. cbn [own].
      destruct (String.eqb k' k) eqn:E.
      - apply String.eqb_eq in E as ->. exfalso. apply Hk. left.
      - apply IHacc. intros ?. apply Hk. by right. }
    assert (obj_set acc k v = acc ++ [(k, v)]) as ->.
    { unfold obj_set. by rewrite Hfresh, Hproto, Hidx. }
    rewrite IH; [| |done].
    + unfold Object_keys. rewrite map_app. cbn [map fst]. by rewrite <- app_assoc.
    + unfold Object_keys. rewrite map_app. cbn [map fst]. by rewrite <- app_assoc.
Qed.

Lemma own_is_Some (o : object) k : k ∈ Object_keys o -> is_Some (own o k).
Proof.
  induction o as [|[k' x] o IH]; [by intros ?%elem_of_nil|]. cbn [own].
  destruct (String.eqb k' k) eqn:E; [by eexists|].
  intros [->|H]%elem_of_cons; [|by apply IH].
  cbn [fst] in E. by rewrite String.eqb_refl in E.
Qed.

Lemma sortedParams_keys (body : object) :
  NoDup (Object_keys body) ->
  Forall (fun k => array_index k = None /\ String.eqb k proto_key = false)
    (Object_keys body) ->
  Object_keys (Ipn.sortedParams body) = JS.sort (Object_keys body).
Proof.
  intros Hnd Hall. unfold Ipn.sortedParams.
  rewrite sortedParams_keys_from; [done| |].
  - cbn [Object_keys map app]. unfold JS.sort. by rewrite merge_sort_Permutation.
  - apply Forall_forall. intros k Hk. unfold JS.sort in Hk.
    rewrite merge_sort_Permutation in Hk. split; [by apply own_is_Some|].
    by eapply Forall_forall in Hall.
Qed.

(** C4 (as the handlers have it): with an IPN secret configured and a
    non-empty x-nowpayments-sig header, verification computes the
    HMAC-SHA512, under the secret, of the JSON text of the body rebuilt with
    its top-level keys in sorted order, and compares it to the header.  The
    body is processed if and only if the two are equal; on a mismatch the
    request is answered 400 and the state is left as it was.
    verifyIPNSignature of lib/nowpayments.js answers true exactly when the
    signature is the digest of its signed text. *)
Theorem ipn_signature_checked_when_header_present
    {crypto : Crypto} (e5 : V5.env) (ej : ServerJap.env) (up : Jap.upstream)
    (secret sig : string) (body : object) (now : Z)
    (s5 : V5.state) (sj : ServerJap.state) :
  truthy (Some secret) = true ->
  truthy (Some sig) = true ->
  V5.NOWPAYMENTS_IPN_SECRET e5 = Some secret ->
  ServerJap.NOWPAYMENTS_IPN_SECRET ej = Some secret ->
  (V3.verifyIPNSignature (Some secret) body (Some sig) = true
   <-> sig = hmac_sha512_hex secret (V3.signed_text body))
  /\ (sig = Ipn.expectedSig secret body ->
      V5.nowpayments_webhook e5 (Some sig) body s5 = V5.settle body s5
      /\ ServerJap.nowpayments_webhook ej up (Some sig) body now sj
         = ServerJap.settle ej up body now sj)
  /\ (sig <> Ipn.expectedSig secret body ->
      V5.nowpayments_webhook e5 (Some sig) body s5
      = (Http.error 400 "Invalid signature", s5)
      /\ ServerJap.nowpayments_webhook ej up (Some sig) body now sj
         = (Http.error 400 "Invalid signature", sj)).
Proof.
  intros Hsecret Hsig H5 Hj. split; [|split].
  - unfold V3.verifyIPNSignature. rewrite Hsecret. cbn [default].
    fold (V3.signed_text body). unfold id. rewrite String.eqb_eq.
    split; congruence.
  - intros ->. unfold V5.nowpayments_webhook, ServerJap.nowpayments_webhook.
    rewrite H5, Hj, !guard_with_header by done. by rewrite String.eqb_refl.
  - intros Hne. unfold V5.nowpayments_webhook, ServerJap.nowpayments_webhook.
    rewrite H5, Hj, !guard_with_header by done.
    apply String.eqb_neq in Hne. by rewrite Hne.
Qed.

Lemma ipn_signature_checked_witness :
  V5.nowpayments_webhook (crypto := demo_crypto)
    (V5.mkEnv None None None (Some "ipnsec") None) (Some "forged") forged_ipn
    (V5.mkState [] [] [] [])
  = (Http.error 400 "Invalid signature", V5.mkState [] [] [] []).
Proof.
  refine (proj1 (proj2 (proj2
    (ipn_signature_checked_when_header_present (crypto := demo_crypto)
       (V5.mkEnv None None None (Some "ipnsec") None) jap_env accepting
       "ipnsec" "forged" forged_ipn 0 (V5.mkState [] [] [] []) jap_store
       _ _ _ _)) _)).
  - reflexivity.
  - reflexivity.
  - reflexivity.
  - reflexivity.
  - vm_compute. discriminate.
Defined.

(** C4 as stated fails: the IPN secret is set, the request carries no
    signature at all, and the forged body is taken as authentic; the stored
    order changes. *)
Lemma unsigned_ipn_changes_order :
  let run :=
    ServerJap.nowpayments_webhook (crypto := demo_crypto) jap_env accepting
      None forged_ipn 1700000005000 jap_store in
  None <> Some (Ipn.expectedSig (crypto := demo_crypto) "ipnsec" forged_ipn)
  /\ run.1 = Http.success
  /\ ServerJap.status <$> ServerJap.orders run.2 = ["processing"]
  /\ ServerJap.status <$> ServerJap.orders jap_store = ["pending"]
  /\ List.length (ServerJap.japCalls run.2) = 1%nat.
Proof. vm_compute. repeat split; discriminate. Qed.

(** ** Secrets that are not configured (C9) *)

(** C9: without a configured secret the authenticity check lets everything
    through.  With STRIPE_WEBHOOK_SECRET unset, the Stripe handler of the v5
    server with JAP integration parses the raw body and processes the event
    it finds, whatever the signature header; with NOWPAYMENTS_IPN_SECRET
    unset, verifyIPNSignature of v3-complete returns true for every payload
    and every signature. *)
Theorem unset_secrets_fail_open
    {crypto : Crypto} {sdk : Stripe.Sdk} (e : ServerJap.env) (up : Jap.upstream)
    (raw : string) (header : option string) (now : Z) (st : ServerJap.state)
    (ipn_secret : option string) (payload : object) (signature : option string) :
  truthy (ServerJap.STRIPE_WEBHOOK_SECRET e) = false ->
  truthy ipn_secret = false ->
  ServerJap.stripe_webhook e up raw header now st
  = match Stripe.JSON_parse raw with
    | inl message => (Http.Text 400 ("Webhook Error: " +:+ message), st)
    | inr event => (Http.received, ServerJap.fulfil e up event now st)
    end
  /\ V3Complete.verifyIPNSignature ipn_secret payload signature = true.
Proof.
  intros Hstripe Hipn. split.
  - unfold ServerJap.stripe_webhook. by rewrite Hstripe.
  - unfold V3Complete.verifyIPNSignature. by rewrite Hipn.
Qed.

Lemma unset_secrets_fail_open_witness :
  ServerJap.stripe_webhook (sdk := demo_sdk) open_env accepting "checkout O1"
    (Some "anything") 1700000005000 (ServerJap.mkState [card_pending] [] [])
  = (Http.received,
     ServerJap.fulfil open_env accepting checkout_completed 1700000005000
       (ServerJap.mkState [card_pending] [] []))
  /\ V3Complete.verifyIPNSignature (crypto := demo_crypto) None forged_ipn
       (Some "anything") = true.
Proof.
  apply (unset_secrets_fail_open (crypto := demo_crypto) (sdk := demo_sdk)
           open_env accepting "checkout O1" (Some "anything") 1700000005000
           (ServerJap.mkState [card_pending] [] []) None forged_ipn
           (Some "anything")); reflexivity.
Defined.

(** The unsigned event reaches the upstream and the stored order. *)
Example unsigned_event_dispatches :
  let st := ServerJap.fulfil open_env accepting checkout_completed 1700000005000
              (ServerJap.mkState [card_pending] [] []) in
  ServerJap.japCalls st
  = [Jap.Request (Jap.Num 7446%Z) (Some "https://instagram.com/ann") (Jap.Num 5000%Z)]
  /\ ServerJap.status <$> ServerJap.orders st = ["processing"]
  /\ ServerJap.japOrderId <$> ServerJap.orders st = [Some 501%Z].
Proof. vm_compute. done. Qed.

(** ** The order store and the webhook handlers of v3-complete (C1, C2, C3) *)

Section v3_complete_store.
Import V3Complete.

Lemma updateOrderStatus_found orderId status e st order :
  orders st !! orderId = Some order ->
  updateOrderStatus orderId status e st
  = (Some (assign e (with_status status order)),
     with_orders (<[orderId := assign e (with_status status order)]> (orders st)) st).
Proof. unfold updateOrderStatus. by intros ->. Qed.

Lemma updateOrderStatus_missing orderId status e st :
  orders st !! orderId = None ->
  updateOrderStatus orderId status e st = (None, st).
Proof. unfold updateOrderStatus. by intros ->. Qed.

Lemma processOrder_paid up orderId st order :
  orders st !! orderId = Some order ->
  status order = "paid" ->
  processOrder up orderId st
  = let st1 := mkState (orders st) (japCalls st ++ [request_of order])
                 (checkouts st) (invoices st) in
    match createJAPOrder (up (List.length (japCalls st))) with
    | inl e => (inl e, st1)
    | inr j => (inr j, (updateOrderStatus orderId "processing" (JapOrderId j) st1).2)
    end.
Proof. unfold processOrder. by intros -> ->. Qed.

Lemma processOrder_not_paid up orderId st order :
  orders st !! orderId = Some order ->
  status order <> "paid" ->
  processOrder up orderId st = (inl "Order not paid", st).
Proof.
  unfold processOrder. intros -> Hne%String.eqb_neq. by rewrite Hne.
Qed.

(** What one pass of the webhook body leaves behind for an order that
    exists: one more upstream call, and the order in processing with the
    id the upstream returned, or in paid when the call threw. *)
Lemma mark_and_process_found up orderId st order :
  orders st !! orderId = Some order ->
  japCalls (mark_and_process up orderId st) = japCalls st ++ [request_of order]
  /\ orders (mark_and_process up orderId st) !! orderId
     = Some (match createJAPOrder (up (List.length (japCalls st))) with
             | inr j => with_japOrderId j (with_status "processing" order)
             | inl _ => with_status "paid" order
             end).
Proof.
  intros Hfound. unfold mark_and_process.
  rewrite (updateOrderStatus_found _ _ _ _ _ Hfound). cbn [snd assign].
  rewrite (processOrder_paid _ _ _ (with_status "paid" order));
    [|apply lookup_insert_eq|done].
  cbn zeta. unfold with_orders. cbn [japCalls orders checkouts invoices].
  destruct (createJAPOrder _) as [err|j]; cbn [snd].
  - cbn [japCalls orders]. rewrite lookup_insert_eq. by destruct order.
  - erewrite updateOrderStatus_found by apply lookup_insert_eq.
    unfold with_orders. cbn [snd japCalls orders assign].
    rewrite lookup_insert_eq. by destruct order.
Qed.
End v3_complete_store.

Section v3_complete_deliveries.
Import V3Complete.
Context {sdk : Stripe.Sdk}.

Lemma request_of_with_status s order :
  request_of (with_status s order) = request_of order.
Proof. by destruct order. Qed.

Lemma request_of_with_japOrderId j order :
  request_of (with_japOrderId j order) = request_of order.
Proof. by destruct order. Qed.

(** Repeating the webhook body [n] times for an order that exists: [n]
    more upstream calls, each for that order. *)
Lemma mark_and_process_iter up orderId order st n :
  orders st !! orderId = Some order ->
  japCalls (Nat.iter n (mark_and_process up orderId) st)
  = japCalls st ++ replicate n (request_of order)
  /\ exists order',
       orders (Nat.iter n (mark_and_process up orderId) st) !! orderId
       = Some order'
       /\ request_of order' = request_of order.
Proof.
  intros Hfound. induction n as [|n [Hcalls (order' & Hfound' & Hreq)]].
  - cbn [replicate]. rewrite app_nil_r. eauto.
  - rewrite Nat.iter_succ.
    destruct (mark_and_process_found up orderId _ order' Hfound') as [Hc Ho].
    split.
    + rewrite Hc, Hcalls, Hreq, <- app_assoc. f_equal.
      change (replicate n (request_of order) ++ [request_of order])
        with (replicate n (request_of order) ++ replicate 1 (request_of order)).
      rewrite <- replicate_add. f_equal. lia.
    + eexists. split; [exact Ho|].
      destruct (createJAPOrder _);
        by rewrite ?request_of_with_japOrderId, request_of_with_status.
Qed.

Lemma stripe_webhook_valid env_secret up payload signature event orderId st :
  verifyStripeWebhook env_secret payload signature = inr event ->
  Stripe.type event = "checkout.session.completed" ->
  Stripe.meta (Stripe.metadata (Stripe.object event)) "orderId" = Some orderId ->
  truthy (Some orderId) = true ->
  stripe_webhook env_secret up payload signature st
  = (Http.received, mark_and_process up orderId st).
Proof.
  intros Hv Ht Hm Hid. unfold stripe_webhook. by rewrite Hv, Ht, Hm, Hid.
Qed.

Lemma iter_ext {A} (f g : A -> A) n x :
  (forall a, f a = g a) -> Nat.iter n f x = Nat.iter n g x.
Proof.
  intros H. induction n as [|n IH]; [done|]. by rewrite !Nat.iter_succ, IH, H.
Qed.
End v3_complete_deliveries.

Section server_jap_deliveries.
Import ServerJap.
Context {sdk : Stripe.Sdk}.

Lemma placeJapOrder_calls e up service link quantity st :
  truthy (JAP_API_KEY e) = true ->
  japCalls (placeJapOrder e up service link quantity st).2
  = japCalls st ++ [Jap.Request service link quantity].
Proof.
  intros Hkey. unfold placeJapOrder. rewrite Hkey. cbn [negb].
  destruct (up _) as [m|order error]; [done|]. by destruct (Jap.order_truthy order).
Qed.

Lemma updateOrderStatus_calls key status j now st :
  japCalls (updateOrderStatus key status j now st) = japCalls st.
Proof. unfold updateOrderStatus. by destruct (update_first _ _ _). Qed.

(** One accepted checkout-completed event: one upstream call. *)
Lemma fulfil_calls e up event now st :
  truthy (JAP_API_KEY e) = true ->
  Stripe.type event = "checkout.session.completed" ->
  japCalls (fulfil e up event now st) = japCalls st ++ [jap_request event].
Proof.
  intros Hkey Htype. unfold fulfil. rewrite Htype.
  change (String.eqb "checkout.session.completed" "checkout.session.completed")
    with true. cbv iota.
  pose proof (placeJapOrder_calls e up
                (ParseInt.parseInt_of (Stripe.meta (Stripe.metadata (Stripe.object event)) "japServiceId"))
                (Stripe.meta (Stripe.metadata (Stripe.object event)) "link")
                (ParseInt.parseInt_of (Stripe.meta (Stripe.metadata (Stripe.object event)) "quantity")) st Hkey) as Hcalls.
  destruct (placeJapOrder _ _ _ _ _ _) as [japResult st1]. cbn [snd] in Hcalls.
  unfold notify. cbn [japCalls].
  destruct (getOrderByStripeSession _ _); by rewrite ?updateOrderStatus_calls.
Qed.

(** Deliveries at the times [times], one after the other. *)
Lemma fulfil_deliveries e up event times st :
  truthy (JAP_API_KEY e) = true ->
  Stripe.type event = "checkout.session.completed" ->
  japCalls (fold_left (fun s now => fulfil e up event now s) times st)
  = japCalls st ++ replicate (List.length times) (jap_request event).
Proof.
  intros Hkey Htype. revert st.
  induction times as [|now times IH]; intros st; cbn [fold_left List.length replicate].
  - by rewrite app_nil_r.
  - rewrite IH, fulfil_calls by done. by rewrite <- app_assoc.
Qed.
End server_jap_deliveries.

(** What [n] deliveries leave behind when each one runs the webhook body
    for an order of the store: [n] upstream calls for that order, and the
    upstream id of the order assigned by the next delivery whose call
    returns. *)
Lemma deliveries_dispatch
    (up : Jap.upstream) (deliver : V3Complete.state -> V3Complete.state)
    (orderId : string) (order : V3Complete.Order) (st : V3Complete.state)
    (n : nat) :
  (forall s, deliver s = V3Complete.mark_and_process up orderId s) ->
  V3Complete.orders st !! orderId = Some order ->
  V3Complete.japCalls (Nat.iter n deliver st)
  = V3Complete.japCalls st ++ replicate n (request_of order)
  /\ (forall j,
        V3Complete.createJAPOrder
          (up (List.length (V3Complete.japCalls st) + n)%nat) = inr j ->
        V3Complete.japOrderId
          <$> V3Complete.orders (Nat.iter (S n) deliver st) !! orderId
        = Some j).
Proof.
  intros Hd Hfound.
  destruct (mark_and_process_iter up orderId order st n Hfound)
    as [Hcalls (order' & Hfound' & _)].
  rewrite (iter_ext _ _ n st Hd). split; [exact Hcalls|].
  intros j Hj. rewrite Nat.iter_succ, Hd, (iter_ext _ _ n st Hd).
  destruct (mark_and_process_found up orderId _ order' Hfound') as [_ Ho].
  rewrite Ho, Hcalls, length_app, length_replicate, Hj. by destruct order'.
Qed.

Lemma nowpayments_webhook_valid up (body : object) orderId st :
  Ipn.payment_complete body = true ->
  own body "order_id" = Some (JStr orderId) ->
  V3Complete.nowpayments_webhook up body st
  = (Http.received, V3Complete.mark_and_process up orderId st).
Proof.
  unfold Ipn.payment_complete, V3Complete.nowpayments_webhook.
  destruct (own body "payment_status") as [[| | |s| |]|]; try done.
  by intros -> ->.
Qed.

(** C1 (as the handlers have it): N deliveries, one after the other, of the
    same valid payment-confirmation webhook make N calls to the upstream
    provisioning API, one per delivery.  In v3-complete this holds of the
    Stripe webhook and of the NOWPayments webhook alike, for every order of
    the store: each call is for the service, link and quantity of the order,
    and every delivery whose upstream call returns without error assigns the
    order's upstream id anew, to what that call returned.  In the v5 server
    with JAP integration it holds of the Stripe webhook whenever the JAP key
    is configured, whatever orders.json holds: each call is for the service,
    link and quantity of the session's metadata. *)
Theorem every_delivery_dispatches {sdk : Stripe.Sdk} (up : Jap.upstream) :
  (forall (env_secret : option string) (payload : string)
          (signature : option string) (event : Stripe.event)
          (orderId : string) (order : V3Complete.Order)
          (st : V3Complete.state) (n : nat),
     V3Complete.verifyStripeWebhook env_secret payload signature = inr event ->
     Stripe.type event = "checkout.session.completed" ->
     Stripe.meta (Stripe.metadata (Stripe.object event)) "orderId"
     = Some orderId ->
     truthy (Some orderId) = true ->
     V3Complete.orders st !! orderId = Some order ->
     let deliver := fun s =>
       (V3Complete.stripe_webhook env_secret up payload signature s).2 in
     V3Complete.japCalls (Nat.iter n deliver st)
     = V3Complete.japCalls st ++ replicate n (request_of order)
     /\ (forall j,
           V3Complete.createJAPOrder
             (up (List.length (V3Complete.japCalls st) + n)%nat) = inr j ->
           V3Complete.japOrderId
             <$> V3Complete.orders (Nat.iter (S n) deliver st) !! orderId
           = Some j))
  /\ (forall (body : object) (orderId : string) (order : V3Complete.Order)
             (st : V3Complete.state) (n : nat),
        Ipn.payment_complete body = true ->
        own body "order_id" = Some (JStr orderId) ->
        V3Complete.orders st !! orderId = Some order ->
        let deliver := fun s => (V3Complete.nowpayments_webhook up body s).2 in
        V3Complete.japCalls (Nat.iter n deliver st)
        = V3Complete.japCalls st ++ replicate n (request_of order)
        /\ (forall j,
              V3Complete.createJAPOrder
                (up (List.length (V3Complete.japCalls st) + n)%nat) = inr j ->
              V3Complete.japOrderId
                <$> V3Complete.orders (Nat.iter (S n) deliver st) !! orderId
              = Some j))
  /\ (forall (e : ServerJap.env) (payload : string) (signature : option string)
             (event : Stripe.event) (times : list Z) (st : ServerJap.state),
        parsed_event e payload signature = inr event ->
        Stripe.type event = "checkout.session.completed" ->
        truthy (ServerJap.JAP_API_KEY e) = true ->
        let deliver_at := fun s now =>
          (ServerJap.stripe_webhook e up payload signature now s).2 in
        ServerJap.japCalls (fold_left deliver_at times st)
        = ServerJap.japCalls st
          ++ replicate (List.length times) (jap_request event)).
Proof.
  split; [|split].
  - intros env_secret payload signature event orderId order st n
      Hv Ht Hm Hid Hfound deliver.
    apply deliveries_dispatch; [|done]. intros s. unfold deliver.
    by rewrite (stripe_webhook_valid _ _ _ _ _ _ _ Hv Ht Hm Hid).
  - intros body orderId order st n Hdone Hid Hfound deliver.
    apply deliveries_dispatch; [|done]. intros s. unfold deliver.
    by rewrite (nowpayments_webhook_valid _ _ _ _ Hdone Hid).
  - intros e payload signature event times st Hparsed Ht Hkey deliver_at.
    rewrite <- (fulfil_deliveries e up event times st Hkey Ht).
    f_equal. unfold deliver_at, ServerJap.stripe_webhook.
    fold (parsed_event e payload signature). by rewrite Hparsed.
Qed.

Lemma every_delivery_dispatches_witness :
  V3Complete.japCalls (Nat.iter 3 (deliver_O1 accepting) store_O1)
  = replicate 3 (request_of order_O1)
  /\ V3Complete.japCalls
       (Nat.iter 3
          (fun s => (V3Complete.nowpayments_webhook accepting ipn_O1 s).2)
          store_O1)
     = replicate 3 (request_of order_O1)
  /\ ServerJap.japCalls
       (fold_left
          (fun s now =>
             (ServerJap.stripe_webhook (sdk := demo_sdk) jap_env accepting
                "checkout O1" (Some "signed whsec") now s).2)
          [1700000005000; 1700000005200]%Z jap_store)
     = replicate 2 (jap_request checkout_completed).
Proof.
  destruct (every_delivery_dispatches (sdk := demo_sdk) accepting)
    as (Hstripe & Hipn & Hjap).
  split; [|split].
  - refine (proj1 (Hstripe (Some "whsec") "checkout O1" (Some "signed whsec")
                     checkout_completed "O1" order_O1 store_O1 3%nat
                     _ _ _ _ _)); reflexivity.
  - refine (proj1 (Hipn ipn_O1 "O1" order_O1 store_O1 3%nat _ _ _));
      reflexivity.
  - refine (Hjap jap_env "checkout O1" (Some "signed whsec") checkout_completed
              [1700000005000; 1700000005200]%Z jap_store _ _ _); reflexivity.
Defined.

(** C1 as stated fails: two deliveries of the same valid webhook make two
    upstream calls, and the upstream id of the order is assigned twice, to
    501 and then to 502. *)
Lemma second_delivery_dispatches_again :
  let st1 := deliver_O1 accepting store_O1 in
  let st2 := deliver_O1 accepting st1 in
  List.length (V3Complete.japCalls st2) = 2%nat
  /\ japOrderId_O1 store_O1 = Some None
  /\ japOrderId_O1 st1 = Some (Some 501%Z)
  /\ japOrderId_O1 st2 = Some (Some 502%Z).
Proof. vm_compute. done. Qed.

Lemma with_status_same (order : V3Complete.Order) :
  V3Complete.with_status (V3Complete.status order) order = order.
Proof. by destruct order. Qed.

Lemma status_assign e s (order : V3Complete.Order) :
  V3Complete.status (V3Complete.assign e (V3Complete.with_status s order)) = s.
Proof. by destruct e, order. Qed.

(** C2 (as the store has it): updateOrderStatus assigns the status it is
    given to an order of the store whatever the order's current status; no
    transition is refused.  The guard is in processOrder alone: it
    dispatches only an order whose status is paid.  A payment webhook first
    assigns paid, from any state, and leaves the order in processing when
    the upstream call returned, in paid when it threw. *)
Theorem status_assigned_whatever_the_state
    (up : Jap.upstream) (orderId status : string) (e : V3Complete.extra)
    (order : V3Complete.Order) (st : V3Complete.state) :
  V3Complete.orders st !! orderId = Some order ->
  V3Complete.status
    <$> V3Complete.orders (V3Complete.updateOrderStatus orderId status e st).2
        !! orderId
  = Some status
  /\ (V3Complete.status order <> "paid" ->
      V3Complete.processOrder up orderId st = (inl "Order not paid", st))
  /\ (V3Complete.status
        <$> V3Complete.orders (V3Complete.mark_and_process up orderId st) !! orderId
      = Some (match V3Complete.createJAPOrder
                      (up (List.length (V3Complete.japCalls st))) with
              | inr _ => "processing"
              | inl _ => "paid"
              end)).
Proof.
  intros Hfound. split; [|split].
  - rewrite (updateOrderStatus_found _ _ _ _ _ Hfound).
    unfold V3Complete.with_orders. cbn [snd V3Complete.orders].
    rewrite lookup_insert_eq. cbn [fmap option_fmap option_map].
    by rewrite status_assign.
  - by apply processOrder_not_paid.
  - destruct (mark_and_process_found up orderId st order Hfound) as [_ ->].
    destruct (V3Complete.createJAPOrder _); by destruct order.
Qed.

Lemma status_assigned_witness :
  status_O1 (V3Complete.updateOrderStatus "O1" "processing" V3Complete.NoExtra
               store_O1).2
  = Some "processing".
Proof.
  refine (proj1 (status_assigned_whatever_the_state accepting "O1" "processing"
                   V3Complete.NoExtra order_O1 store_O1 _)).
  reflexivity.
Defined.

(** C2 as stated fails: the order is in processing after the first IPN; the
    second delivery of the same IPN, whose upstream call fails, leaves it
    in paid. *)
Lemma processing_order_back_to_paid :
  let st1 := (V3Complete.nowpayments_webhook one_shot ipn_O1 store_O1).2 in
  let st2 := (V3Complete.nowpayments_webhook one_shot ipn_O1 st1).2 in
  status_O1 store_O1 = Some "pending"
  /\ status_O1 st1 = Some "processing"
  /\ status_O1 st2 = Some "paid".
Proof. vm_compute. done. Qed.

(** C3 (as the store has it): marking paid an order that is in state paid
    is a no-op: updateOrderStatus(orderId, 'paid') returns the record as it
    is, throws nothing and leaves the whole state as it was. *)
Theorem mark_paid_again_is_noop
    (orderId : string) (order : V3Complete.Order) (st : V3Complete.state) :
  V3Complete.orders st !! orderId = Some order ->
  V3Complete.status order = "paid" ->
  V3Complete.updateOrderStatus orderId "paid" V3Complete.NoExtra st
  = (Some order, st).
Proof.
  intros Hfound Hpaid. rewrite (updateOrderStatus_found _ _ _ _ _ Hfound).
  cbn [V3Complete.assign]. rewrite <- Hpaid, with_status_same.
  rewrite insert_id by done. by destruct st.
Qed.

Lemma mark_paid_again_witness :
  let paid := (V3Complete.updateOrderStatus "O1" "paid" V3Complete.NoExtra
                 store_O1).2 in
  V3Complete.updateOrderStatus "O1" "paid" V3Complete.NoExtra paid
  = (Some (V3Complete.with_status "paid" order_O1), paid).
Proof.
  apply (mark_paid_again_is_noop "O1" (V3Complete.with_status "paid" order_O1)).
  - vm_compute. reflexivity.
  - reflexivity.
Defined.

(** C3 as stated fails for a state later than paid: marking paid an order
    that is in processing changes it, back to paid. *)
Lemma mark_paid_resets_processing :
  let st1 := deliver_O1 accepting store_O1 in
  let st2 := (V3Complete.updateOrderStatus "O1" "paid" V3Complete.NoExtra st1).2 in
  status_O1 st1 = Some "processing"
  /\ status_O1 st2 = Some "paid"
  /\ st2 <> st1.
Proof.
  vm_compute. split; [done|]. split; [done|]. intros H.
  apply (f_equal status_O1) in H. vm_compute in H. discriminate H.
Qed.

(** ** Dispatch failures in getfame-backend-v5 (C5) *)

Lemma v5_update_head (o : V5.Order) l status japOrderId calls notes sess :
  V5.updateOrderStatus (V5.id o) status japOrderId
    (V5.mkState (o :: l) calls notes sess)
  = V5.mkState (V5.touch status japOrderId o :: l) calls notes sess.
Proof.
  unfold V5.updateOrderStatus. cbn [V5.orders V5.update_first].
  by rewrite Z.eqb_refl.
Qed.

(** C5 (as the handler has it): when the upstream provisioning call brings
    no order, be it a network failure, a timeout or an explicit rejection,
    the dispatch has made that one call and makes no other: there is no
    retry, no backoff and no attempt ceiling.  The order just saved is set
    to pending at once and a manual-action notification is sent. *)
Theorem failed_dispatch_is_not_retried
    (e : V5.env) (up : Jap.upstream) (event : Stripe.event) (now : Z)
    (st : V5.state) :
  truthy (V5.JAP_API_KEY e) = true ->
  Stripe.type event = "checkout.session.completed" ->
  no_order (up (List.length (V5.japCalls st))) = true ->
  V5.japCalls (V5.fulfil e up event now st) = V5.japCalls st ++ [v5_request event]
  /\ (exists saved,
        V5.orders (V5.fulfil e up event now st) = saved :: V5.orders st
        /\ V5.id saved = now
        /\ V5.status saved = "pending"
        /\ V5.japOrderId saved = None)
  /\ last (V5.notifications (V5.fulfil e up event now st))
     = Some (V5.JapOrderFailed
               (Stripe.meta (Stripe.metadata (Stripe.object event)) "link")).
Proof.
  intros Hkey Htype Hfail. unfold V5.fulfil. rewrite Htype.
  change (String.eqb "checkout.session.completed" "checkout.session.completed")
    with true. cbv iota.
  unfold V5.addOrder, V5.createJAPOrder, V5.notify.
  cbn [V5.orders V5.japCalls V5.notifications V5.sessions V5.link V5.quantity
       V5.serviceId V5.id V5.email V5.amount V5.payment V5.status
       V5.stripeSessionId V5.japOrderId].
  rewrite Hkey. cbn [negb].
  destruct (up _) as [message|order error]; cbn [no_order] in Hfail.
  - match goal with
    | |- context [V5.updateOrderStatus ?k ?s ?j (V5.mkState (?o :: ?l) ?c ?n ?ss)] =>
        rewrite (v5_update_head o l s j c n ss : V5.updateOrderStatus k s j _ = _)
    end.
    cbn [V5.japCalls V5.orders V5.notifications]. repeat split.
    + eexists. split; [reflexivity|]. by cbn.
    + by rewrite last_snoc.
  - apply negb_true_iff in Hfail. rewrite Hfail.
    match goal with
    | |- context [V5.updateOrderStatus ?k ?s ?j (V5.mkState (?o :: ?l) ?c ?n ?ss)] =>
        rewrite (v5_update_head o l s j c n ss : V5.updateOrderStatus k s j _ = _)
    end.
    cbn [V5.japCalls V5.orders V5.notifications]. repeat split.
    + eexists. split; [reflexivity|]. by cbn.
    + by rewrite last_snoc.
Qed.

Lemma failed_dispatch_witness :
  V5.japCalls (V5.fulfil v5_env flaky checkout_completed 1700000005000 v5_empty)
  = [v5_request checkout_completed].
Proof.
  refine (proj1 (failed_dispatch_is_not_retried v5_env flaky checkout_completed
                   1700000005000 v5_empty _ _ _)); reflexivity.
Defined.

(** C5 as stated fails: the upstream times out on the first call and would
    accept the second; the handler makes one call only and the order is set
    to pending then and there. *)
Lemma timeout_is_not_retried :
  let run :=
    V5.stripe_webhook (sdk := demo_sdk) v5_env flaky "checkout O1"
      (Some "signed whsec") 1700000005000 v5_empty in
  flaky 0%nat = Jap.NetworkError "fetch failed"
  /\ flaky 1%nat = Jap.Response (Some 502%Z) None
  /\ run.1 = Http.received
  /\ List.length (V5.japCalls run.2) = 1%nat
  /\ V5.status <$> V5.orders run.2 = ["pending"]
  /\ V5.japOrderId <$> V5.orders run.2 = [None].
Proof. vm_compute. done. Qed.

(** ** Quantity bounds at order creation (C6) *)

Lemma own_body_of (body : V5.OrderInput) :
  Body.own (V5.body_of body) "link" = Body.Text <$> V5.in_link body
  /\ Body.own (V5.body_of body) "email" = Body.Text <$> V5.in_email body
  /\ Body.own (V5.body_of body) "quantity"
     = (fun q => Body.Number (Body.Finite q)) <$> V5.in_quantity body
  /\ Body.own (V5.body_of body) "serviceId"
     = (fun q => Body.Number (Body.Finite q)) <$> V5.in_serviceId body
  /\ Body.own (V5.body_of body) "amount"
     = (fun q => Body.Number (Body.Finite q)) <$> V5.in_amount body
  /\ Body.own (V5.body_of body) "platform" = None
  /\ Body.own (V5.body_of body) "service" = None
  /\ Body.own (V5.body_of body) "quality" = None.
Proof. by destruct body as [[?|] [?|] [?|] [?|] [?|]]. Qed.

Lemma email_ok_empty before : V5.email_ok before EmptyString = false.
Proof. done. Qed.

(** On a request of the types the order form sends, [validateOrderInput]
    does not throw and raises the errors of [typed_errors]. *)
Lemma validateOrderInput_typed StringToNumber Number_digits (body : V5.OrderInput) :
  V5.validateOrderInput StringToNumber Number_digits (V5.body_of body)
  = Some (typed_errors body).
Proof.
  destruct (own_body_of body) as (Hl & He & Hq & Hs & Ha & _).
  unfold V5.validateOrderInput, typed_errors. rewrite Hl, He, Hq, Hs, Ha.
  destruct body as [l m q i a].
  cbn [V5.in_link V5.in_email V5.in_quantity V5.in_serviceId V5.in_amount].
  assert (V5.email_errors Number_digits (Body.Text <$> m)
          = Some (match m with
                  | Some t => if V5.email_ok false t then [] else ["Invalid email"]
                  | None => ["Invalid email"]
                  end)) as ->.
  { destruct m as [[|c t]|]; reflexivity. }
  assert (forall lo hi message (v : option Q),
            V5.range_errors StringToNumber Number_digits lo hi message
              ((fun x => Body.Number (Body.Finite x)) <$> v)
            = Some (match v with
                    | Some x =>
                        if Qeq_bool x 0 || V5.Qlt_bool x lo || V5.Qlt_bool hi x
                        then [message] else []
                    | None => [message]
                    end)) as Hrange.
  { intros lo hi message [x|]; [|reflexivity]. unfold V5.range_errors.
    cbn [fmap option_fmap option_map Body.truthy Body.ToNumber_of Body.ToNumber
         mbind option_bind Body.lt].
    by destruct (Qeq_bool x 0). }
  rewrite !Hrange. cbn [mbind option_bind]. do 4 f_equal.
  - by destruct l.
  - do 2 f_equal. destruct i as [x|]; [|done].
    cbn [fmap option_fmap option_map Body.truthy]. by destruct (Qeq_bool x 0).
Qed.

Lemma v5_quantity_flagged (body : V5.OrderInput) (q : Q) :
  V5.in_quantity body = Some q ->
  V5.Qlt_bool q 1 || V5.Qlt_bool 1000000 q = true ->
  "Invalid quantity" ∈ typed_errors body.
Proof.
  intros Hq Hout. unfold typed_errors. rewrite Hq.
  rewrite !elem_of_app. right. right. left.
  destruct (Qeq_bool q 0); cbn [orb]; [by left|]. rewrite Hout. by left.
Qed.

(** C6 (as the code has it): in v2, which looks the service up, a quantity
    below the service's min or above its max is rejected with an error by
    OrdersManager.createOrder before the upstream order is placed and before
    any record is stored, and by PaymentHandler.createCheckoutSession before
    the Stripe session is created.  The checkout endpoint of v5 knows no
    service bounds: it rejects, before any session is created, a quantity
    below 1 or above 1,000,000. *)
Theorem out_of_bounds_quantity_rejected
    (Raw : Type) (curate : Raw -> string + list V2.Service)
    (calculateTotal getJapCost : Q -> Jap.number -> Q) (round_profit : Q -> Q -> Q)
    (up : Jap.upstream) (now later : Z) (fetched : string + Raw)
    (internalId : string) (created : string + (string * string))
    (orderData : V2.OrderData) (st : V2.state)
    (service : V2.Service) (c : V2.cache) (q lo hi : Z) :
  V2.getServiceById Raw curate (V2.data_serviceId orderData) now fetched later
    (V2.services st) = (inr (Some service), c) ->
  V2.data_quantity orderData = Jap.Num q ->
  V2.min service = Jap.Num lo ->
  V2.max service = Jap.Num hi ->
  (q < lo \/ hi < q)%Z ->
  V2.createOrder Raw curate calculateTotal getJapCost round_profit up now fetched
    later internalId orderData st
  = (inl (V2.bounds_message service), V2.with_cache c st)
  /\ V2.createCheckoutSession Raw curate calculateTotal now fetched later created
       (V2.data_serviceId orderData) (V2.data_quantity orderData) st
     = (inl (V2.bounds_message service), V2.with_cache c st)
  /\ V2.orders (V2.with_cache c st) = V2.orders st
  /\ V2.japCalls (V2.with_cache c st) = V2.japCalls st
  /\ V2.sessions (V2.with_cache c st) = V2.sessions st
  /\ (forall (StringToNumber : string -> Body.number) (Number_digits : Q -> string)
             (e : V5.env) (made : option (string * string))
             (body : V5.OrderInput) (s5 : V5.state) (n : Q),
        V5.in_quantity body = Some n ->
        V5.Qlt_bool n 1 || V5.Qlt_bool 1000000 n = true ->
        exists message,
          V5.post_order StringToNumber Number_digits e made (V5.body_of body) s5
          = (Http.error 400 message, s5)).
Proof.
  intros Hfound Hq Hlo Hhi Hout.
  assert (V2.out_of_bounds (Jap.Num q) service = true) as Hb.
  { unfold V2.out_of_bounds, V2.lt_number. rewrite Hlo, Hhi.
    apply orb_true_iff. destruct Hout; [left|right]; by apply Z.ltb_lt. }
  repeat split.
  - unfold V2.createOrder. rewrite Hfound, Hq. by rewrite Hb.
  - unfold V2.createCheckoutSession. rewrite Hfound, Hq. by rewrite Hb.
  - intros StringToNumber Number_digits e made body s5 n Hn Hrange.
    unfold V5.post_order. rewrite validateOrderInput_typed.
    pose proof (v5_quantity_flagged body n Hn Hrange) as Hin.
    destruct (typed_errors body) as [|x errors];
      [by apply elem_of_nil in Hin|].
    cbn [List.length Nat.ltb Nat.leb]. eauto.
Qed.

Lemma out_of_bounds_quantity_witness :
  (V2.createOrder unit v2_curate v2_amount v2_amount Qminus accepting 0 (inr tt) 1
     "GF1" v2_five_units V2.initial).1
  = inl "Quantity must be between 100 and 10000".
Proof.
  refine (f_equal fst (proj1
    (out_of_bounds_quantity_rejected unit v2_curate v2_amount v2_amount Qminus
       accepting 0 1 (inr tt) "GF1" (inr ("cs_1", "https://stripe.test/cs_1"))
       v2_five_units V2.initial v2_service (V2.mkCache (Some [v2_service]) 1)
       5 100 10000 _ _ _ _ _))).
  - vm_compute. reflexivity.
  - reflexivity.
  - reflexivity.
  - reflexivity.
  - left. reflexivity.
Defined.

(** C6 as stated fails: the checkout endpoint of v3-complete looks the
    service up and does not compare the quantity to its bounds; 5 units of a
    service whose minimum is 100 are stored as an order and sent to
    Stripe. *)
Lemma quantity_below_min_reaches_payment :
  let run :=
    V3Complete.post_order demo_total one_service_catalog "O2" 1700000000000
      (inr "https://stripe.test/cs_2") five_units V3Complete.initial in
  V3Complete.min <$> one_service_catalog 7446 = Some 100%Z
  /\ V3Complete.body_quantity five_units = Some 5%Z
  /\ run.1 = Http.Json 200
               (JObj [("orderId", JStr "O2");
                      ("checkoutUrl", JStr "https://stripe.test/cs_2")])
  /\ V3Complete.quantity <$> V3Complete.getOrder "O2" run.2 = Some 5%Z
  /\ V3Complete.checkouts run.2 = [("O2", "0.01")].
Proof. vm_compute. done. Qed.

(** ** The catalog cache (C7) *)

(** C7 (as the code has it): in v2, once a read has fetched the upstream
    catalog with success, every later read whose fetch fails (the request
    rejects, or the reply cannot be curated) returns the list of that last
    successful fetch, not an error and no substitute list, and leaves the
    cache as it is. *)
Theorem stale_cache_served_when_fetch_fails
    (Raw : Type) (curate : Raw -> string + list V2.Service)
    (c0 : V2.cache) (force0 : bool) (now0 later0 : Z) (japServices : Raw)
    (services : list V2.Service)
    (forceRefresh : bool) (now later : Z) (fetched : string + Raw)
    (error : string) :
  V2.fresh force0 now0 c0 = None ->
  curate japServices = inr services ->
  V2.refresh Raw curate fetched = inl error ->
  let c1 := (V2.getServices Raw curate force0 now0 (inr japServices) later0 c0).2 in
  V2.servicesCache c1 = Some services
  /\ V2.getServices Raw curate forceRefresh now fetched later c1
     = (inr services, c1).
Proof.
  intros Hmiss Hok Hfail c1.
  assert (c1 = V2.mkCache (Some services) later0) as ->.
  { unfold c1, V2.getServices. rewrite Hmiss. cbn [V2.refresh]. by rewrite Hok. }
  split; [done|]. unfold V2.getServices, V2.fresh.
  cbn [V2.servicesCache V2.cacheTimestamp].
  rewrite Hfail. by destruct (negb forceRefresh && _).
Qed.

Lemma stale_cache_witness :
  V2.getServices unit v2_curate false 400000 (inl "fetch failed") 400001
    (V2.getServices unit v2_curate false 0 (inr tt) 1 V2.empty_cache).2
  = (inr [v2_service],
     (V2.getServices unit v2_curate false 0 (inr tt) 1 V2.empty_cache).2).
Proof.
  refine (proj2 (stale_cache_served_when_fetch_fails unit v2_curate
                   V2.empty_cache false 0 1 tt [v2_service] false 400000 400001
                   (inl "fetch failed") "fetch failed" _ _ _)); reflexivity.
Defined.

(** C7 as stated fails in v3: a list was fetched and cached; past its five
    minutes the fetch fails, and the copy under "Type: lib" answers with the
    curated fallback list, the other copy with the empty list, which it also
    caches. *)
Lemma failed_fetch_serves_fallback :
  let typelib :=
    V3.getServices_typelib (fun r => r) 300000 (V3.FetchFailed "fetch failed")
      300001 warm_cache in
  let lib :=
    V3.getServices (fun r => r) 300000 (V3.FetchFailed "fetch failed")
      300001 warm_cache in
  V3.servicesCache warm_cache = Some [cached_service]
  /\ typelib.1 = V3.getCuratedFallback "12.99" false
  /\ typelib.1 <> [cached_service]
  /\ lib = ([], V3.mkCache (Some []) 300001).
Proof. vm_compute. repeat split; discriminate. Qed.

(** * Further properties of the code *)

(** ** v3-complete: the order store, the checkout endpoint and the webhooks *)

Section v3_complete_more.
Import V3Complete.
Context {sdk : Stripe.Sdk}.

Lemma frozen_with_status s o : frozen (with_status s o) = frozen o.
Proof. by destruct o. Qed.

Lemma frozen_with_japOrderId j o : frozen (with_japOrderId j o) = frozen o.
Proof. by destruct o. Qed.

Lemma frozen_assign e s o : frozen (assign e (with_status s o)) = frozen o.
Proof. destruct e; by destruct o. Qed.

Lemma updateOrderStatus_frozen orderId status e st k :
  frozen <$> orders (updateOrderStatus orderId status e st).2 !! k
  = frozen <$> orders st !! k.
Proof.
  unfold updateOrderStatus. destruct (orders st !! orderId) as [o|] eqn:Ho; [|done].
  unfold with_orders. cbn [snd orders].
  destruct (decide (orderId = k)) as [<-|Hne].
  - rewrite lookup_insert_eq, Ho. cbn. by rewrite frozen_assign.
  - by rewrite lookup_insert_ne.
Qed.

Lemma processOrder_frozen up orderId st k :
  frozen <$> orders (processOrder up orderId st).2 !! k
  = frozen <$> orders st !! k.
Proof.
  unfold processOrder. destruct (orders st !! orderId) as [o|] eqn:Ho; [|done].
  destruct (negb _); [done|].
  destruct (createJAPOrder _) as [err|j]; [done|]. cbn [snd].
  by rewrite updateOrderStatus_frozen.
Qed.

Lemma mark_and_process_frozen up orderId st k :
  frozen <$> orders (mark_and_process up orderId st) !! k
  = frozen <$> orders st !! k.
Proof.
  unfold mark_and_process. by rewrite processOrder_frozen, updateOrderStatus_frozen.
Qed.

Lemma mark_and_process_missing up orderId st :
  orders st !! orderId = None -> mark_and_process up orderId st = st.
Proof.
  intros Hnone. unfold mark_and_process.
  rewrite (updateOrderStatus_missing _ _ _ _ Hnone). cbn [snd].
  unfold processOrder. by rewrite Hnone.
Qed.
End v3_complete_more.

(** X1: whatever a webhook of the v3 servers is sent, it creates no order
    and deletes none, and of an order it changes at most the status and the
    upstream id: service, link, quantity, email, price, total, payment method
    and creation time stay as stored. *)
Theorem webhooks_change_status_and_upstream_id_only
    {crypto : Crypto} {sdk : Stripe.Sdk} (env_secret : option string)
    (up : Jap.upstream) (payload : string) (signature : option string)
    (body : object) (st : V3Complete.state) (k : string) :
  frozen <$> V3Complete.orders
               (V3Complete.stripe_webhook env_secret up payload signature st).2 !! k
  = frozen <$> V3Complete.orders st !! k
  /\ frozen <$> V3Complete.orders (V3Complete.nowpayments_webhook up body st).2 !! k
     = frozen <$> V3Complete.orders st !! k
  /\ frozen <$> V3Complete.orders
                  (ServerV3.nowpayments_webhook env_secret up signature body st).2 !! k
     = frozen <$> V3Complete.orders st !! k.
Proof.
  split; [|split].
  - unfold V3Complete.stripe_webhook.
    destruct (V3Complete.verifyStripeWebhook _ _ _) as [m|event]; [done|].
    destruct (String.eqb _ _); [|done]. destruct (truthy _); [|done].
    cbn [snd]. apply mark_and_process_frozen.
  - unfold V3Complete.nowpayments_webhook.
    destruct (own body "payment_status") as [[| | |s| |]|]; try done.
    destruct (_ || _); [|done].
    destruct (own body "order_id") as [[| | |o| |]|]; try done.
    cbn [snd]. apply mark_and_process_frozen.
  - unfold ServerV3.nowpayments_webhook, ServerV3.update_reported.
    destruct (_ && _); [done|].
    destruct (string_member body "payment_status") as [s|]; [|done].
    destruct (string_member body "order_id") as [o|];
      repeat (destruct (_ || _) || destruct (String.eqb s _)); cbn [snd];
      try done; try apply mark_and_process_frozen;
      try apply updateOrderStatus_frozen.
Qed.

(** X2: a valid payment confirmation that names an order the store does not
    hold is acknowledged and changes nothing: no order appears, no upstream
    call is made. *)
Theorem confirmation_for_unknown_order_is_noop
    {sdk : Stripe.Sdk} (env_secret : option string) (up : Jap.upstream)
    (payload : string) (signature : option string) (event : Stripe.event)
    (orderId : string) (body : object) (st : V3Complete.state) :
  V3Complete.verifyStripeWebhook env_secret payload signature = inr event ->
  Stripe.type event = "checkout.session.completed" ->
  Stripe.meta (Stripe.metadata (Stripe.object event)) "orderId" = Some orderId ->
  string_member body "order_id" = Some orderId ->
  V3Complete.orders st !! orderId = None ->
  V3Complete.stripe_webhook env_secret up payload signature st = (Http.received, st)
  /\ V3Complete.nowpayments_webhook up body st = (Http.received, st).
Proof.
  intros Hv Ht Hm Hbody Hnone. split.
  - unfold V3Complete.stripe_webhook. rewrite Hv, Ht, Hm.
    change (String.eqb "checkout.session.completed" "checkout.session.completed")
      with true. cbv iota.
    destruct (truthy (Some orderId)); [|done]. cbn [default].
    by rewrite (mark_and_process_missing _ _ _ Hnone).
  - unfold V3Complete.nowpayments_webhook. unfold string_member in Hbody.
    destruct (own body "payment_status") as [[| | |s| |]|]; try done.
    destruct (_ || _); [|done].
    destruct (own body "order_id") as [[| | |o| |]|]; try done.
    injection Hbody as ->. by rewrite (mark_and_process_missing _ _ _ Hnone).
Qed.

Lemma confirmation_for_unknown_order_witness :
  V3Complete.stripe_webhook (sdk := demo_sdk) (Some "whsec") accepting
    "checkout O1" (Some "signed whsec") V3Complete.initial
  = (Http.received, V3Complete.initial).
Proof.
  refine (proj1 (confirmation_for_unknown_order_is_noop (sdk := demo_sdk)
            (Some "whsec") accepting "checkout O1" (Some "signed whsec")
            checkout_completed "O1" ipn_O1 V3Complete.initial _ _ _ _ _));
    reflexivity.
Defined.

Lemma post_order_present order_total catalog orderId now checkout body st
    service serviceId link quantity email :
  present body serviceId link quantity email ->
  catalog serviceId = Some service ->
  V3Complete.post_order order_total catalog orderId now checkout body st
  = (match checkout with
     | inr url =>
         Http.Json 200 (JObj [("orderId", JStr orderId); ("checkoutUrl", JStr url)])
     | inl message =>
         Http.error 500 (if truthy (Some message) then message
                         else "Failed to create order")
     end,
     V3Complete.mkState
       (<[orderId := pending_order order_total orderId now serviceId service link
                       quantity email]> (V3Complete.orders st))
       (V3Complete.japCalls st)
       (V3Complete.checkouts st
          ++ [(orderId, order_total (V3Complete.rate service) quantity)])
       (V3Complete.invoices st)).
Proof.
  intros (-> & Hs & Hl & Hq & He) Hcat. unfold V3Complete.post_order.
  cbn [V3Complete.body_serviceId V3Complete.body_link V3Complete.body_quantity
       V3Complete.body_email].
  apply Z.eqb_neq in Hs, Hq. apply String.eqb_neq in Hl, He.
  rewrite Hs, Hl, Hq, He, Hcat. cbn [orb]. by destruct checkout.
Qed.

(** X3: the checkout endpoint of v3-complete stores the order before it
    asks Stripe for a session: when that call throws, the client is answered
    500 and the order stays in the store, pending, with a total but without
    a session. *)
Theorem failed_checkout_leaves_pending_order
    (order_total : string -> Z -> string) (catalog : Z -> option V3Complete.Service)
    (orderId : string) (now : Z) (message : string) (body : V3Complete.OrderBody)
    (st : V3Complete.state) (service : V3Complete.Service)
    (serviceId : Z) (link : string) (quantity : Z) (email : string) :
  present body serviceId link quantity email ->
  catalog serviceId = Some service ->
  let run := V3Complete.post_order order_total catalog orderId now (inl message)
               body st in
  (exists text, run.1 = Http.error 500 text)
  /\ V3Complete.getOrder orderId run.2
     = Some (pending_order order_total orderId now serviceId service link quantity
               email)
  /\ V3Complete.get_order orderId run.2
     = Http.Json 200
         (JObj [("id", JStr orderId); ("status", JStr "pending");
                ("service", JStr (V3Complete.name service));
                ("quantity", JNum (pretty quantity));
                ("total", JNum (order_total (V3Complete.rate service) quantity))]).
Proof.
  intros Hbody Hcat run. unfold run.
  rewrite (post_order_present _ _ _ _ _ _ _ _ _ _ _ _ Hbody Hcat).
  cbn [fst snd]. split; [by eexists|].
  unfold V3Complete.get_order, V3Complete.getOrder. cbn [V3Complete.orders].
  by rewrite lookup_insert_eq.
Qed.

Lemma failed_checkout_witness :
  V3Complete.getOrder "O2"
    (V3Complete.post_order demo_total one_service_catalog "O2" 1700000000000
       (inl "Invalid API Key provided") five_thousand V3Complete.initial).2
  = Some (pending_order demo_total "O2" 1700000000000 7446
            (V3Complete.mkService 7446 "Followers - Standard" "instagram" "2.50"
               100 10000)
            "https://instagram.com/ann" 5000 "ann@example.com").
Proof.
  refine (proj1 (proj2 (failed_checkout_leaves_pending_order demo_total
            one_service_catalog "O2" 1700000000000 "Invalid API Key provided"
            five_thousand V3Complete.initial _ 7446 "https://instagram.com/ann"
            5000 "ann@example.com" _ _))).
  - repeat split; discriminate.
  - reflexivity.
Defined.

(** X4: from checkout to fulfilment in v3-complete: an order created by the
    checkout endpoint and then confirmed by a valid Stripe webhook, with an
    upstream that returns without error, has made exactly one upstream call,
    for the service, link and quantity of the checkout request, and the
    status endpoint shows it in processing. *)
Theorem checkout_then_confirmation_dispatches_request
    {sdk : Stripe.Sdk} (order_total : string -> Z -> string)
    (catalog : Z -> option V3Complete.Service) (orderId : string) (now : Z)
    (url : string) (body : V3Complete.OrderBody) (st : V3Complete.state)
    (service : V3Complete.Service) (serviceId : Z) (link : string)
    (quantity : Z) (email : string)
    (env_secret : option string) (up : Jap.upstream) (payload : string)
    (signature : option string) (event : Stripe.event) (j : option Z) :
  present body serviceId link quantity email ->
  catalog serviceId = Some service ->
  V3Complete.verifyStripeWebhook env_secret payload signature = inr event ->
  Stripe.type event = "checkout.session.completed" ->
  Stripe.meta (Stripe.metadata (Stripe.object event)) "orderId" = Some orderId ->
  truthy (Some orderId) = true ->
  V3Complete.createJAPOrder (up (List.length (V3Complete.japCalls st))) = inr j ->
  let st1 := (V3Complete.post_order order_total catalog orderId now (inr url)
                body st).2 in
  let st2 := (V3Complete.stripe_webhook env_secret up payload signature st1).2 in
  V3Complete.japCalls st2
  = V3Complete.japCalls st ++ [Jap.Request (Jap.Num serviceId) (Some link) (Jap.Num quantity)]
  /\ V3Complete.japOrderId <$> V3Complete.getOrder orderId st2 = Some j
  /\ V3Complete.get_order orderId st2
     = Http.Json 200
         (JObj [("id", JStr orderId); ("status", JStr "processing");
                ("service", JStr (V3Complete.name service));
                ("quantity", JNum (pretty quantity));
                ("total", JNum (order_total (V3Complete.rate service) quantity))]).
Proof.
  intros Hbody Hcat Hv Ht Hm Hid Hj st1 st2.
  assert (V3Complete.orders st1 !! orderId
          = Some (pending_order order_total orderId now serviceId service link
                    quantity email)) as Hfound.
  { unfold st1. rewrite (post_order_present _ _ _ _ _ _ _ _ _ _ _ _ Hbody Hcat).
    cbn [snd V3Complete.orders]. apply lookup_insert_eq. }
  assert (V3Complete.japCalls st1 = V3Complete.japCalls st) as Hcalls.
  { unfold st1. by rewrite (post_order_present _ _ _ _ _ _ _ _ _ _ _ _ Hbody Hcat). }
  assert (st2 = V3Complete.mark_and_process up orderId st1) as ->.
  { unfold st2. by rewrite (stripe_webhook_valid _ _ _ _ _ _ _ Hv Ht Hm Hid). }
  destruct (mark_and_process_found up orderId st1 _ Hfound) as [Hc Ho].
  rewrite Hcalls, Hj in Ho. rewrite Hcalls in Hc.
  split; [exact Hc|]. unfold V3Complete.get_order, V3Complete.getOrder.
  rewrite Ho. done.
Qed.

Lemma checkout_then_confirmation_witness :
  V3Complete.get_order "O1"
    (V3Complete.stripe_webhook (sdk := demo_sdk) (Some "whsec") accepting
       "checkout O1" (Some "signed whsec")
       (V3Complete.post_order demo_total one_service_catalog "O1" 1700000000000
          (inr "https://stripe.test/cs_1") five_thousand V3Complete.initial).2).2
  = Http.Json 200
      (JObj [("id", JStr "O1"); ("status", JStr "processing");
             ("service", JStr "Followers - Standard");
             ("quantity", JNum (pretty 5000%Z)); ("total", JNum "0.01")]).
Proof.
  refine (proj2 (proj2 (checkout_then_confirmation_dispatches_request
            (sdk := demo_sdk) demo_total one_service_catalog "O1" 1700000000000
            "https://stripe.test/cs_1" five_thousand V3Complete.initial
            (V3Complete.mkService 7446 "Followers - Standard" "instagram" "2.50"
               100 10000)
            7446 "https://instagram.com/ann" 5000 "ann@example.com"
            (Some "whsec") accepting "checkout O1" (Some "signed whsec")
            checkout_completed (Some 501%Z) _ _ _ _ _ _ _))).
  - repeat split; discriminate.
  - reflexivity.
  - reflexivity.
  - reflexivity.
  - reflexivity.
  - reflexivity.
  - reflexivity.
Defined.

(** X5: the NOWPayments handler of the v3 server dispatches on success
    statuses only: for a body whose payment_status is neither finished nor
    confirmed (partially_paid, failed, expired, waiting, anything else, or no
    status at all) no upstream call is made, whatever the signature check
    says. *)
Theorem other_statuses_never_dispatch
    {crypto : Crypto} (env_secret : option string) (up : Jap.upstream)
    (signature : option string) (body : object) (st : V3Complete.state) :
  string_member body "payment_status" <> Some "finished" ->
  string_member body "payment_status" <> Some "confirmed" ->
  V3Complete.japCalls
    (ServerV3.nowpayments_webhook env_secret up signature body st).2
  = V3Complete.japCalls st.
Proof.
  intros Hf Hc. unfold ServerV3.nowpayments_webhook, ServerV3.update_reported.
  destruct (_ && _); [done|].
  destruct (string_member body "payment_status") as [s|]; [|done].
  destruct (String.eqb s "finished") eqn:E1.
  { apply String.eqb_eq in E1 as ->. by destruct Hf. }
  destruct (String.eqb s "confirmed") eqn:E2.
  { apply String.eqb_eq in E2 as ->. by destruct Hc. }
  cbn [orb]. destruct (String.eqb s "partially_paid").
  - cbn [snd]. destruct (string_member body "order_id"); [|done].
    unfold V3Complete.updateOrderStatus. by destruct (_ !! _).
  - destruct (_ || _); [|done]. cbn [snd].
    destruct (string_member body "order_id"); [|done].
    unfold V3Complete.updateOrderStatus. by destruct (_ !! _).
Qed.

Lemma other_statuses_witness :
  V3Complete.japCalls
    (ServerV3.nowpayments_webhook (crypto := demo_crypto) None accepting None
       ipn_failed_O1 store_O1).2
  = [].
Proof.
  apply (other_statuses_never_dispatch (crypto := demo_crypto) None accepting
           None ipn_failed_O1 store_O1); discriminate.
Defined.

(** ** The signed text and the order of the keys *)

Lemma own_None (o : object) k : k ∉ Object_keys o -> own o k = None.
Proof.
  induction o as [|[k' x] o IH]; [done|]. intros Hk. cbn [own].
  destruct (String.eqb k' k) eqn:E.
  - apply String.eqb_eq in E as ->. exfalso. apply Hk. left.
  - apply IH. intros ?. apply Hk. by right.
Qed.

Lemma own_Permutation (o1 o2 : object) k :
  NoDup (Object_keys o1) -> o1 ≡ₚ o2 -> own o1 k = own o2 k.
Proof.
  intros Hnd Hperm. induction Hperm as [|[k' x] o1 o2 Hperm IH
                                       |[k1 x1] [k2 x2] o|o1 o2 o3 H12 IH12 H23 IH23].
  - done.
  - cbn [own]. destruct (String.eqb k' k); [done|].
    apply IH. by apply NoDup_cons in Hnd as [_ ?].
  - cbn [own]. cbn [Object_keys map fst] in Hnd.
    apply NoDup_cons in Hnd as [Hne _].
    destruct (String.eqb k2 k) eqn:E2, (String.eqb k1 k) eqn:E1; try done.
    apply String.eqb_eq in E1 as ->. apply String.eqb_eq in E2 as ->.
    exfalso. apply Hne. left.
  - rewrite IH12 by done. apply IH23.
    unfold Object_keys in *. by rewrite <- H12.
Qed.

Lemma sort_Permutation (l1 l2 : list string) :
  l1 ≡ₚ l2 -> JS.sort l1 = JS.sort l2.
Proof.
  intros H. unfold JS.sort. apply (Sorted_unique String.le).
  - apply Sorted_merge_sort; apply _.
  - apply Sorted_merge_sort; apply _.
  - by rewrite !merge_sort_Permutation.
Qed.

Lemma fold_left_ext {A B} (f g : A -> B -> A) l a :
  (forall x y, f x y = g x y) -> fold_left f l a = fold_left g l a.
Proof.
  intros H. revert a. induction l as [|y l IH]; intros a; [done|].
  cbn [fold_left]. by rewrite H, IH.
Qed.

Lemma serialize_own_ext K (p1 p2 : object) :
  (forall k, own p1 k = own p2 k) ->
  serialize (Some K) (JObj p1) = serialize (Some K) (JObj p2).
Proof.
  intros H. rewrite !serialize_JObj. do 3 f_equal. unfold members.
  apply list_omap_ext, Forall2_same_length_lookup_2; [done|].
  intros i p q Hp Hq. assert (p = q) as <- by congruence.
  unfold member_text. by rewrite H.
Qed.

(** X6: the signature a NOWPayments body must carry does not depend on the
    order in which its top-level members arrive: two bodies with the same
    members, keys distinct, have the same expected signature in the v5
    handlers, and the same signed text and verdict in verifyIPNSignature. *)
Theorem signature_independent_of_member_order
    {crypto : Crypto} (secret : string) (env_secret signature : option string)
    (body1 body2 : object) :
  NoDup (Object_keys body1) ->
  body1 ≡ₚ body2 ->
  Ipn.expectedSig secret body1 = Ipn.expectedSig secret body2
  /\ V3.signed_text body1 = V3.signed_text body2
  /\ V3.verifyIPNSignature env_secret body1 signature
     = V3.verifyIPNSignature env_secret body2 signature.
Proof.
  intros Hnd Hperm.
  assert (JS.sort (Object_keys body1) = JS.sort (Object_keys body2)) as Hsort.
  { apply sort_Permutation. unfold Object_keys. by rewrite Hperm. }
  assert (forall k, own body1 k = own body2 k) as Hown
    by (intros k; by apply own_Permutation).
  assert (V3.signed_text body1 = V3.signed_text body2) as Htext.
  { unfold V3.signed_text, JSON_stringify_with. rewrite Hsort.
    by apply serialize_own_ext. }
  split; [|split; [exact Htext|]].
  - unfold Ipn.expectedSig, Ipn.sortedParams. rewrite Hsort. do 3 f_equal.
    apply fold_left_ext. intros acc k. by rewrite Hown.
  - unfold V3.verifyIPNSignature. by rewrite Htext.
Qed.

Lemma signature_member_order_witness :
  Ipn.expectedSig (crypto := demo_crypto) "ipnsec" ipn_ab
  = Ipn.expectedSig (crypto := demo_crypto) "ipnsec" ipn_ba.
Proof.
  refine (proj1 (signature_independent_of_member_order (crypto := demo_crypto)
            "ipnsec" (Some "ipnsec") (Some "s") ipn_ab ipn_ba _ _)).
  - apply (bool_decide_unpack _). by vm_compute.
  - apply Permutation_swap.
Defined.

Lemma sortedParams_from (body : object) (keys : list string) (acc : object) :
  NoDup (Object_keys acc ++ keys) ->
  Forall (fun k => array_index k = None /\ String.eqb k proto_key = false) keys ->
  fold_left
    (fun acc key =>
       match own body key with
       | Some v => obj_set acc key v
       | None => acc
       end) keys acc
  = acc ++ omap (fun k => pair k <$> own body k) keys.
Proof.
  revert acc. induction keys as [|k keys IH]; intros acc Hnd Hall;
    cbn [fold_left omap list_omap].
  - by rewrite app_nil_r.
  - apply Forall_cons in Hall as [[Hidx Hproto] Hall].
    destruct (own body k) as [v|] eqn:Hv; cbn [fmap option_fmap option_map].
    + assert (own acc k = None) as Hfresh.
      { apply own_None. apply NoDup_app in Hnd as (_ & Hdisj & _).
        intros ?. eapply Hdisj; [done|left]. }
      assert (obj_set acc k v = acc ++ [(k, v)]) as ->.
      { unfold obj_set. by rewrite Hfresh, Hproto, Hidx. }
      rewrite IH; [by rewrite <- app_assoc| |done].
      unfold Object_keys. rewrite map_app. cbn [map fst]. by rewrite <- app_assoc.
    + apply IH; [|done]. apply NoDup_app in Hnd as (Ha & Hdisj & Hk).
      apply NoDup_app. split; [done|]. split.
      * intros x Hx Hin. eapply Hdisj; [done|by right].
      * by apply NoDup_cons in Hk as [_ ?].
Qed.

Lemma own_members_by_key (body : object) (keys : list string) k :
  own (omap (fun k => pair k <$> own body k) keys) k
  = if bool_decide (k ∈ keys) then own body k else None.
Proof.
  induction keys as [|k' keys IH]; [done|]. cbn [omap list_omap].
  destruct (own body k') as [v|] eqn:Hv; cbn [fmap option_fmap option_map own].
  - destruct (String.eqb k' k) eqn:E.
    + apply String.eqb_eq in E as ->. rewrite bool_decide_eq_true_2 by left. done.
    + apply String.eqb_neq in E. rewrite IH.
      destruct (bool_decide (k ∈ keys)) eqn:B.
      * apply bool_decide_eq_true_1 in B.
        by rewrite bool_decide_eq_true_2 by (by right).
      * apply bool_decide_eq_false_1 in B.
        rewrite bool_decide_eq_false_2; [done|].
        intros [?|?]%elem_of_cons; [congruence|done].
  - rewrite IH. destruct (decide (k' = k)) as [->|Hne].
    + rewrite Hv. by repeat case_bool_decide.
    + destruct (bool_decide (k ∈ keys)) eqn:B.
      * apply bool_decide_eq_true_1 in B.
        by rewrite bool_decide_eq_true_2 by (by right).
      * apply bool_decide_eq_false_1 in B.
        rewrite bool_decide_eq_false_2; [done|].
        intros [?|?]%elem_of_cons; [congruence|done].
Qed.

(** X7: the object the v5 handlers rebuild before signing holds the members
    of the body, each with the value it had, nested content untouched, and
    lists them by ascending key, provided no key is an array index or
    [__proto__] and the keys are distinct. *)
Theorem sortedParams_keeps_members_in_key_order (body : object) :
  NoDup (Object_keys body) ->
  plain_keys body ->
  Ipn.sortedParams body = members_by_key body
  /\ Object_keys (Ipn.sortedParams body) = JS.sort (Object_keys body)
  /\ (forall k, own (Ipn.sortedParams body) k = own body k).
Proof.
  intros Hnd Hplain.
  assert (Ipn.sortedParams body = members_by_key body) as Heq.
  { unfold Ipn.sortedParams, members_by_key. rewrite sortedParams_from; [done| |].
    - cbn [Object_keys map app]. unfold JS.sort. by rewrite merge_sort_Permutation.
    - apply Forall_forall. intros k Hk. unfold JS.sort in Hk.
      rewrite merge_sort_Permutation in Hk. by eapply Forall_forall in Hplain. }
  split; [exact Heq|]. split; [by apply sortedParams_keys|].
  intros k. rewrite Heq. unfold members_by_key. rewrite own_members_by_key.
  destruct (bool_decide _) eqn:B; [done|]. apply bool_decide_eq_false_1 in B.
  symmetry. apply own_None. intros Hk. apply B. unfold JS.sort.
  by rewrite merge_sort_Permutation.
Qed.

Lemma sortedParams_witness :
  Ipn.sortedParams ipn_ba = ipn_ab.
Proof.
  refine (proj1 (sortedParams_keeps_members_in_key_order ipn_ba _ _)).
  - apply (bool_decide_unpack _). by vm_compute.
  - unfold plain_keys. apply (bool_decide_unpack _). by vm_compute.
Defined.

(** ** The v3 catalog *)

Lemma curate_curated markup with_refill japServices services :
  V3.curate markup with_refill japServices = Some services ->
  Forall curated_entry services.
Proof.
  revert services. induction japServices as [|[service|] rest IH];
    intros services; cbn [V3.curate].
  - intros [= <-]. constructor.
  - destruct (V3.curate markup with_refill rest) as [l|]; [|done].
    destruct (V3.getCuratedInfo (V3.raw_service service)) as [i|] eqn:Hi.
    + intros [= <-]. constructor; [|by apply IH].
      unfold curated_entry. cbn [V3.id V3.name V3.platform V3.type V3.description].
      rewrite Hi. by destruct i.
    + intros [= <-]. by apply IH.
  - done.
Qed.

Lemma fallback_curated rate with_refill :
  Forall curated_entry (V3.getCuratedFallback rate with_refill).
Proof.
  unfold V3.getCuratedFallback, V3.CURATED_SERVICES. cbn [map].
  repeat (apply List.Forall_cons; [reflexivity|]). apply List.Forall_nil.
Qed.

(** X8: whatever the upstream returns, both copies of the v3 catalog serve
    entries of the curated table only: every service handed out, and every
    service put in the cache, has an id of the table and carries the table's
    name, platform, type and description; upstream services outside the table
    never get through. *)
Theorem catalog_serves_curated_entries_only
    (markup : string -> string) (now : Z) (o : V3.fetch_outcome) (later : Z)
    (c : V3.cache) :
  curated_cache c ->
  (Forall curated_entry (V3.getServices markup now o later c).1
   /\ curated_cache (V3.getServices markup now o later c).2)
  /\ (Forall curated_entry (V3.getServices_typelib markup now o later c).1
      /\ curated_cache (V3.getServices_typelib markup now o later c).2).
Proof.
  intros Hc.
  assert (forall cached, V3.fresh now c = Some cached -> Forall curated_entry cached)
    as Hfresh.
  { intros cached. unfold V3.fresh, curated_cache in *.
    destruct (V3.servicesCache c) as [l|]; [|done].
    destruct (_ <? _)%Z; [|done]. by intros [= <-]. }
  split.
  - unfold V3.getServices. destruct (V3.fresh now c) as [cached|] eqn:Hf.
    { split; [by apply Hfresh|done]. }
    destruct (V3.curate markup true _) as [l|] eqn:Hl; cbn [fst snd].
    + apply curate_curated in Hl. by split.
    + split; [apply fallback_curated|done].
  - unfold V3.getServices_typelib. destruct (V3.fresh now c) as [cached|] eqn:Hf.
    { split; [by apply Hfresh|done]. }
    destruct (V3.fetchJAPServices o) as [|x rest] eqn:Ho.
    { split; [apply fallback_curated|done]. }
    destruct (V3.curate markup false (x :: rest)) as [[|s l]|] eqn:Hl; cbn [fst snd].
    + split; [apply fallback_curated|done].
    + apply curate_curated in Hl. by split.
    + split; [apply fallback_curated|done].
Qed.

Lemma catalog_serves_curated_witness :
  Forall curated_entry
    (V3.getServices demo_markup 1000 upstream_two 1200 V3.empty_cache).1.
Proof.
  refine (proj1 (proj1 (catalog_serves_curated_entries_only demo_markup 1000
                          upstream_two 1200 V3.empty_cache _))).
  exact I.
Defined.

(** X9: in lib/services.js of v3 a fetch that yields nothing (a failed
    request, a body that is not an array, an empty array) does not lead to the
    fallback list: the catalog served is empty, the empty list is cached, and
    every call within the next five minutes is served the empty list whatever
    the upstream would return by then. *)
Theorem empty_fetch_is_cached_and_served
    (markup : string -> string) (now : Z) (o : V3.fetch_outcome) (later : Z)
    (c : V3.cache) (now2 : Z) (o2 : V3.fetch_outcome) (later2 : Z) :
  V3.fresh now c = None ->
  V3.fetchJAPServices o = [] ->
  (now2 - later < V3.CACHE_DURATION)%Z ->
  V3.getServices markup now o later c = ([], V3.mkCache (Some []) later)
  /\ V3.getServices markup now2 o2 later2 (V3.getServices markup now o later c).2
     = ([], V3.mkCache (Some []) later).
Proof.
  intros Hf Ho Hlt.
  assert (V3.getServices markup now o later c = ([], V3.mkCache (Some []) later))
    as H1.
  { unfold V3.getServices. by rewrite Hf, Ho. }
  split; [exact H1|]. rewrite H1. cbn [snd].
  unfold V3.getServices, V3.fresh. cbn [V3.servicesCache V3.cacheTimestamp].
  apply Z.ltb_lt in Hlt. by rewrite Hlt.
Qed.

Lemma empty_fetch_witness :
  V3.getServices demo_markup 299000 upstream_two 299500
    (V3.getServices demo_markup 1000 (V3.FetchFailed "ECONNREFUSED") 1200
       V3.empty_cache).2
  = ([], V3.mkCache (Some []) 1200).
Proof.
  refine (proj2 (empty_fetch_is_cached_and_served demo_markup 1000
                   (V3.FetchFailed "ECONNREFUSED") 1200 V3.empty_cache 299000
                   upstream_two 299500 _ _ _)).
  - reflexivity.
  - reflexivity.
  - vm_compute. reflexivity.
Defined.

(** X10: the copy of lib/services.js under Type: lib never serves an empty
    catalog and never caches one: as long as the cache holds no empty list,
    which is so at start-up, every call returns at least one service and
    leaves the cache without an empty list. *)
Theorem typelib_catalog_never_empty
    (markup : string -> string) (now : Z) (o : V3.fetch_outcome) (later : Z)
    (c : V3.cache) :
  stocked_cache c ->
  (V3.getServices_typelib markup now o later c).1 <> []
  /\ stocked_cache (V3.getServices_typelib markup now o later c).2.
Proof.
  intros Hc. unfold V3.getServices_typelib.
  destruct (V3.fresh now c) as [cached|] eqn:Hf.
  { split; [|done]. cbn [fst]. unfold V3.fresh in Hf. unfold stocked_cache in Hc.
    destruct (V3.servicesCache c) as [l|]; [|done].
    destruct (_ <? _)%Z; [|done]. injection Hf as <-. congruence. }
  destruct (V3.fetchJAPServices o) as [|x rest]; [by split|].
  destruct (V3.curate markup false (x :: rest)) as [[|s l]|]; by split.
Qed.

Lemma typelib_catalog_witness :
  (V3.getServices_typelib demo_markup 1000 (V3.FetchFailed "ECONNREFUSED") 1200
     V3.empty_cache).1 <> [].
Proof.
  refine (proj1 (typelib_catalog_never_empty demo_markup 1000
                   (V3.FetchFailed "ECONNREFUSED") 1200 V3.empty_cache _)).
  discriminate.
Defined.

(** ** parseInt after toString *)

Lemma digit_pretty_N_char (d : N) :
  (d < 10)%N -> ParseInt.digit 10 (pretty_N_char d) = Some (Z.of_N d).
Proof.
  intros Hd.
  assert (d = 0 \/ d = 1 \/ d = 2 \/ d = 3 \/ d = 4 \/ d = 5 \/ d = 6 \/ d = 7
          \/ d = 8 \/ d = 9)%N as Hcases by lia.
  repeat (destruct Hcases as [->|Hcases]; [reflexivity|]). by subst.
Qed.

Lemma decimal_pretty_N_char (d : N) :
  (d < 10)%N -> decimal_unit (pretty_N_char d) = true.
Proof.
  intros Hd.
  assert (d = 0 \/ d = 1 \/ d = 2 \/ d = 3 \/ d = 4 \/ d = 5 \/ d = 6 \/ d = 7
          \/ d = 8 \/ d = 9)%N as Hcases by lia.
  repeat (destruct Hcases as [->|Hcases]; [reflexivity|]). by subst.
Qed.

Lemma digits_pretty_N_go (x : N) (s : string) :
  (0 < x)%N ->
  ParseInt.digits 10 (pretty_N_go x s) None
  = ParseInt.digits 10 s (Some (Z.of_N x)).
Proof.
  revert s. induction (N.lt_wf_0 x) as [x _ IH]. intros s Hx.
  rewrite pretty_N_go_step by done.
  assert (x `mod` 10 < 10)%N as Hmod by (apply N.mod_lt; lia).
  pose proof (N.div_mod x 10 ltac:(lia)) as Hdiv.
  destruct (decide (x `div` 10 = 0)%N) as [Hz|Hnz].
  - rewrite Hz, pretty_N_go_0. cbn [ParseInt.digits].
    rewrite digit_pretty_N_char by done. cbn [default]. do 2 f_equal. lia.
  - rewrite IH; [|apply N.div_lt; lia|lia]. cbn [ParseInt.digits].
    rewrite digit_pretty_N_char by done. cbn [default]. unfold id.
    do 2 f_equal. lia.
Qed.

Lemma decimal_pretty_N_go (x : N) (s : string) :
  decimal s = true -> decimal (pretty_N_go x s) = true.
Proof.
  revert s. induction (N.lt_wf_0 x) as [x _ IH]. intros s Hs.
  destruct (decide (x = 0)%N) as [->|Hx]; [by rewrite pretty_N_go_0|].
  rewrite pretty_N_go_step by lia. apply IH; [apply N.div_lt; lia|].
  cbn [decimal]. rewrite decimal_pretty_N_char; [done|]. apply N.mod_lt. lia.
Qed.

Lemma pretty_N_go_nonempty (x : N) (s : string) :
  (0 < x)%N -> pretty_N_go x s <> EmptyString.
Proof.
  revert s. induction (N.lt_wf_0 x) as [x _ IH]. intros s Hx.
  rewrite pretty_N_go_step by done.
  destruct (decide (x `div` 10 = 0)%N) as [Hz|Hnz].
  - by rewrite Hz, pretty_N_go_0.
  - apply IH; [apply N.div_lt; lia|by apply N.neq_0_lt_0].
Qed.

(** A text of decimal digits has no blank, no sign and no radix prefix at
    its head. *)
Lemma decimal_head (s : string) :
  decimal s = true ->
  ParseInt.skip_blanks s = s
  /\ ParseInt.sign s = (false, s)
  /\ ParseInt.radix_prefix s = (10%Z, s).
Proof.
  destruct s as [|c s]; [done|]. cbn [decimal].
  intros [Hc Hs]%andb_true_iff.
  assert (ParseInt.is_blank c = false /\ Ascii.eqb c "-" = false
          /\ Ascii.eqb c "+" = false) as (Hb & Hm & Hp).
  { clear Hs. by destruct c as [[] [] [] [] [] [] [] []]. }
  cbn [ParseInt.skip_blanks ParseInt.sign]. rewrite Hb, Hm, Hp.
  split; [done|]. split; [done|].
  destruct s as [|x s]; [done|]. cbn [decimal] in Hs.
  apply andb_true_iff in Hs as [Hx _].
  assert (Ascii.eqb x "x" || Ascii.eqb x "X" = false) as Hxx.
  { clear Hc. by destruct x as [[] [] [] [] [] [] [] []]. }
  cbn [ParseInt.radix_prefix]. rewrite Hxx. by rewrite andb_false_r.
Qed.

Lemma parseInt_decimal (negative : bool) (s : string) (a : Z) :
  decimal s = true ->
  ParseInt.digits 10 s None = Some a ->
  ParseInt.parseInt (if negative then String "-" s else s)
  = ParseInt.to_number negative a.
Proof.
  intros Hs Ha. destruct (decimal_head s Hs) as (Hb & Hsg & Hr).
  unfold ParseInt.parseInt. destruct negative.
  - change (ParseInt.skip_blanks (String "-" s)) with (String "-" s).
    change (ParseInt.sign (String "-" s)) with (true, s).
    cbv beta iota. rewrite Hr. cbv beta iota. by rewrite Ha.
  - rewrite Hb, Hsg. cbv beta iota. rewrite Hr. cbv beta iota. by rewrite Ha.
Qed.

Lemma to_number_exact (negative : bool) (a : Z) :
  (0 < a < 2 ^ 53)%Z ->
  ParseInt.to_number negative a = Jap.Num (if negative then - a else a)%Z.
Proof.
  intros Ha. unfold ParseInt.to_number, ParseInt.nearest_double.
  assert ((a =? 0)%Z = false) as -> by (apply Z.eqb_neq; lia).
  by assert ((a <? 2 ^ 53)%Z = true) as -> by (apply Z.ltb_lt; lia).
Qed.

(** An integer that is a double below 2^53 in absolute value comes back
    from [parseInt(n.toString())]. *)
Lemma parseInt_pretty (n : Z) :
  (Z.abs n < 2 ^ 53)%Z -> ParseInt.parseInt (pretty n) = Jap.Num n.
Proof.
  intros Hn. destruct n as [|p|p].
  - reflexivity.
  - change (pretty (Z.pos p)) with (pretty_N_go (N.pos p) EmptyString).
    rewrite (parseInt_decimal false _ (Z.pos p)).
    + apply to_number_exact. lia.
    + by apply decimal_pretty_N_go.
    + by rewrite digits_pretty_N_go by lia.
  - change (pretty (Z.neg p))
      with (String "-" (pretty_N_go (N.pos p) EmptyString)).
    rewrite (parseInt_decimal true _ (Z.pos p)).
    + apply to_number_exact. lia.
    + by apply decimal_pretty_N_go.
    + by rewrite digits_pretty_N_go by lia.
Qed.

(** ** getfame-backend-v5: what reaches the order file and the upstream *)

(** X11: in getfame-backend-v5 a NOWPayments confirmation is never
    fulfilled: whatever the webhook receives, signed or not, it writes no
    order and makes no upstream call; all it can do is send a notification. *)
Theorem v5_crypto_confirmation_never_fulfils
    {crypto : Crypto} (e : V5.env) (receivedSig : option string)
    (body : object) (st : V5.state) :
  V5.orders (V5.nowpayments_webhook e receivedSig body st).2 = V5.orders st
  /\ V5.japCalls (V5.nowpayments_webhook e receivedSig body st).2 = V5.japCalls st
  /\ V5.sessions (V5.nowpayments_webhook e receivedSig body st).2 = V5.sessions st.
Proof.
  unfold V5.nowpayments_webhook, V5.settle.
  destruct (Ipn.signature_guard _ _ _); [|done].
  destruct (Ipn.payment_complete body); [|done].
  by destruct (Ipn.upper_currency _).
Qed.

(** X12: the Stripe webhook of getfame-backend-v5 fails closed: it changes
    the state only for a payload that constructEvent verifies under a
    configured, non-empty secret and that is a checkout.session.completed
    event; with the secret unset nothing is ever processed. *)
Theorem v5_stripe_webhook_fails_closed
    {sdk : Stripe.Sdk} (e : V5.env) (up : Jap.upstream) (payload : string)
    (sig : option string) (now : Z) (st : V5.state) :
  (V5.stripe_webhook e up payload sig now st).2 <> st ->
  exists secret event,
    V5.STRIPE_WEBHOOK_SECRET e = Some secret
    /\ secret <> EmptyString
    /\ Stripe.constructEvent payload sig secret = inr event
    /\ Stripe.type event = "checkout.session.completed".
Proof.
  unfold V5.stripe_webhook. intros Hch.
  destruct (V5.STRIPE_WEBHOOK_SECRET e) as [[|c secret]|] eqn:Hs;
    cbn [truthy negb] in Hch; try done.
  cbn [default] in Hch. unfold id in Hch.
  destruct (Stripe.constructEvent payload sig (String c secret)) as [m|event] eqn:Hev;
    [done|].
  exists (String c secret), event. repeat split; [done|done|].
  cbn [snd] in Hch. unfold V5.fulfil in Hch.
  destruct (String.eqb (Stripe.type event) "checkout.session.completed") eqn:E;
    [by apply String.eqb_eq in E|done].
Qed.

Lemma v5_stripe_webhook_fails_closed_witness :
  exists secret event,
    V5.STRIPE_WEBHOOK_SECRET v5_env = Some secret
    /\ secret <> EmptyString
    /\ Stripe.constructEvent (Sdk := demo_sdk) "checkout O1" (Some "signed whsec")
         secret = inr event
    /\ Stripe.type event = "checkout.session.completed".
Proof.
  apply (v5_stripe_webhook_fails_closed (sdk := demo_sdk) v5_env accepting
           "checkout O1" (Some "signed whsec") 1700000000000 v5_empty).
  vm_compute. discriminate.
Defined.

(** ** Validation and sanitizing in getfame-backend-v5 *)

Lemma substring_length_le (n : nat) (s : string) :
  (String.length (substring 0 n s) <= n)%nat.
Proof.
  revert n. induction s as [|c s IH]; intros [|n]; cbn; try lia.
  specialize (IH n). lia.
Qed.

Lemma substring_starts_clean (n : nat) (s : string) :
  starts_clean s = true -> starts_clean (substring 0 n s) = true.
Proof. destruct s, n; done. Qed.

Lemma trimStart_starts_clean (s : string) : starts_clean (V5.trimStart s) = true.
Proof.
  induction s as [|c s IH]; [done|]. cbn [V5.trimStart].
  destruct (V5.is_space c) eqn:E; [done|]. cbn [starts_clean]. by rewrite E.
Qed.

Lemma trimEnd_starts_clean (s : string) :
  starts_clean s = true -> starts_clean (V5.trimEnd s) = true.
Proof.
  destruct s as [|c s]; [done|]. cbn [starts_clean V5.trimEnd]. intros Hc.
  destruct (V5.trimEnd s); [|done].
  destruct (V5.is_space c) eqn:E; [done|]. cbn [starts_clean]. by rewrite E.
Qed.

Lemma trimStart_all_space (s : string) :
  all_space s = true -> V5.trimStart s = EmptyString.
Proof.
  induction s as [|c s IH]; [done|]. cbn [all_space V5.trimStart].
  intros [Hc Hs]%andb_true_iff. rewrite Hc. by apply IH.
Qed.

(** X14: sanitizeInput never hands on more than 500 code units and never a
    text that starts with a blank. *)
Theorem sanitizeInput_bounded_and_clean_at_head (str : string) :
  (String.length (V5.sanitizeInput str) <= 500)%nat
  /\ starts_clean (V5.sanitizeInput str) = true.
Proof.
  unfold V5.sanitizeInput. split; [apply substring_length_le|].
  apply substring_starts_clean, trimEnd_starts_clean, trimStart_starts_clean.
Qed.

(** X15: the link is validated before it is sanitized: a link of five or
    more blanks raises no "Invalid link" error, and what sanitizeInput then
    hands to Stripe is the empty text. *)
Theorem blank_link_passes_validation
    (StringToNumber : string -> Body.number) (Number_digits : Q -> string)
    (body : V5.OrderInput) (link : string) :
  V5.in_link body = Some link ->
  all_space link = true ->
  (5 <= String.length link)%nat ->
  (exists errors,
     V5.validateOrderInput StringToNumber Number_digits (V5.body_of body)
     = Some errors
     /\ "Invalid link" ∉ errors)
  /\ V5.sanitizeInput link = EmptyString.
Proof.
  intros Hl Hs Hlen. split.
  - exists (typed_errors body). split; [apply validateOrderInput_typed|].
    unfold typed_errors. rewrite Hl.
    assert ((String.length link <? 5)%nat = false) as -> by (apply Nat.ltb_ge; lia).
    cbn [app]. intros Hin.
    repeat match type of Hin with
           | _ ∈ _ ++ _ => apply elem_of_app in Hin as [Hin|Hin]
           end;
      repeat match type of Hin with
             | _ ∈ match ?x with _ => _ end => destruct x
             | _ ∈ (if ?b then _ else _) => destruct b
             end;
      try (by apply elem_of_nil in Hin);
      by apply list_elem_of_singleton in Hin.
  - unfold V5.sanitizeInput, V5.trim. by rewrite trimStart_all_space.
Qed.

Lemma blank_link_witness :
  (exists errors,
     V5.validateOrderInput demo_StringToNumber demo_digits (V5.body_of blank_input)
     = Some errors
     /\ "Invalid link" ∉ errors)
  /\ V5.sanitizeInput five_blanks = EmptyString.
Proof.
  apply (blank_link_passes_validation demo_StringToNumber demo_digits blank_input
           five_blanks).
  - reflexivity.
  - reflexivity.
  - vm_compute. lia.
Defined.

Lemma plain_spec (s : string) :
  V5.plain s = true -> count_unit "@" s = 0%nat /\ no_space s = true.
Proof.
  induction s as [|c s IH]; [done|]. cbn [V5.plain count_unit no_space].
  intros [[Hsp Hat]%andb_true_iff Hs]%andb_true_iff.
  apply negb_true_iff in Hat. rewrite Hat, Hsp. cbn. by apply IH.
Qed.

Lemma domain_ok_spec (before : bool) (s : string) :
  V5.domain_ok before s = true ->
  count_unit "@" s = 0%nat /\ no_space s = true /\ (0 < count_unit "." s)%nat.
Proof.
  revert before. induction s as [|c s IH]; intros before; [done|].
  cbn [V5.domain_ok count_unit no_space].
  destruct (V5.is_space c) eqn:Hsp; [done|].
  destruct (Ascii.eqb c "@") eqn:Hat; [done|]. cbn [orb negb andb].
  intros [H|H]%orb_true_iff.
  - apply andb_true_iff in H as [[[Hdot _]%andb_true_iff Hpl]%andb_true_iff _].
    apply plain_spec in Hpl as [-> ->]. rewrite Hdot. repeat split; lia.
  - apply IH in H as (-> & -> & Hd). repeat split; lia.
Qed.

Lemma email_ok_spec (before : bool) (s : string) :
  V5.email_ok before s = true ->
  count_unit "@" s = 1%nat /\ no_space s = true.
Proof.
  revert before. induction s as [|c s IH]; intros before; [done|].
  cbn [V5.email_ok count_unit no_space].
  destruct (Ascii.eqb c "@") eqn:Hat.
  - intros [_ Hd]%andb_true_iff. apply domain_ok_spec in Hd as (-> & -> & _).
    apply Ascii.eqb_eq in Hat as ->. done.
  - destruct (V5.is_space c) eqn:Hsp; [done|]. intros H.
    apply IH in H as [-> ->]. done.
Qed.

Lemma email_errors_nil Number_digits (v : option Body.value) :
  V5.email_errors Number_digits v = Some [] ->
  exists email text,
    v = Some email /\ Body.truthy (Some email) = true
    /\ Body.ToString Number_digits email = Some text
    /\ V5.email_ok false text = true.
Proof.
  unfold V5.email_errors. destruct (Body.truthy v) eqn:Ht; [|done]. cbn [negb].
  destruct v as [email|]; [|done].
  assert (Body.toString_of Number_digits (Some email)
          = Body.ToString Number_digits email) as ->
    by (destruct email; [discriminate Ht|reflexivity..]).
  destruct (Body.ToString Number_digits email) as [text|] eqn:Htext;
    cbn [mbind option_bind]; [|done].
  destruct (V5.email_ok false text) eqn:Hok; [|done].
  intros _. by exists email, text.
Qed.

Lemma range_errors_nil StringToNumber Number_digits lo hi message
    (v : option Body.value) :
  V5.range_errors StringToNumber Number_digits lo hi message v = Some [] ->
  exists x n,
    v = Some x /\ Body.truthy (Some x) = true
    /\ Body.ToNumber StringToNumber Number_digits x = Some n
    /\ Body.lt n (Body.Finite lo) = false
    /\ Body.lt (Body.Finite hi) n = false.
Proof.
  unfold V5.range_errors. destruct (Body.truthy v) eqn:Ht; [|done]. cbn [negb].
  destruct v as [x|]; [|done]. cbn [Body.ToNumber_of].
  destruct (Body.ToNumber StringToNumber Number_digits x) as [n|] eqn:Hn;
    cbn [mbind option_bind]; [|done].
  destruct (Body.lt n (Body.Finite lo)) eqn:Hlo; [done|].
  destruct (Body.lt (Body.Finite hi) n) eqn:Hhi; [done|].
  intros _. by exists x, n.
Qed.

Lemma validateOrderInput_nil StringToNumber Number_digits (body : Body.object) :
  V5.validateOrderInput StringToNumber Number_digits body = Some [] ->
  (exists link,
     Body.own body "link" = Some (Body.Text link)
     /\ (5 <= String.length link)%nat)
  /\ V5.email_errors Number_digits (Body.own body "email") = Some []
  /\ V5.range_errors StringToNumber Number_digits 1 1000000 "Invalid quantity"
       (Body.own body "quantity") = Some []
  /\ (exists n,
        Body.own body "serviceId" = Some (Body.Number n)
        /\ Body.truthy (Some (Body.Number n)) = true)
  /\ V5.range_errors StringToNumber Number_digits (1 # 2) 50000 "Invalid amount"
       (Body.own body "amount") = Some [].
Proof.
  unfold V5.validateOrderInput.
  destruct (V5.email_errors _ _) as [e2|]; cbn [mbind option_bind]; [|done].
  destruct (V5.range_errors _ _ 1 _ _ _) as [e3|]; cbn [mbind option_bind]; [|done].
  destruct (V5.range_errors _ _ (1 # 2) _ _ _) as [e5|]; cbn [mbind option_bind];
    [|done].
  intros [= H].
  apply app_eq_nil in H as [H1 H]. apply app_eq_nil in H as [-> H].
  apply app_eq_nil in H as [-> H]. apply app_eq_nil in H as [H4 ->].
  repeat split; try done.
  - destruct (Body.own body "link") as [[| | |l| |]|]; try done.
    exists l. split; [done|]. destruct (String.length l <? 5)%nat eqn:E; [done|].
    by apply Nat.ltb_ge.
  - destruct (Body.own body "serviceId") as [[| |n| | |]|]; try done.
    exists n. split; [done|]. revert H4.
    destruct n as [|q|negative]; cbn [Body.truthy]; [done| |done].
    by destruct (negb (Qeq_bool q 0)).
Qed.

Lemma lt_Finite_false (a b : Q) :
  Body.lt (Body.Finite a) (Body.Finite b) = false -> b <= a.
Proof.
  cbn [Body.lt]. intros H. apply negb_false_iff in H. by apply Qle_bool_iff.
Qed.

(** X16: what a checkout that reaches Stripe has been checked for, whatever
    JSON the request is: the order endpoint of getfame-backend-v5 asks Stripe
    for a session only when the Stripe key is set, the link is a text of at
    least five code units, the email is truthy and the text it converts to has
    exactly one at-sign and no blank, the service id is a number other than 0,
    and quantity and amount are truthy and convert to a number that is not
    below 1 and not above 1,000,000, not below 0.50 and not above 50,000.
    A quantity or an amount that is a number therefore lies within these
    bounds; but the two checks test no type, so a member that converts to
    [NaN] passes them. *)
Theorem v5_checkout_reaches_stripe_only_when_valid
    (StringToNumber : string -> Body.number) (Number_digits : Q -> string)
    (e : V5.env) (created : option (string * string)) (body : Body.object)
    (st : V5.state) :
  V5.sessions (V5.post_order StringToNumber Number_digits e created body st).2
  <> V5.sessions st ->
  truthy (V5.STRIPE_SECRET_KEY e) = true
  /\ (exists link,
        Body.own body "link" = Some (Body.Text link)
        /\ (5 <= String.length link)%nat)
  /\ (exists email text,
        Body.own body "email" = Some email
        /\ Body.truthy (Some email) = true
        /\ Body.ToString Number_digits email = Some text
        /\ count_unit "@" text = 1%nat /\ no_space text = true)
  /\ (exists n,
        Body.own body "serviceId" = Some (Body.Number n)
        /\ Body.truthy (Some (Body.Number n)) = true)
  /\ (exists quantity n,
        Body.own body "quantity" = Some quantity
        /\ Body.truthy (Some quantity) = true
        /\ Body.ToNumber StringToNumber Number_digits quantity = Some n
        /\ Body.lt n (Body.Finite 1) = false
        /\ Body.lt (Body.Finite 1000000) n = false)
  /\ (exists amount n,
        Body.own body "amount" = Some amount
        /\ Body.truthy (Some amount) = true
        /\ Body.ToNumber StringToNumber Number_digits amount = Some n
        /\ Body.lt n (Body.Finite (1 # 2)) = false
        /\ Body.lt (Body.Finite 50000) n = false)
  /\ (forall q,
        Body.own body "quantity" = Some (Body.Number (Body.Finite q)) ->
        1 <= q <= 1000000)
  /\ (forall a,
        Body.own body "amount" = Some (Body.Number (Body.Finite a)) ->
        (1 # 2) <= a <= 50000).
Proof.
  unfold V5.post_order. intros Hch.
  destruct (V5.validateOrderInput StringToNumber Number_digits body)
    as [[|err errs]|] eqn:Hv; [|done|done].
  cbn [List.length Nat.ltb Nat.leb] in Hch.
  destruct (truthy (V5.STRIPE_SECRET_KEY e)); [|done]. split; [done|].
  apply validateOrderInput_nil in Hv as (Hl & He & Hq & Hs & Ha).
  apply email_errors_nil in He as (email & text & He & Het & Htext & Hok).
  apply email_ok_spec in Hok as [Hat Hsp].
  apply range_errors_nil in Hq as (quantity & nq & Hq & Hqt & Hqn & Hq1 & Hq2).
  apply range_errors_nil in Ha as (amount & na & Ha & Hat' & Han & Ha1 & Ha2).
  split; [done|]. split; [by exists email, text|]. split; [done|].
  split; [by exists quantity, nq|]. split; [by exists amount, na|]. split.
  - intros q Hq'. rewrite Hq in Hq'. injection Hq' as ->.
    cbn [Body.ToNumber] in Hqn. injection Hqn as <-.
    split; by apply lt_Finite_false.
  - intros a Ha'. rewrite Ha in Ha'. injection Ha' as ->.
    cbn [Body.ToNumber] in Han. injection Han as <-.
    split; by apply lt_Finite_false.
Qed.

Lemma v5_checkout_reaches_stripe_witness :
  truthy (V5.STRIPE_SECRET_KEY v5_env) = true
  /\ (forall q,
        Body.own (V5.body_of valid_input) "quantity"
        = Some (Body.Number (Body.Finite q)) ->
        1 <= q <= 1000000).
Proof.
  pose proof (v5_checkout_reaches_stripe_only_when_valid demo_StringToNumber
                demo_digits v5_env
                (Some ("https://checkout.stripe.com/c/pay/cs_1", "cs_1"))
                (V5.body_of valid_input) v5_empty) as H.
  assert (V5.sessions
            (V5.post_order demo_StringToNumber demo_digits v5_env
               (Some ("https://checkout.stripe.com/c/pay/cs_1", "cs_1"))
               (V5.body_of valid_input) v5_empty).2
          <> V5.sessions v5_empty) as Hch by (vm_compute; discriminate).
  destruct (H Hch) as (Hk & _ & _ & _ & _ & _ & Hq & _). by split.
Defined.

(** A quantity that is no number reaches Stripe: the text [abc] passes the
    bounds check, a session is asked, and its metadata carry the text. *)
Example text_quantity_reaches_stripe :
  V5.sessions
    (V5.post_order demo_StringToNumber demo_digits v5_env
       (Some ("https://checkout.stripe.com/c/pay/cs_1", "cs_1"))
       [("link", Body.Text "https://instagram.com/ann");
        ("email", Body.Text "ann@example.com"); ("quantity", Body.Text "abc");
        ("serviceId", Body.Number (Body.Finite 7446));
        ("amount", Body.Number (Body.Finite (1299 # 100)))] v5_empty).2
  = [V5.mkRequest (Some (Body.Text "ann@example.com"))
       (Body.Finite (1299 # 100))
       [("link", Body.Text "https://instagram.com/ann");
        ("quantity", Body.Text "abc"); ("serviceId", Body.Text "7446");
        ("platform", Body.Text "instagram"); ("service", Body.Text "followers");
        ("quality", Body.Text "standard")]].
Proof. vm_compute. reflexivity. Qed.

(** ** The admin API of getfame-backend-v5 *)

Lemma v5_update_first_Forall2 (P : V5.Order -> V5.Order -> Prop) key f l l' :
  (forall o, P o o) -> (forall o, P o (f o)) ->
  V5.update_first key f l = Some l' -> Forall2 P l l'.
Proof.
  intros Hrefl Hf. revert l'. induction l as [|o l IH]; intros l'; [done|].
  cbn [V5.update_first]. destruct (V5.id o =? key)%Z.
  - intros [= <-]. constructor; [apply Hf|]. by apply Forall_Forall2_diag, Forall_true.
  - destruct (V5.update_first key f l) as [r|]; [|done]. intros [= <-].
    constructor; [apply Hrefl|by apply IH].
Qed.

(** X17: the admin endpoint that patches an order can only set one of the
    four listed statuses, and sets nothing else: after any call every record
    stands where it stood, with its link, email, quantity, service, amount,
    session and upstream id as before, its status either unchanged or one of
    pending, processing, completed and failed; no upstream call is made. *)
Theorem v5_admin_patch_sets_listed_status_only
    (id : Jap.number) (status : option string) (st : V5.state) :
  V5.japCalls (V5.admin_patch id status st).2 = V5.japCalls st
  /\ Forall2
       (fun o o' =>
          v5_frozen o' = v5_frozen o
          /\ V5.japOrderId o' = V5.japOrderId o
          /\ (V5.status o' = V5.status o \/ V5.status o' ∈ V5.admin_statuses))
       (V5.orders st) (V5.orders (V5.admin_patch id status st).2).
Proof.
  assert (Forall2
            (fun o o' =>
               v5_frozen o' = v5_frozen o
               /\ V5.japOrderId o' = V5.japOrderId o
               /\ (V5.status o' = V5.status o \/ V5.status o' ∈ V5.admin_statuses))
            (V5.orders st) (V5.orders st)) as Hsame.
  { apply Forall_Forall2_diag, Forall_true. auto. }
  unfold V5.admin_patch. destruct status as [s|]; [|done].
  case_bool_decide as Hin; [|done].
  destruct (Jap.integer id) as [n|]; [|done].
  cbn [snd]. unfold V5.updateOrderStatus.
  destruct (V5.update_first n (V5.touch s None) (V5.orders st)) as [l|] eqn:Hl;
    [|done].
  cbn [V5.japCalls V5.orders]. split; [done|].
  eapply v5_update_first_Forall2; [| |exact Hl]; cbn beta.
  - auto.
  - intros o. unfold V5.touch, v5_frozen. cbn. auto.
Qed.

(** ** getfame-backend-v2: links, lookups and orders *)

Lemma string_app_assoc (a b c : string) : (a +:+ b) +:+ c = a +:+ b +:+ c.
Proof.
  induction a as [|x a IH]; [done|].
  change (String x ((a +:+ b) +:+ c) = String x (a +:+ b +:+ c)). by f_equal.
Qed.

Lemma strip_prefix_spec (p s r : string) :
  V2.strip_prefix p s = Some r <-> s = p +:+ r.
Proof.
  revert s. induction p as [|a p IH]; intros s; cbn [V2.strip_prefix].
  - change (EmptyString +:+ r) with r. split; [by intros [= ->]|by intros ->].
  - change (String a p +:+ r) with (String a (p +:+ r)). destruct s as [|b s].
    + split; [done|]. intros H. discriminate H.
    + destruct (Ascii.eqb a b) eqn:E.
      * apply Ascii.eqb_eq in E as ->. rewrite IH. split.
        -- by intros ->.
        -- intros H. by injection H.
      * apply Ascii.eqb_neq in E. split; [done|]. intros H.
        injection H as ? ?. congruence.
Qed.

Lemma host_then_path_spec (hosts : list string) (s : string) :
  V2.host_then_path hosts s = true
  <-> exists h c rest,
        h ∈ hosts /\ V2.line_terminator c = false
        /\ s = h +:+ "/" +:+ String c rest.
Proof.
  unfold V2.host_then_path. rewrite existsb_exists. split.
  - intros (h & Hin & Hm).
    destruct (V2.strip_prefix (h +:+ "/") s) as [[|c rest]|] eqn:Hs; try done.
    apply strip_prefix_spec in Hs. exists h, c, rest.
    split; [by apply list_elem_of_In|]. split; [by apply negb_true_iff|].
    by rewrite Hs, string_app_assoc.
  - intros (h & c & rest & Hin & Hc & ->). exists h.
    split; [by apply list_elem_of_In|].
    assert (V2.strip_prefix (h +:+ "/") (h +:+ "/" +:+ String c rest)
            = Some (String c rest)) as ->.
    { apply strip_prefix_spec. by rewrite string_app_assoc. }
    by rewrite Hc.
Qed.

Lemma strip_https_not_http (r : string) :
  V2.strip_prefix "https://" ("http://" +:+ r) = None.
Proof. reflexivity. Qed.

Lemma url_matches_spec (optional : string) (hosts : list string) (link : string) :
  V2.url_matches optional hosts link = true <-> platform_url optional hosts link.
Proof.
  unfold V2.url_matches, platform_url. split.
  - intros H.
    assert (exists scheme r,
              (scheme = "https://" \/ scheme = "http://")
              /\ V2.lower link = scheme +:+ r
              /\ (V2.host_then_path hosts r
                  || match V2.strip_prefix optional r with
                     | Some r' => V2.host_then_path hosts r'
                     | None => false
                     end) = true) as (scheme & r & Hscheme & Hl & Hr).
    { destruct (V2.strip_prefix "https://" (V2.lower link)) as [r|] eqn:H1.
      - apply strip_prefix_spec in H1. exists "https://", r. auto.
      - destruct (V2.strip_prefix "http://" (V2.lower link)) as [r|] eqn:H2; [|done].
        apply strip_prefix_spec in H2. exists "http://", r. auto. }
    apply orb_true_iff in Hr as [Hr|Hr].
    + apply host_then_path_spec in Hr as (h & c & rest & Hin & Hc & ->).
      exists scheme, EmptyString, h, c, rest. rewrite Hl. auto 10.
    + destruct (V2.strip_prefix optional r) as [r'|] eqn:Ho; [|done].
      apply strip_prefix_spec in Ho as ->.
      apply host_then_path_spec in Hr as (h & c & rest & Hin & Hc & ->).
      exists scheme, optional, h, c, rest. rewrite Hl. auto 10.
  - intros (scheme & pre & h & c & rest & Hscheme & Hpre & Hin & Hc & Hl).
    rewrite Hl.
    assert (V2.host_then_path hosts (h +:+ "/" +:+ String c rest) = true) as Hh
      by (apply host_then_path_spec; eauto 10).
    assert ((V2.host_then_path hosts (pre +:+ h +:+ "/" +:+ String c rest)
             || match V2.strip_prefix optional (pre +:+ h +:+ "/" +:+ String c rest)
                with
                | Some r' => V2.host_then_path hosts r'
                | None => false
                end) = true) as Hbody.
    { destruct Hpre as [->| ->].
      - change (EmptyString +:+ ?x) with x. by rewrite Hh.
      - assert (V2.strip_prefix optional (optional +:+ h +:+ "/" +:+ String c rest)
                = Some (h +:+ "/" +:+ String c rest)) as ->
          by (by apply strip_prefix_spec).
        rewrite Hh. apply orb_true_r. }
    destruct Hscheme as [->| ->].
    + assert (V2.strip_prefix "https://"
                ("https://" +:+ pre +:+ h +:+ "/" +:+ String c rest)
              = Some (pre +:+ h +:+ "/" +:+ String c rest)) as ->
        by (by apply strip_prefix_spec).
      exact Hbody.
    + rewrite strip_https_not_http.
      assert (V2.strip_prefix "http://"
                ("http://" +:+ pre +:+ h +:+ "/" +:+ String c rest)
              = Some (pre +:+ h +:+ "/" +:+ String c rest)) as ->
        by (by apply strip_prefix_spec).
      exact Hbody.
Qed.

(** X18: what validateLink accepts for a platform of its table: exactly the
    links that, letter case apart, consist of http:// or https://, the
    platform's host with or without its prefix, a slash and at least one more
    character.  A link without scheme, or to another host, is refused. *)
Theorem validateLink_accepts_platform_urls_only
    (platform optional : string) (hosts : list string) (link : string) :
  (platform, (optional, hosts)) ∈ link_patterns ->
  V2.validateLink link platform = true <-> platform_url optional hosts link.
Proof.
  intros Hin. rewrite <- url_matches_spec. unfold link_patterns in Hin.
  repeat (apply elem_of_cons in Hin as [[= -> -> ->]|Hin]; [reflexivity|]).
  by apply elem_of_nil in Hin.
Qed.

Lemma validateLink_witness :
  V2.validateLink "HTTPS://www.Instagram.com/ann" "instagram" = true.
Proof.
  refine (proj2 (validateLink_accepts_platform_urls_only "instagram" "www."
                   ["instagram.com"] "HTTPS://www.Instagram.com/ann" _) _).
  - apply (bool_decide_unpack _). by vm_compute.
  - exists "https://", "www.", "instagram.com", "a"%char, "nn".
    repeat split; [by left|by right|by left].
Defined.



(** X20: an order that v2 places is one upstream call for the service, link
    and quantity asked, and one record, pending, with the upstream order id,
    that the store returns both under the internal id and under the upstream
    id written as text. *)
Theorem v2_placed_order_stored_under_both_ids
    (Raw : Type) (curate : Raw -> string + list V2.Service)
    (calculateTotal getJapCost : Q -> Jap.number -> Q) (round_profit : Q -> Q -> Q)
    (up : Jap.upstream) (now later : Z) (fetched : string + Raw)
    (internalId : string) (orderData : V2.OrderData) (st : V2.state)
    (service : V2.Service) (c : V2.cache) (japId : Z) :
  V2.getServiceById Raw curate (V2.data_serviceId orderData) now fetched later
    (V2.services st) = (inr (Some service), c) ->
  V2.out_of_bounds (V2.data_quantity orderData) service = false ->
  V2.validateLink (V2.data_link orderData) (V2.platform service) = true ->
  V2.jap_createOrder (up (List.length (V2.japCalls st))) = inr (Some japId) ->
  let run := V2.createOrder Raw curate calculateTotal getJapCost round_profit up
               now fetched later internalId orderData st in
  run.1 = inr (japId, internalId,
               calculateTotal (V2.rate service) (V2.data_quantity orderData))
  /\ V2.japCalls run.2
     = V2.japCalls st
       ++ [Jap.Request (Jap.Num (V2.data_serviceId orderData))
             (Some (V2.data_link orderData)) (V2.data_quantity orderData)]
  /\ exists order,
       V2.orders run.2 !! internalId = Some order
       /\ V2.orders run.2 !! pretty japId = Some order
       /\ V2.order_id order = japId
       /\ V2.status order = "pending"
       /\ V2.order_serviceId order = V2.data_serviceId orderData
       /\ V2.link order = V2.data_link orderData
       /\ V2.quantity order = V2.data_quantity orderData.
Proof.
  intros Hfound Hb Hl Hj run. unfold run, V2.createOrder.
  rewrite Hfound, Hb, Hl. cbn [negb]. unfold V2.with_cache.
  cbn [V2.japCalls V2.orders V2.services V2.sessions]. rewrite Hj.
  cbn [fst snd V2.japCalls V2.orders]. split; [done|]. split; [done|].
  eexists. split; [apply lookup_insert_eq|].
  split; [|done].
  destruct (decide (internalId = pretty japId)) as [->|Hne].
  - apply lookup_insert_eq.
  - rewrite lookup_insert_ne by done. apply lookup_insert_eq.
Qed.

Lemma v2_placed_order_witness :
  V2.japCalls
    (V2.createOrder unit v2_curate v2_amount v2_amount (fun t c => t) accepting 1000
       (inr tt) 1200 "GF1" v2_five_hundred V2.initial).2
  = [Jap.Request (Jap.Num 7446%Z) (Some "https://instagram.com/ann")
       (Jap.Num 500%Z)].
Proof.
  refine (proj1 (proj2 (v2_placed_order_stored_under_both_ids unit v2_curate
                          v2_amount v2_amount (fun t c => t) accepting 1000 1200
                          (inr tt) "GF1" v2_five_hundred V2.initial v2_service
                          (V2.mkCache (Some [v2_service]) 1200) 501 _ _ _ _)));
    reflexivity.
Defined.

(** X21: createOrder of v2 either throws before it has done anything, no
    upstream call and no record, or has made exactly one upstream call, for a
    service that was found, a quantity within its bounds and a link that
    validated; and then it either returns a confirmation or has stored no
    record. *)
Theorem v2_createOrder_calls_upstream_after_validation_only
    (Raw : Type) (curate : Raw -> string + list V2.Service)
    (calculateTotal getJapCost : Q -> Jap.number -> Q) (round_profit : Q -> Q -> Q)
    (up : Jap.upstream) (now later : Z) (fetched : string + Raw)
    (internalId : string) (orderData : V2.OrderData) (st : V2.state) :
  let run := V2.createOrder Raw curate calculateTotal getJapCost round_profit up
               now fetched later internalId orderData st in
  ((exists error, run.1 = inl error)
   /\ V2.japCalls run.2 = V2.japCalls st /\ V2.orders run.2 = V2.orders st)
  \/ ((exists service c,
         V2.getServiceById Raw curate (V2.data_serviceId orderData) now fetched
           later (V2.services st) = (inr (Some service), c)
         /\ V2.out_of_bounds (V2.data_quantity orderData) service = false
         /\ V2.validateLink (V2.data_link orderData) (V2.platform service) = true)
      /\ V2.japCalls run.2
         = V2.japCalls st
           ++ [Jap.Request (Jap.Num (V2.data_serviceId orderData))
                 (Some (V2.data_link orderData)) (V2.data_quantity orderData)]
      /\ (V2.orders run.2 = V2.orders st
          \/ exists japId total, run.1 = inr (japId, internalId, total))).
Proof.
  intros run. unfold run, V2.createOrder.
  destruct (V2.getServiceById Raw curate (V2.data_serviceId orderData) now fetched
              later (V2.services st)) as [[error|[service|]] c] eqn:Hfound.
  - left. split; [by eexists|done].
  - destruct (V2.out_of_bounds (V2.data_quantity orderData) service) eqn:Hb.
    { left. split; [by eexists|done]. }
    destruct (V2.validateLink (V2.data_link orderData) (V2.platform service)) eqn:Hl;
      cbn [negb].
    2: { left. split; [by eexists|done]. }
    right. split; [by exists service, c|].
    unfold V2.with_cache. cbn [V2.japCalls V2.orders V2.services V2.sessions].
    destruct (V2.jap_createOrder _) as [error|[japId|]];
      cbn [fst snd V2.japCalls V2.orders]; split; try done; try (by left).
    right. by eexists _, _.
  - left. split; [by eexists|done].
Qed.

(** X22: the bounds checks of v2 agree: what validateOrder declares valid
    passes the check of createOrder and that of createCheckoutSession, which
    then asks Stripe for a session for the total of that service and
    quantity; and a quantity that is NaN is below no minimum and above no
    maximum, so it is valid for every service that is found. *)
Theorem v2_validateOrder_agrees_with_checkout
    (Raw : Type) (curate : Raw -> string + list V2.Service)
    (calculateTotal : Q -> Jap.number -> Q)
    (now later : Z) (fetched : string + Raw)
    (created : string + (string * string))
    (serviceId : Z) (quantity : Jap.number) (st : V2.state)
    (service : V2.Service) (c : V2.cache) :
  V2.validateOrder Raw curate serviceId quantity now fetched later (V2.services st)
  = (inr (V2.Valid service), c) ->
  V2.createCheckoutSession Raw curate calculateTotal now fetched later created
    serviceId quantity st
  = (created,
     V2.mkState c (V2.orders st) (V2.japCalls st)
       (V2.sessions st ++ [(serviceId, calculateTotal (V2.rate service) quantity)]))
  /\ V2.out_of_bounds quantity service = false
  /\ V2.validateOrder Raw curate serviceId Jap.NaN now fetched later
       (V2.services st)
     = (inr (V2.Valid service), c).
Proof.
  unfold V2.validateOrder, V2.createCheckoutSession, V2.out_of_bounds.
  destruct (V2.getServiceById Raw curate serviceId now fetched later
              (V2.services st)) as [[error|[found|]] c1]; try done.
  destruct (V2.lt_number quantity (V2.min found)) eqn:Hlo; [done|].
  destruct (V2.lt_number (V2.max found) quantity) eqn:Hhi; [done|].
  intros [= -> ->]. rewrite Hlo, Hhi. cbn [orb]. split; [done|]. split; [done|].
  unfold V2.lt_number. cbn [Jap.lt]. by destruct (V2.max service) as [| | |[]].
Qed.

Lemma v2_validateOrder_witness :
  V2.validateOrder unit v2_curate 7446 Jap.NaN 1000 (inr tt) 1200 V2.empty_cache
  = (inr (V2.Valid v2_service), V2.mkCache (Some [v2_service]) 1200).
Proof.
  refine (proj2 (proj2 (v2_validateOrder_agrees_with_checkout unit v2_curate v2_amount
                   1000 1200 (inr tt) (inr ("cs_1", "https://checkout.stripe.com"))
                   7446 (Jap.Num 500%Z) V2.initial v2_service
                   (V2.mkCache (Some [v2_service]) 1200) _))).
  reflexivity.
Defined.

(** ** The v5 server with JAP integration: records and manual fulfilment *)

Lemma jap_kept_refl (o : ServerJap.Order) : jap_kept o o.
Proof. by split. Qed.

Lemma jap_kept_touch status j now (o : ServerJap.Order) :
  jap_kept o (ServerJap.touch status j now o).
Proof.
  split; [done|]. unfold ServerJap.touch. cbn [ServerJap.japOrderId].
  by destruct (Jap.order_truthy j) eqn:E.
Qed.

Lemma jap_update_first_kept key status j now l l' :
  ServerJap.update_first key (ServerJap.touch status j now) l = Some l' ->
  Forall2 jap_kept l l'.
Proof.
  revert l'. induction l as [|o l IH]; intros l'; [done|].
  cbn [ServerJap.update_first]. destruct (ServerJap.id o =? key)%Z.
  - intros [= <-]. constructor; [apply jap_kept_touch|].
    apply Forall_Forall2_diag, Forall_true, jap_kept_refl.
  - destruct (ServerJap.update_first key _ l) as [r|]; [|done]. intros [= <-].
    constructor; [apply jap_kept_refl|by apply IH].
Qed.

Lemma jap_updateOrderStatus_kept key status j now st :
  Forall2 jap_kept (ServerJap.orders st)
    (ServerJap.orders (ServerJap.updateOrderStatus key status j now st)).
Proof.
  unfold ServerJap.updateOrderStatus.
  destruct (ServerJap.update_first _ _ _) as [l|] eqn:Hl.
  - by apply jap_update_first_kept in Hl.
  - apply Forall_Forall2_diag, Forall_true, jap_kept_refl.
Qed.

Lemma placeJapOrder_orders e up service link quantity st :
  ServerJap.orders (ServerJap.placeJapOrder e up service link quantity st).2
  = ServerJap.orders st.
Proof.
  unfold ServerJap.placeJapOrder. destruct (negb _); [done|].
  destruct (up _) as [m|order error]; [done|]. by destruct (Jap.order_truthy order).
Qed.

(** X23: no handler of the v5 server with JAP integration adds, drops or
    reorders a record once it is stored: after a Stripe webhook, a
    NOWPayments webhook or a manual fulfilment, whatever they received, every
    record is the order it was, with its ids, session, email, link, quantity,
    service and payment method, and a record that had an upstream order id
    still has one. *)
Theorem jap_handlers_keep_records
    {crypto : Crypto} {sdk : Stripe.Sdk} (e : ServerJap.env) (up : Jap.upstream)
    (payload : string) (sig receivedSig : option string) (body : object)
    (key : Jap.number) (now : Z) (st : ServerJap.state) :
  Forall2 jap_kept (ServerJap.orders st)
    (ServerJap.orders (ServerJap.stripe_webhook e up payload sig now st).2)
  /\ Forall2 jap_kept (ServerJap.orders st)
       (ServerJap.orders (ServerJap.nowpayments_webhook e up receivedSig body now st).2)
  /\ Forall2 jap_kept (ServerJap.orders st)
       (ServerJap.orders (ServerJap.admin_fulfill e up key now st).2).
Proof.
  assert (Forall2 jap_kept (ServerJap.orders st) (ServerJap.orders st)) as Hsame
    by apply Forall_Forall2_diag, Forall_true, jap_kept_refl.
  split; [|split].
  - unfold ServerJap.stripe_webhook.
    destruct (if truthy _ then _ else _) as [m|event]; [done|]. cbn [snd].
    unfold ServerJap.fulfil. destruct (String.eqb _ _); [|done].
    pose proof (placeJapOrder_orders e up
                  (ParseInt.parseInt_of (Stripe.meta (Stripe.metadata (Stripe.object event)) "japServiceId"))
                  (Stripe.meta (Stripe.metadata (Stripe.object event)) "link")
                  (ParseInt.parseInt_of (Stripe.meta (Stripe.metadata (Stripe.object event)) "quantity")) st) as Ho.
    destruct (ServerJap.placeJapOrder _ _ _ _ _ _) as [japResult st1].
    cbn [snd] in Ho. unfold ServerJap.notify. cbn [ServerJap.orders].
    destruct (ServerJap.getOrderByStripeSession _ _) as [order|].
    + rewrite <- Ho. apply jap_updateOrderStatus_kept.
    + by rewrite Ho.
  - unfold ServerJap.nowpayments_webhook.
    destruct (Ipn.signature_guard _ _ _); [|done]. unfold ServerJap.settle.
    destruct (Ipn.payment_complete body); [|done].
    destruct (own body "order_id") as [[| | |oid| |]|];
      try (by destruct (Ipn.upper_currency _)).
    destruct (List.find _ (ServerJap.orders st)) as [order|];
      [|by destruct (Ipn.upper_currency _)].
    destruct (Jap.order_truthy (ServerJap.japServiceId order));
      [|by destruct (Ipn.upper_currency _)].
    pose proof (placeJapOrder_orders e up
                  (Jap.stored (ServerJap.japServiceId order))
                  (Some (ServerJap.link order))
                  (Jap.Num (ServerJap.quantity order)) st) as Ho.
    destruct (ServerJap.placeJapOrder _ _ _ _ _ _) as [japResult st1].
    cbn [snd] in Ho.
    destruct (Ipn.upper_currency _); cbn [snd]; unfold ServerJap.notify;
      cbn [ServerJap.orders]; rewrite <- Ho; apply jap_updateOrderStatus_kept.
  - unfold ServerJap.admin_fulfill.
    destruct (Jap.integer key ≫= _) as [order|]; [|done].
    destruct (_ || _); [done|].
    pose proof (placeJapOrder_orders e up
                  (Jap.stored (ServerJap.japServiceId order))
                  (Some (ServerJap.link order))
                  (Jap.Num (ServerJap.quantity order)) st) as Ho.
    destruct (ServerJap.placeJapOrder _ _ _ _ _ _) as [japResult st1].
    cbn [snd] in Ho. destruct (ServerJap.success japResult); cbn [snd].
    + rewrite <- Ho. apply jap_updateOrderStatus_kept.
    + by rewrite Ho.
Qed.

(** X26: the manual fulfilment endpoint looks at no status: for any stored
    order that has a service, a link and a quantity, be it pending,
    processing or completed, with or without an upstream order id, it makes
    one more upstream call for that order.  When that call brings no order
    the records stay as they were and the answer is 500; otherwise the
    order is set to processing with the new upstream id. *)
Theorem jap_manual_fulfilment_has_no_status_guard
    (e : ServerJap.env) (up : Jap.upstream) (n now : Z) (st : ServerJap.state)
    (order : ServerJap.Order) :
  truthy (ServerJap.JAP_API_KEY e) = true ->
  List.find (fun o => (ServerJap.id o =? n)%Z) (ServerJap.orders st) = Some order ->
  Jap.order_truthy (ServerJap.japServiceId order) = true ->
  truthy (Some (ServerJap.link order)) = true ->
  ServerJap.quantity order <> 0%Z ->
  let run := ServerJap.admin_fulfill e up (Jap.Num n) now st in
  ServerJap.japCalls run.2
  = ServerJap.japCalls st
    ++ [Jap.Request (Jap.stored (ServerJap.japServiceId order))
          (Some (ServerJap.link order)) (Jap.Num (ServerJap.quantity order))]
  /\ ((no_order (up (List.length (ServerJap.japCalls st))) = true
       /\ ServerJap.orders run.2 = ServerJap.orders st
       /\ exists message, run.1 = Http.error 500 message)
      \/ (exists j error,
            up (List.length (ServerJap.japCalls st)) = Jap.Response (Some j) error
            /\ j <> 0%Z
            /\ ServerJap.orders run.2
               = ServerJap.orders
                   (ServerJap.updateOrderStatus (ServerJap.id order) "processing"
                      (Some j) now st))).
Proof.
  intros Hkey Hfind Hs Hl Hq run. unfold run, ServerJap.admin_fulfill.
  cbn [Jap.integer mbind option_bind]. rewrite Hfind, Hs, Hl.
  apply Z.eqb_neq in Hq. rewrite Hq. cbn [negb orb].
  unfold ServerJap.placeJapOrder. rewrite Hkey. cbn [negb].
  destruct (up (List.length (ServerJap.japCalls st))) as [m|o error] eqn:Hup.
  - cbn [ServerJap.success snd fst ServerJap.japCalls ServerJap.orders].
    split; [done|]. left. split; [done|]. split; [done|]. by eexists.
  - destruct (Jap.order_truthy o) eqn:Ho.
    + cbn [ServerJap.success snd fst ServerJap.result_orderId].
      rewrite updateOrderStatus_calls. cbn [ServerJap.japCalls]. split; [done|].
      right. destruct o as [j|]; [|done]. exists j, error. split; [done|].
      split.
      { unfold Jap.order_truthy in Ho. by apply negb_true_iff, Z.eqb_neq in Ho. }
      unfold ServerJap.updateOrderStatus. cbn [ServerJap.orders].
      by destruct (ServerJap.update_first _ _ _).
    + cbn [ServerJap.success snd fst ServerJap.japCalls ServerJap.orders].
      split; [done|]. left. unfold no_order. rewrite Ho. split; [done|].
      split; [done|]. by eexists.
Qed.

Lemma jap_manual_fulfilment_witness :
  ServerJap.japCalls
    (ServerJap.admin_fulfill jap_env accepting (Jap.Num 1700000000000%Z)
       1700000090000 (ServerJap.mkState [jap_processing] [] [])).2
  = [Jap.Request (Jap.Num 7446%Z) (Some "https://instagram.com/ann")
       (Jap.Num 5000%Z)].
Proof.
  refine (proj1 (jap_manual_fulfilment_has_no_status_guard jap_env accepting
                   1700000000000 1700000090000
                   (ServerJap.mkState [jap_processing] [] []) jap_processing
                   _ _ _ _ _)); try reflexivity.
  discriminate.
Defined.

(** ** The email in the notifications of getfame-backend-v5 *)

Lemma string_app_empty (s : string) : s +:+ EmptyString = s.
Proof.
  induction s as [|c s IH]; [done|].
  change (String c (s +:+ EmptyString) = String c s). by f_equal.
Qed.

Lemma line_of_one_line (s : string) :
  one_line s = true -> V5.line_of s = (s, EmptyString).
Proof.
  induction s as [|c s IH]; [done|]. cbn [one_line V5.line_of].
  intros [Hc Hs]%andb_true_iff. apply negb_true_iff in Hc. rewrite Hc.
  by rewrite (IH Hs).
Qed.

Lemma from_last_at_none (s : string) :
  count_unit "@" s = 0%nat -> V5.from_last_at s = None.
Proof.
  induction s as [|c s IH]; [done|]. cbn [count_unit V5.from_last_at].
  destruct (Ascii.eqb c "@"); [done|]. intros H. by rewrite (IH H).
Qed.

Lemma from_last_at_app (s domain : string) :
  count_unit "@" domain = 0%nat ->
  V5.from_last_at (s +:+ String "@" domain) = Some (String "@" domain).
Proof.
  intros Hd. induction s as [|c s IH].
  - change (EmptyString +:+ ?x) with x. cbn [V5.from_last_at].
    by rewrite (from_last_at_none _ Hd).
  - change (String c s +:+ ?x) with (String c (s +:+ x)). cbn [V5.from_last_at].
    by rewrite IH.
Qed.

Lemma maskEmail_eq (s : string) :
  V5.maskEmail s
  = match V5.mask_at s with
    | Some masked => masked
    | None =>
        match s with
        | String c rest => String c (V5.maskEmail rest)
        | EmptyString => EmptyString
        end
    end.
Proof. by destruct s. Qed.

Lemma maskEmail_without_at (s : string) :
  count_unit "@" s = 0%nat -> one_line s = true -> V5.maskEmail s = s.
Proof.
  induction s as [|a s IH]; [done|]. cbn [count_unit one_line].
  destruct (Ascii.eqb a "@") eqn:Ha; [done|].
  intros Hat [Hla Hl]%andb_true_iff. rewrite maskEmail_eq.
  assert (V5.mask_at (String a s) = None) as ->.
  { unfold V5.mask_at. destruct s as [|b rest]; [done|].
    destruct (_ || _); [done|]. cbn [count_unit one_line] in Hat, Hl.
    apply andb_true_iff in Hl as [_ Hl]. rewrite (line_of_one_line _ Hl).
    rewrite from_last_at_none; [done|]. destruct (Ascii.eqb b "@"); [done|]. lia. }
  by rewrite IH.
Qed.

Lemma maskEmail_at_head (domain : string) :
  count_unit "@" domain = 0%nat -> one_line domain = true ->
  V5.maskEmail (String "@" domain) = String "@" domain.
Proof.
  intros Hd Hl. rewrite maskEmail_eq.
  assert (V5.mask_at (String "@" domain) = None) as ->.
  { unfold V5.mask_at. destruct domain as [|b rest]; [done|].
    destruct (_ || _); [done|]. cbn [count_unit one_line] in Hd, Hl.
    apply andb_true_iff in Hl as [_ Hl]. rewrite (line_of_one_line _ Hl).
    rewrite from_last_at_none; [done|]. destruct (Ascii.eqb b "@"); [done|]. lia. }
  by rewrite maskEmail_without_at.
Qed.

Lemma one_line_app (s t : string) :
  one_line s = true -> one_line t = true -> one_line (s +:+ t) = true.
Proof.
  intros Hs Ht. induction s as [|c s IH]; [done|].
  change (String c s +:+ t) with (String c (s +:+ t)). cbn [one_line] in *.
  apply andb_true_iff in Hs as [-> Hs]. by rewrite IH.
Qed.

(** X27: how far formatOrderNotification masks an email, local part before
    the at-sign, domain after it, both without at-sign and line break: of a
    local part of two or more characters the first two are shown and the
    rest is replaced by three stars; a local part of one character (or none)
    is not masked at all, and the address is shown in full. *)
Theorem maskEmail_shows_two_characters_or_everything (local domain : string) :
  count_unit "@" local = 0%nat -> one_line local = true ->
  count_unit "@" domain = 0%nat -> one_line domain = true ->
  V5.maskEmail (local +:+ String "@" domain)
  = match local with
    | String a (String b _) => String a (String b ("***" +:+ String "@" domain))
    | _ => local +:+ String "@" domain
    end.
Proof.
  intros Hla Hll Hda Hdl. destruct local as [|a [|b rest]].
  - change (EmptyString +:+ ?x) with x. by apply maskEmail_at_head.
  - change (String a EmptyString +:+ ?x) with (String a x).
    cbn [count_unit one_line] in Hla, Hll.
    rewrite maskEmail_eq.
    assert (V5.mask_at (String a (String "@" domain)) = None) as ->.
    { unfold V5.mask_at. destruct (_ || _); [done|].
      rewrite (line_of_one_line _ Hdl). by rewrite from_last_at_none. }
    by rewrite maskEmail_at_head.
  - change (String a (String b rest) +:+ ?x) with (String a (String b (rest +:+ x))).
    cbn [count_unit one_line] in Hla, Hll.
    apply andb_true_iff in Hll as [Ha [Hb Hr]%andb_true_iff].
    apply negb_true_iff in Ha, Hb.
    rewrite maskEmail_eq. unfold V5.mask_at. rewrite Ha, Hb. cbn [orb].
    rewrite line_of_one_line.
    2: { apply one_line_app; [done|]. cbn [one_line]. by rewrite Hdl. }
    rewrite from_last_at_app by done. by rewrite string_app_empty.
Qed.

Lemma maskEmail_witness :
  V5.maskEmail "ann@example.com" = "an***@example.com"
  /\ V5.maskEmail "a@example.com" = "a@example.com".
Proof.
  split.
  - apply (maskEmail_shows_two_characters_or_everything "ann" "example.com");
      reflexivity.
  - apply (maskEmail_shows_two_characters_or_everything "a" "example.com");
      reflexivity.
Defined.

(** ** From checkout to dispatch in getfame-backend-v5 *)

Lemma snoc_ne {A} (l : list A) (x : A) : l <> l ++ [x].
Proof.
  intros H. apply (f_equal List.length) in H. rewrite length_app in H.
  cbn [List.length] in H. lia.
Qed.

Lemma carried_own asked event k s :
  carried asked event = true ->
  Body.own asked k = Some (Body.Text s) ->
  Stripe.meta (Stripe.metadata (Stripe.object event)) k = Some s.
Proof.
  unfold carried. induction asked as [|[k' v] asked IH]; [done|].
  cbn [forallb Body.own fst snd]. intros [Hv Hrest]%andb_true_iff.
  destruct (String.eqb k' k) eqn:Hk.
  - apply String.eqb_eq in Hk as ->. intros [= ->].
    by apply bool_decide_eq_true in Hv.
  - by apply IH.
Qed.

(** What the Stripe handler of v5 does with a completed checkout when the
    JAP key is set: one upstream call, and one record more, at the head. *)
Lemma v5_fulfil_shape (e : V5.env) (up : Jap.upstream) (event : Stripe.event)
    (now : Z) (st : V5.state) :
  truthy (V5.JAP_API_KEY e) = true ->
  Stripe.type event = "checkout.session.completed" ->
  V5.japCalls (V5.fulfil e up event now st) = V5.japCalls st ++ [v5_request event]
  /\ exists status j,
       V5.orders (V5.fulfil e up event now st)
       = V5.touch status j
           (V5.mkOrder now
              (Stripe.meta (Stripe.metadata (Stripe.object event)) "link")
              (Stripe.customer_email (Stripe.object event))
              (ParseInt.parseInt_of
                 (Stripe.meta (Stripe.metadata (Stripe.object event)) "quantity"))
              (ParseInt.parseInt_of
                 (Stripe.meta (Stripe.metadata (Stripe.object event)) "serviceId"))
              (Stripe.amount_total (Stripe.object event)) "Card" "processing"
              (Stripe.id (Stripe.object event)) None)
         :: V5.orders st.
Proof.
  intros Hkey Htype. unfold V5.fulfil. rewrite Htype.
  change (String.eqb "checkout.session.completed" "checkout.session.completed")
    with true. cbv iota.
  unfold V5.addOrder, V5.createJAPOrder, V5.notify.
  cbn [V5.orders V5.japCalls V5.notifications V5.sessions V5.link V5.quantity
       V5.serviceId V5.id V5.email V5.amount V5.payment V5.status
       V5.stripeSessionId V5.japOrderId].
  rewrite Hkey. cbn [negb].
  destruct (up _) as [message|order error];
    [|destruct (Jap.order_truthy order)];
    match goal with
    | |- context [V5.updateOrderStatus ?k ?s ?j (V5.mkState (?o :: ?l) ?c ?n ?ss)] =>
        rewrite (v5_update_head o l s j c n ss : V5.updateOrderStatus k s j _ = _)
    end;
    cbn [V5.japCalls V5.orders]; (split; [done|]); by eexists _, _.
Qed.

Lemma post_order_session S N e created body st request :
  V5.sessions (V5.post_order S N e created body st).2
  = V5.sessions st ++ [request] ->
  V5.validateOrderInput S N body = Some []
  /\ V5.session_request S N body = Some request.
Proof.
  unfold V5.post_order.
  destruct (V5.validateOrderInput S N body) as [[|err errs]|];
    [|by intros ?%snoc_ne..].
  cbn [List.length Nat.ltb Nat.leb].
  destruct (negb (truthy (V5.STRIPE_SECRET_KEY e))); [by intros ?%snoc_ne|].
  destruct (V5.session_request S N body) as [r|]; [|by intros ?%snoc_ne].
  destruct created as [[url sessionId]|]; cbn [snd V5.sessions];
    by intros [_ [= ->]]%app_inj_tail.
Qed.

Lemma toString_of_truthy N (v : Body.value) :
  Body.truthy (Some v) = true ->
  Body.toString_of N (Some v) = Body.ToString N v.
Proof. by destruct v. Qed.

Lemma Number_toString_integer N (q : Q) (z : Z) :
  Body.integral q = Some z ->
  (Z.abs z < 2 ^ 53)%Z ->
  ParseInt.parseInt (Body.Number_toString N (Body.Finite q)) = Jap.Num z.
Proof.
  intros Hq Hz. cbn [Body.Number_toString]. rewrite Hq.
  assert ((Z.abs z <=? 2 ^ 53)%Z = true) as -> by (apply Z.leb_le; lia).
  by apply parseInt_pretty.
Qed.

(** X13: from checkout to dispatch in getfame-backend-v5, whatever JSON the
    request is.  When the order endpoint has asked Stripe for a session and
    the event of its completion brings back the texts of the session's
    metadata, the webhook, with the JAP key set, sends the upstream one
    request and stores one record for it: the link is the link of the
    request, trimmed and cut to 500 code units, and service and quantity are
    what parseInt reads in the text the member of the request was written
    as.  A service id or a quantity that is an integer below 2^53 in absolute
    value therefore arrives as that integer; any other member arrives as the
    integer at the head of its text, or as [NaN]. *)
Theorem v5_checkout_to_dispatch
    (StringToNumber : string -> Body.number) (Number_digits : Q -> string)
    (e : V5.env) (up : Jap.upstream) (created : option (string * string))
    (body : Body.object) (st : V5.state) (request : V5.SessionRequest)
    (event : Stripe.event) (now : Z) (store : V5.state) :
  V5.sessions (V5.post_order StringToNumber Number_digits e created body st).2
  = V5.sessions st ++ [request] ->
  carried (V5.session_metadata request) event = true ->
  Stripe.type event = "checkout.session.completed" ->
  truthy (V5.JAP_API_KEY e) = true ->
  exists link service quantity quantity_text,
    Body.own body "link" = Some (Body.Text link)
    /\ Body.own body "serviceId" = Some (Body.Number service)
    /\ Body.own body "quantity" = Some quantity
    /\ Body.ToString Number_digits quantity = Some quantity_text
    /\ V5.japCalls (V5.fulfil e up event now store)
       = V5.japCalls store
         ++ [Jap.Request
               (ParseInt.parseInt (Body.Number_toString Number_digits service))
               (Some (V5.sanitizeInput link)) (ParseInt.parseInt quantity_text)]
    /\ (exists saved,
          V5.orders (V5.fulfil e up event now store) = saved :: V5.orders store
          /\ V5.link saved = Some (V5.sanitizeInput link)
          /\ V5.serviceId saved
             = ParseInt.parseInt (Body.Number_toString Number_digits service)
          /\ V5.quantity saved = ParseInt.parseInt quantity_text)
    /\ (forall q z,
          service = Body.Finite q ->
          Body.integral q = Some z ->
          (Z.abs z < 2 ^ 53)%Z ->
          ParseInt.parseInt (Body.Number_toString Number_digits service)
          = Jap.Num z)
    /\ (forall q z,
          quantity = Body.Number (Body.Finite q) ->
          Body.integral q = Some z ->
          (Z.abs z < 2 ^ 53)%Z ->
          ParseInt.parseInt quantity_text = Jap.Num z).
Proof.
  intros Hsession Hcarried Htype Hkey.
  apply post_order_session in Hsession as [Hvalid Hrequest].
  apply validateOrderInput_nil in Hvalid
    as ((link & Hlink & _) & _ & Hq & (service & Hservice & Hst) & _).
  apply range_errors_nil in Hq as (quantity & n & Hquantity & Hqt & _).
  unfold V5.session_request in Hrequest.
  rewrite Hlink, Hservice, Hquantity in Hrequest.
  destruct (Body.ToString Number_digits (V5.or_else _ "Instagram"));
    cbn [mbind option_bind] in Hrequest; [|done].
  destruct (Body.ToString Number_digits (V5.or_else _ "Followers"));
    cbn [mbind option_bind] in Hrequest; [|done].
  destruct (Body.ToString Number_digits (V5.or_else _ "Standard"));
    cbn [mbind option_bind] in Hrequest; [|done].
  destruct (negb (Body.toLocaleString_returns quantity)); [done|].
  destruct (Body.ToNumber_of _ _ _) as [price|];
    cbn [mbind option_bind] in Hrequest; [|done].
  rewrite (toString_of_truthy _ _ Hqt), (toString_of_truthy _ _ Hst) in Hrequest.
  destruct (Body.ToString Number_digits quantity) as [quantity_text|] eqn:Htext;
    cbn [mbind option_bind] in Hrequest; [|done].
  cbn [Body.ToString mbind option_bind from_option V5.sanitize app] in Hrequest.
  injection Hrequest as <-. cbn [V5.session_metadata] in Hcarried.
  pose proof (carried_own _ event "link" _ Hcarried eq_refl) as Hml.
  pose proof (carried_own _ event "quantity" _ Hcarried eq_refl) as Hmq.
  pose proof (carried_own _ event "serviceId" _ Hcarried eq_refl) as Hms.
  destruct (v5_fulfil_shape e up event now store Hkey Htype)
    as [Hcalls (status & j & Horders)].
  unfold v5_request in Hcalls. rewrite Hml, Hmq, Hms in Hcalls, Horders.
  cbn [ParseInt.parseInt_of] in Hcalls, Horders.
  exists link, service, quantity, quantity_text.
  split; [done|]. split; [done|]. split; [done|]. split; [done|].
  split; [done|]. split; [|split].
  - eexists. split; [exact Horders|]. by cbn.
  - intros q z -> Hz Hb. by apply Number_toString_integer.
  - intros q z -> Hz Hb. cbn [Body.ToString] in Htext. injection Htext as <-.
    by apply Number_toString_integer.
Qed.

Lemma v5_checkout_to_dispatch_witness :
  V5.japCalls
    (V5.fulfil v5_env accepting
       (paid_session (texts (V5.session_metadata asked_session)))
       1700000005000 v5_empty)
  = [Jap.Request (Jap.Num 7446%Z) (Some "https://instagram.com/ann")
       (Jap.Num 5000%Z)].
Proof.
  destruct (v5_checkout_to_dispatch demo_StringToNumber demo_digits v5_env
              accepting (Some ("https://checkout.stripe.com/c/pay/cs_1", "cs_1"))
              (order_for (Body.Number (Body.Finite 5000))) v5_empty
              asked_session
              (paid_session (texts (V5.session_metadata asked_session)))
              1700000005000 v5_empty)
    as (link & service & quantity & quantity_text
        & Hlink & Hservice & Hquantity & Htext & Hcalls & _);
    [reflexivity..|].
  vm_compute in Hlink, Hservice, Hquantity.
  injection Hlink as <-. injection Hservice as <-. injection Hquantity as <-.
  vm_compute in Htext. injection Htext as <-. rewrite Hcalls. reflexivity.
Defined.

(** What reaches the upstream for a quantity of 5000, of 1000.5, and for
    quantities that are no numbers: the texts [0x10], [7446abc] and [abc],
    and [true].  All of them pass the validation. *)
Example checkout_then_webhook_examples :
  let sent quantity :=
    [Jap.Request (Jap.Num 7446%Z) (Some "https://instagram.com/ann") quantity] in
  checkout_then_webhook (order_for (Body.Number (Body.Finite 5000)))
  = sent (Jap.Num 5000%Z)
  /\ checkout_then_webhook (order_for (Body.Number (Body.Finite (2001 # 2))))
     = sent (Jap.Num 1000%Z)
  /\ checkout_then_webhook (order_for (Body.Text "0x10")) = sent (Jap.Num 16%Z)
  /\ checkout_then_webhook (order_for (Body.Text "7446abc"))
     = sent (Jap.Num 7446%Z)
  /\ checkout_then_webhook (order_for (Body.Text "abc")) = sent Jap.NaN
  /\ checkout_then_webhook (order_for (Body.Bool true)) = sent Jap.NaN.
Proof. vm_compute. done. Qed.
